(** * Booking service of the storage-and-booking application

    A shallow embedding of [backend/src/services/booking.service.ts]
    (class [BookingService]) and of the availability helper
    [calculateAvailableQuantity], followed by the properties of the
    booking engine that the specification states about them.

    The service talks to a Supabase (PostgREST) store.  The store is
    modelled as four tables held in a [World]; every awaited store call
    is one step of a state-and-exception monad.  An exception leaves the
    world as it is at the point of the [throw]: nothing in the source
    opens a transaction, so nothing is rolled back. *)

From Stdlib Require Import List String Ascii ZArith Bool Lia DecimalString.
Import ListNotations.
Local Open Scope string_scope.
Local Open Scope Z_scope.

(** ** Data model *)

(** The [status] column of [orders] and [order_items].  The source writes
    the literals "pending", "confirmed", "rejected", "cancelled by user",
    "cancelled by admin" and "deleted". *)
Inductive Status :=
| pending
| confirmed
| rejected
| cancelled_by_user
| cancelled_by_admin
| deleted.

Definition Status_eqb (a b : Status) : bool :=
  match a, b with
  | pending, pending | confirmed, confirmed | rejected, rejected
  | cancelled_by_user, cancelled_by_user
  | cancelled_by_admin, cancelled_by_admin | deleted, deleted => true
  | _, _ => false
  end.

(** Row of [user_profiles]; the role is the string the source compares
    with "admin", "superVera" and "service_role". *)
Record UserProfile := {
  up_id : string;
  up_role : string
}.

(** Row of [storage_items]. *)
Record StorageItem := {
  si_id : string;
  items_number_total : Z;
  items_number_available : Z;
  si_location_id : string
}.

(** Row of [orders]. *)
Record Order := {
  o_id : string;
  o_user_id : string;
  o_status : Status;
  order_number : string
}.

(** Row of [order_items] (the ledger of claims).  Instants are
    milliseconds since the epoch, as [Date.getTime] gives them; the
    quantity column is nullable, which is why the source writes
    [o.quantity ?? 0]. *)
Record OrderItem := {
  oi_order_id : string;
  oi_item_id : string;
  oi_location_id : string;
  oi_quantity : option Z;
  oi_start_date : Z;
  oi_end_date : Z;
  oi_total_days : Z;
  oi_status : Status
}.

(** One entry of [CreateBookingDto.items]. *)
Record BookingItem := {
  item_id : string;
  quantity : Z;
  start_date : Z;
  end_date : Z
}.

Record CreateBookingDto := {
  user_id : option string;
  items : list BookingItem
}.

(** What the service cannot see from inside: which store calls fail
    (transport or database error), what [Math.random] and [new Date]
    give, and which primary keys the database hands out. *)
Record Env := {
  calls : nat;                 (* store calls issued so far *)
  fault : nat -> bool;         (* does the n-th store call fail? *)
  draws : nat;                 (* calls of Math.random so far *)
  random : nat -> Z;           (* Math.floor(Math.random() * 10000), n-th call *)
  today : string;              (* toISOString().split("T")[0] without dashes *)
  minted : nat;                (* primary keys handed out so far *)
  uuid : nat -> string         (* the n-th primary key *)
}.

Record World := {
  user_profiles : list UserProfile;
  storage_items : list StorageItem;
  orders : list Order;
  order_items : list OrderItem;
  stock_log : list (string * Z); (* (id, value) of every update of items_number_available, oldest first *)
  env : Env
}.

Definition with_storage_items (w : World) (l : list StorageItem) : World :=
  {| user_profiles := user_profiles w; storage_items := l;
     orders := orders w; order_items := order_items w;
     stock_log := stock_log w; env := env w |}.

Definition with_orders (w : World) (l : list Order) : World :=
  {| user_profiles := user_profiles w; storage_items := storage_items w;
     orders := l; order_items := order_items w;
     stock_log := stock_log w; env := env w |}.

Definition with_order_items (w : World) (l : list OrderItem) : World :=
  {| user_profiles := user_profiles w; storage_items := storage_items w;
     orders := orders w; order_items := l;
     stock_log := stock_log w; env := env w |}.

Definition with_stock_log (w : World) (l : list (string * Z)) : World :=
  {| user_profiles := user_profiles w; storage_items := storage_items w;
     orders := orders w; order_items := order_items w;
     stock_log := l; env := env w |}.

Definition with_env (w : World) (e : Env) : World :=
  {| user_profiles := user_profiles w; storage_items := storage_items w;
     orders := orders w; order_items := order_items w;
     stock_log := stock_log w; env := e |}.

Definition tick (e : Env) : Env :=
  {| calls := S (calls e); fault := fault e; draws := draws e;
     random := random e; today := today e; minted := minted e;
     uuid := uuid e |}.

Definition drawn (e : Env) : Env :=
  {| calls := calls e; fault := fault e; draws := S (draws e);
     random := random e; today := today e; minted := minted e;
     uuid := uuid e |}.

Definition mint (e : Env) : Env :=
  {| calls := calls e; fault := fault e; draws := draws e;
     random := random e; today := today e; minted := S (minted e);
     uuid := uuid e |}.

(** ** Exceptions and the monad of the service *)

Inductive Exn :=
| BadRequestException (message : string)
| ForbiddenException (message : string)
| Error (message : string).

Inductive Outcome (A : Type) :=
| Returned (a : A)
| Thrown (e : Exn).
Arguments Returned {A} a.
Arguments Thrown {A} e.

Definition M (A : Type) : Type := World -> World * Outcome A.

Definition ret {A} (a : A) : M A := fun w => (w, Returned a).

Definition throw {A} (e : Exn) : M A := fun w => (w, Thrown e).

Definition bind {A B} (c : M A) (k : A -> M B) : M B :=
  fun w =>
    match c w with
    | (w1, Returned a) => k a w1
    | (w1, Thrown e) => (w1, Thrown e)
    end.

Notation "x <- c ;; k" := (bind c (fun x => k))
  (at level 61, c at next level, right associativity).
Notation "c ;;; k" := (bind c (fun _ => k))
  (at level 61, right associativity).

(** [for (const x of xs) { body }] *)
Fixpoint for_of {A} (xs : list A) (body : A -> M unit) : M unit :=
  match xs with
  | [] => ret tt
  | x :: rest => body x ;;; for_of rest body
  end.

(** One awaited store call.  The reply is [None] where supabase-js gives
    [{ data: null, error }]; a call the environment makes fail touches no
    table. *)
Definition store {A} (op : World -> World * option A) : M (option A) :=
  fun w =>
    let w1 := with_env w (tick (env w)) in
    if fault (env w) (calls (env w)) then (w1, Returned None)
    else let (w2, r) := op w1 in (w2, Returned r).

(** [.single()]: exactly one row, else an error. *)
Definition single {R} (rows : list R) : option R :=
  match rows with
  | [r] => Some r
  | _ => None
  end.

(** [q ?? 0], [q || 0] and the value of a nullable number under [<] and
    [-]: null counts as 0. *)
Definition num (q : option Z) : Z :=
  match q with
  | Some v => v
  | None => 0
  end.

(** ** Pieces of JavaScript the service relies on *)

(** [Number.prototype.toString] on a non-negative integer. *)
Definition toString (n : Z) : string :=
  NilZero.string_of_uint (N.to_uint (Z.to_N n)).

Fixpoint repeat_string (c : string) (n : nat) : string :=
  match n with
  | O => ""
  | S k => c ++ repeat_string c k
  end.

(** [s.padStart(n, c)] for a one-character [c]. *)
Definition padStart (n : nat) (c : string) (s : string) : string :=
  repeat_string c (n - String.length s) ++ s.

(** [Math.ceil(a / b)] for a positive [b]. *)
Definition ceil_div (a b : Z) : Z := - ((- a) / b).

Definition ms_per_day : Z := 1000 * 60 * 60 * 24.

(** [new Date("YYYY-MM-DD").getTime()]: midnight UTC of a civil date of
    the proleptic Gregorian calendar, in milliseconds since 1970-01-01. *)
Definition date_ms (y m d : Z) : Z :=
  let y' := if m <=? 2 then y - 1 else y in
  let era := y' / 400 in
  let yoe := y' - era * 400 in
  let doy := (153 * (if m >? 2 then m - 3 else m + 9) + 2) / 5 + d - 1 in
  let doe := yoe * 365 + yoe / 4 - yoe / 100 + doy in
  (era * 146097 + doe - 719468) * ms_per_day.

(** ** 3. create a Booking *)

(** The overlap query of [createBooking]:
    [from("order_items").select("quantity").eq("item_id", item.item_id)
      .or(`and(start_date.lte.${item.end_date},end_date.gte.${item.start_date})`)]. *)
Definition where_create (item : BookingItem) (r : OrderItem) : bool :=
  String.eqb (oi_item_id r) (item_id item)
  && ((oi_start_date r <=? end_date item) && (oi_end_date r >=? start_date item)).

Definition overlappingOrders_create (item : BookingItem) (w : World) : list (option Z) :=
  map oi_quantity (filter (where_create item) (order_items w)).

(** [rows.reduce((sum, o) => sum + (o.quantity ?? 0), 0)] *)
Definition sum_quantity (rows : list (option Z)) : Z :=
  fold_left (fun sum o => sum + num o) rows 0.

Definition not_enough_quantity (id : string) : Exn :=
  BadRequestException ("Not enough quantity available for item " ++ id).

(** Body of the first loop of [createBooking] ("check for overlapping
    bookings"). *)
Definition check_item (item : BookingItem) : M unit :=
  overlappingOrders <- store (fun w => (w, Some (overlappingOrders_create item w))) ;;
  match overlappingOrders with
  | None => throw (BadRequestException "Could not check overlapping bookings")
  | Some rows =>
      let alreadyBookedQuantity := sum_quantity rows in
      itemData <- store (fun w =>
        (w, single (map items_number_total
                      (filter (fun s => String.eqb (si_id s) (item_id item))
                              (storage_items w))))) ;;
      match itemData with
      | None => throw (BadRequestException "Item data not found")
      | Some total =>
          if alreadyBookedQuantity + quantity item >? total
          then throw (not_enough_quantity (item_id item))
          else ret tt
      end
  end.

(** [generateOrderNumber]: "ORD-" + date part + "-" + four random digits.
    It is called once per [createBooking], when the row to insert is
    built. *)
Definition generateOrderNumber : M string :=
  fun w =>
    let e := env w in
    let randomPart := padStart 4 "0" (toString (random e (draws e) mod 10000)) in
    (with_env w (drawn e), Returned ("ORD-" ++ today e ++ "-" ++ randomPart)).

(** [from("orders").insert({...}).select().single()].

    Modelled from the spec: the uniqueness constraint on the order number
    ("booking_number (unique, ...)"); the schema of [orders] is not among
    the sources.  An insert that would repeat an existing order number is
    refused by the store. *)
Definition insert_order (uid : string) (st : Status) (number : string) : M (option Order) :=
  store (fun w =>
    if existsb (fun o => String.eqb (order_number o) number) (orders w)
    then (w, None)
    else
      let e := env w in
      let row := {| o_id := uuid e (minted e); o_user_id := uid;
                    o_status := st; order_number := number |} in
      (with_env (with_orders w (orders w ++ [row])) (mint e), Some row)).

(** Body of the second loop of [createBooking] ("Insert order items and
    calculate days"). *)
Definition insert_item (order : Order) (item : BookingItem) : M unit :=
  let totalDays := ceil_div (end_date item - start_date item) ms_per_day in
  storageItem <- store (fun w =>
    (w, single (map si_location_id
                  (filter (fun s => String.eqb (si_id s) (item_id item))
                          (storage_items w))))) ;;
  match storageItem with
  | None =>
      throw (BadRequestException ("Could not fetch location_id for item " ++ item_id item))
  | Some location =>
      inserted <- store (fun w =>
        (with_order_items w
           (order_items w ++
              [{| oi_order_id := o_id order; oi_item_id := item_id item;
                  oi_location_id := location; oi_quantity := Some (quantity item);
                  oi_start_date := start_date item; oi_end_date := end_date item;
                  oi_total_days := totalDays; oi_status := pending |}]),
         Some tt)) ;;
      match inserted with
      | None => throw (BadRequestException "Could not create order items")
      | Some _ => ret tt
      end
  end.

Definition createBooking (dto : CreateBookingDto) : M Order :=
  match user_id dto with
  | None => throw (BadRequestException "No userId found: user_id is required")
  | Some userId =>
      if String.eqb userId ""
      then throw (BadRequestException "No userId found: user_id is required")
      else
        user <- store (fun w =>
          (w, single (filter (fun u => String.eqb (up_id u) userId) (user_profiles w)))) ;;
        match user with
        | None => throw (BadRequestException "User not found")
        | Some user =>
            for_of (items dto) check_item ;;;
            number <- generateOrderNumber ;;
            order <- insert_order (up_id user) pending number ;;
            match order with
            | None => throw (BadRequestException "Could not create order")
            | Some order =>
                for_of (items dto) (insert_item order) ;;;
                ret order
            end
        end
  end.

(** ** 4. confirm a Booking *)

Definition not_enough_available (id : string) : Exn :=
  BadRequestException ("Not enough available quantity for item " ++ id).

Definition set_available (id : string) (v : Z) (s : StorageItem) : StorageItem :=
  if String.eqb (si_id s) id
  then {| si_id := si_id s; items_number_total := items_number_total s;
          items_number_available := v; si_location_id := si_location_id s |}
  else s.

(** [from("storage_items").update({ items_number_available: v }).eq("id", id)];
    the written value is appended to the stock log. *)
Definition update_available (id : string) (v : Z) : M (option unit) :=
  store (fun w =>
    (with_stock_log
       (with_storage_items w (map (set_available id v) (storage_items w)))
       (stock_log w ++ [(id, v)]),
     Some tt)).

(** Body of the loop of [confirmBooking] ("check availability of the
    items"); [item] is a row of [select("item_id, quantity")]. *)
Definition confirm_item (item : string * option Z) : M unit :=
  let (id, qty) := item in
  storageItem <- store (fun w =>
    (w, single (map items_number_available
                  (filter (fun s => String.eqb (si_id s) id) (storage_items w))))) ;;
  match storageItem with
  | None => throw (BadRequestException "Could not fetch storage item details")
  | Some available =>
      if available <? num qty
      then throw (not_enough_available id)
      else
        reduced <- update_available id (available - num qty) ;;
        match reduced with
        | None => throw (BadRequestException ("Failed to reduce stock for item " ++ id))
        | Some _ => ret tt
        end
  end.

(** [from("order_items").select("item_id, quantity").eq("order_id", orderId)] *)
Definition items_of_order (orderId : string) (w : World) : list (string * option Z) :=
  map (fun r => (oi_item_id r, oi_quantity r))
      (filter (fun r => String.eqb (oi_order_id r) orderId) (order_items w)).

Definition set_order_status (orderId : string) (st : Status) (w : World) : World :=
  with_orders w
    (map (fun o =>
            if String.eqb (o_id o) orderId
            then {| o_id := o_id o; o_user_id := o_user_id o; o_status := st;
                    order_number := order_number o |}
            else o)
         (orders w)).

Definition set_order_items_status (orderId : string) (st : Status) (w : World) : World :=
  with_order_items w
    (map (fun r =>
            if String.eqb (oi_order_id r) orderId
            then {| oi_order_id := oi_order_id r; oi_item_id := oi_item_id r;
                    oi_location_id := oi_location_id r; oi_quantity := oi_quantity r;
                    oi_start_date := oi_start_date r; oi_end_date := oi_end_date r;
                    oi_total_days := oi_total_days r; oi_status := st |}
            else r)
         (order_items w)).

(** The actor [userId] is only used to pick the client
    ([getClientByRole]); the function makes no role or ownership test. *)
Definition confirmBooking (orderId userId : string) : M string :=
  items <- store (fun w => (w, Some (items_of_order orderId w))) ;;
  match items with
  | None => throw (BadRequestException "Could not load order items")
  | Some items =>
      for_of items confirm_item ;;;
      updated <- store (fun w => (set_order_status orderId confirmed w, Some tt)) ;;
      match updated with
      | None => throw (BadRequestException "Could not confirm booking")
      | Some _ =>
          itemsUpdated <- store (fun w => (set_order_items_status orderId confirmed w, Some tt)) ;;
          match itemsUpdated with
          | None => throw (BadRequestException "Could not confirm order items")
          | Some _ => ret "Booking confirmed"
          end
      end
  end.

(** ** 5. update a Booking *)

(** [from("user_profiles").select("role").eq("id", userId).single()] *)
Definition role_of (userId : string) (w : World) : option string :=
  single (map up_role (filter (fun u => String.eqb (up_id u) userId) (user_profiles w))).

(** Body of the loop of [updateBooking]; neither store call is checked
    for an error except for the missing storage item. *)
Definition reinsert_item (orderId : string) (item : BookingItem) : M unit :=
  let totalDays := ceil_div (end_date item - start_date item) ms_per_day in
  storageItem <- store (fun w =>
    (w, single (map si_location_id
                  (filter (fun s => String.eqb (si_id s) (item_id item))
                          (storage_items w))))) ;;
  match storageItem with
  | None => throw (Error "Storage item not found")
  | Some location =>
      store (fun w =>
        (with_order_items w
           (order_items w ++
              [{| oi_order_id := orderId; oi_item_id := item_id item;
                  oi_location_id := location; oi_quantity := Some (quantity item);
                  oi_start_date := start_date item; oi_end_date := end_date item;
                  oi_total_days := totalDays; oi_status := pending |}]),
         Some tt)) ;;;
      ret tt
  end.

(** [from("order_items").delete().eq("order_id", orderId)] *)
Definition delete_order_items (orderId : string) : M (option unit) :=
  store (fun w =>
    (with_order_items w
       (filter (fun r => negb (String.eqb (oi_order_id r) orderId)) (order_items w)),
     Some tt)).

Definition updateBooking (orderId userId : string) (updatedItems : list BookingItem) : M string :=
  order <- store (fun w =>
    (w, single (map o_user_id (filter (fun o => String.eqb (o_id o) orderId) (orders w))))) ;;
  match order with
  | None => throw (BadRequestException "Order not found")
  | Some order_user_id =>
      user <- store (fun w => (w, role_of userId w)) ;;
      match user with
      | None => throw (BadRequestException "User not found")
      | Some role =>
          let isAdmin := String.eqb role "admin" || String.eqb role "superVera" in
          if negb (String.eqb role "admin" || String.eqb userId order_user_id
                   || String.eqb role "service_role")
          then throw (ForbiddenException "Not allowed to update this booking")
          else
            let isOwner := String.eqb order_user_id userId in
            if negb isAdmin && negb isOwner
            then throw (ForbiddenException "Not allowed to update this booking")
            else
              delete_order_items orderId ;;;
              for_of updatedItems (reinsert_item orderId) ;;;
              ret "Booking updated"
      end
  end.

(** ** 6. reject a Booking *)

Definition rejectBooking (orderId userId : string) : M string :=
  user <- store (fun w => (w, role_of userId w)) ;;
  let allowed :=
    match user with
    | None => false
    | Some role => String.eqb role "admin" || String.eqb role "superVera"
    end in
  if negb allowed
  then throw (ForbiddenException "Only admins can reject bookings")
  else
    updated <- store (fun w => (set_order_status orderId rejected w, Some tt)) ;;
    match updated with
    | None => throw (BadRequestException "Could not reject the booking")
    | Some _ => ret "Booking rejected"
    end.

(** ** 7. cancel a Booking *)

(** What [select("user_id")] returns for a row of [orders]: the object
    has the one selected column.  The type argument of [single<{ user_id;
    status }>] does not add the other, so [order.status] is [undefined],
    here [None]. *)
Record OrderUserId := {
  sel_user_id : string;
  sel_status : option Status
}.

Definition select_user_id (o : Order) : OrderUserId :=
  {| sel_user_id := o_user_id o; sel_status := None |}.

(** [order.status === "confirmed"] *)
Definition status_is (s : option Status) (lit : Status) : bool :=
  match s with
  | Some st => Status_eqb st lit
  | None => false
  end.

Definition cancelBooking (orderId userId : string) : M string :=
  order <- store (fun w =>
    (w, single (map select_user_id
                  (filter (fun o => String.eqb (o_id o) orderId) (orders w))))) ;;
  match order with
  | None => throw (BadRequestException "Order not found")
  | Some order =>
      userProfile <- store (fun w => (w, role_of userId w)) ;;
      match userProfile with
      | None => throw (BadRequestException "User profile not found")
      | Some role =>
          let isAdmin := String.eqb role "admin" || String.eqb role "superVera" in
          let isOwner := String.eqb (sel_user_id order) userId in
          (if negb isAdmin
           then
             if negb isOwner
             then throw (ForbiddenException "You can only cancel your own bookings")
             else if status_is (sel_status order) confirmed
             then throw (ForbiddenException
                           "You can't cancel a booking that has already been confirmed")
             else ret tt
           else ret tt) ;;;
          updated <- store (fun w =>
            (set_order_status orderId
               (if isAdmin then cancelled_by_admin else cancelled_by_user) w,
             Some tt)) ;;
          match updated with
          | None => throw (BadRequestException "Could not cancel the booking")
          | Some _ =>
              ret ("Booking cancelled by " ++ (if isAdmin then "admin" else "user"))
          end
      end
  end.

(** ** 8. delete a Booking and mark it as deleted *)

Definition deleteBooking (orderId userId : string) : M string :=
  order <- store (fun w =>
    (w, single (map o_user_id (filter (fun o => String.eqb (o_id o) orderId) (orders w))))) ;;
  match order with
  | None => throw (BadRequestException "Order not found")
  | Some _ =>
      userProfile <- store (fun w => (w, role_of userId w)) ;;
      match userProfile with
      | None => throw (BadRequestException "User profile not found")
      | Some role =>
          let isAdmin := String.eqb role "admin" || String.eqb role "superVera" in
          if negb isAdmin
          then throw (ForbiddenException "You are not allowed to delete this booking")
          else
            delete_order_items orderId ;;;
            store (fun w => (set_order_status orderId deleted w, Some tt)) ;;;
            ret "Booking deleted"
      end
  end.

(** ** 9. return items *)

(** Modelled from the spec: the stored procedure [increment_item_quantity]
    is not among the sources; following "for each line item, restores Item
    capacity" it adds [quantity] to the cached [items_number_available] of
    the item. *)
Definition increment_item_quantity (id : string) (qty : option Z) : M (option unit) :=
  store (fun w =>
    (with_storage_items w
       (map (fun s =>
               if String.eqb (si_id s) id
               then {| si_id := si_id s; items_number_total := items_number_total s;
                       items_number_available := items_number_available s + num qty;
                       si_location_id := si_location_id s |}
               else s)
            (storage_items w)),
     Some tt)).

(** As in [confirmBooking], [userId] only picks the client; the reply of
    the procedure call is not inspected. *)
Definition returnItems (orderId userId : string) : M string :=
  items <- store (fun w => (w, Some (items_of_order orderId w))) ;;
  match items with
  | None => throw (BadRequestException "No items found for return")
  | Some [] => throw (BadRequestException "No items found for return")
  | Some items =>
      for_of items (fun item =>
        increment_item_quantity (fst item) (snd item) ;;; ret tt) ;;;
      ret "Items returned successfully"
  end.

(** ** 10. check availability of item by date range *)

Record Availability := {
  a_item_id : string;
  availableQuantity : Z;
  alreadyBookedQuantity : Z;
  totalQuantity : Z;
  startDate : Z;
  endDate : Z
}.

(** The overlap query of [checkAvailability]:
    [.eq("item_id", itemId)
     .or(`and(start_date.lte.${endDate},end_date.gte.${startDate})`)]. *)
Definition where_check (itemId : string) (startDate endDate : Z) (r : OrderItem) : bool :=
  String.eqb (oi_item_id r) itemId
  && ((oi_start_date r <=? endDate) && (oi_end_date r >=? startDate)).

Definition overlappingOrders_check (itemId : string) (startDate endDate : Z) (w : World)
  : list (option Z) :=
  map oi_quantity (filter (where_check itemId startDate endDate) (order_items w)).

Definition checkAvailability (itemId : string) (startDate endDate : Z) (userId : string)
  : M Availability :=
  overlappingOrders <- store (fun w => (w, Some (overlappingOrders_check itemId startDate endDate w))) ;;
  match overlappingOrders with
  | None => throw (BadRequestException "Error checking overlapping bookings")
  | Some rows =>
      let alreadyBookedQuantity := sum_quantity rows in
      itemData <- store (fun w =>
        (w, single (map items_number_total
                      (filter (fun s => String.eqb (si_id s) itemId) (storage_items w))))) ;;
      match itemData with
      | None => throw (BadRequestException "Item data not found")
      | Some total =>
          let availableQuantity := total - alreadyBookedQuantity in
          ret {| a_item_id := itemId; availableQuantity := availableQuantity;
                 alreadyBookedQuantity := alreadyBookedQuantity;
                 totalQuantity := total; startDate := startDate; endDate := endDate |}
      end
  end.

(** ** The availability calculator ([calculateAvailableQuantity]) *)

(** Its overlap query:
    [.eq("item_id", itemId).in("status", ["pending", "confirmed"])
     .or(`and(start_date.lte.${endDate},end_date.gte.${startDate})`)]. *)
Definition where_calc (itemId : string) (startDate endDate : Z) (r : OrderItem) : bool :=
  String.eqb (oi_item_id r) itemId
  && existsb (Status_eqb (oi_status r)) [pending; confirmed]
  && ((oi_start_date r <=? endDate) && (oi_end_date r >=? startDate)).

Definition overlapping_calc (itemId : string) (startDate endDate : Z) (w : World)
  : list (option Z) :=
  map oi_quantity (filter (where_calc itemId startDate endDate) (order_items w)).

Definition calculateAvailableQuantity (itemId : string) (startDate endDate : Z) : M Z :=
  overlapping <- store (fun w => (w, Some (overlapping_calc itemId startDate endDate w))) ;;
  match overlapping with
  | None => throw (Error "Error checking the bookings")
  | Some rows =>
      let booked := fold_left (fun sum o => sum + num o) rows 0 in
      item <- store (fun w =>
        (w, single (map items_number_total
                      (filter (fun s => String.eqb (si_id s) itemId) (storage_items w))))) ;;
      match item with
      | None => throw (Error "Error when retrieving/ calling item.total")
      | Some total => ret (total - booked)
      end
  end.

(** * Vocabulary of the properties *)

(** A relation [P] between the world a computation starts in and the
    world it leaves, whether it returns or throws. *)
Definition preserves (P : World -> World -> Prop) {A} (c : M A) : Prop :=
  forall w, P w (fst (c w)).

(** The four tables are as before. *)
Definition same_tables (w w' : World) : Prop :=
  user_profiles w' = user_profiles w /\ storage_items w' = storage_items w
  /\ orders w' = orders w /\ order_items w' = order_items w.

(** Bookings and their line items are as before. *)
Definition same_bookings (w w' : World) : Prop :=
  orders w' = orders w /\ order_items w' = order_items w.

(** No store call fails from now on. *)
Definition no_faults (w : World) : Prop := forall n, fault (env w) n = false.

(** The overlap predicate in the words of the specification: closed
    intervals [a] and [b] intersect iff [a.start <= b.end] and
    [a.end >= b.start]. *)
Definition intervals_overlap (a_start a_end b_start b_end : Z) : Prop :=
  a_start <= b_end /\ a_end >= b_start.

(** The stock log grew by entries that are all non-negative. *)
Definition wrote_nonneg (w w' : World) : Prop :=
  exists evs, stock_log w' = (stock_log w ++ evs)%list
              /\ Forall (fun ev => 0 <= snd ev) evs.

(** The cached count of an item, as the [.single()] reads of
    [confirmBooking] see it. *)
Definition cached_available (id : string) (w : World) : option Z :=
  single (map items_number_available
            (filter (fun s => String.eqb (si_id s) id) (storage_items w))).

(** The capacity of an item, as the [.single()] reads of [createBooking]
    and [checkAvailability] see it. *)
Definition capacity (id : string) (w : World) : option Z :=
  single (map items_number_total
            (filter (fun s => String.eqb (si_id s) id) (storage_items w))).

(** A line item of a booking asks for more than the cached count of its
    item. *)
Definition lacks_capacity (w : World) (item : string * option Z) : Prop :=
  exists available,
    cached_available (fst item) w = Some available /\ available < num (snd item).

(** No cached count is larger than it was. *)
Definition cached_le (w w' : World) : Prop :=
  forall id a', cached_available id w' = Some a' ->
                exists a, cached_available id w = Some a /\ a' <= a.

(** A requested line item exceeds what [createBooking] finds available:
    the quantities of the overlapping ledger rows plus the request are more
    than the capacity of the item. *)
Definition exceeds_availability (w : World) (item : BookingItem) : Prop :=
  exists total,
    capacity (item_id item) w = Some total
    /\ sum_quantity (overlappingOrders_create item w) + quantity item > total.

(** A requested line item fits. *)
Definition fits_availability (w : World) (item : BookingItem) : Prop :=
  exists total,
    capacity (item_id item) w = Some total
    /\ sum_quantity (overlappingOrders_create item w) + quantity item <= total.

(** Two worlds with the same stock and the same environment. *)
Definition same_stock (w1 w2 : World) : Prop :=
  storage_items w1 = storage_items w2 /\ env w1 = env w2.

(** A computation that reads nothing but the stock and the environment:
    from two such worlds it ends the same way, in two such worlds. *)
Definition stock_only {A} (c : M A) : Prop :=
  forall w1 w2, same_stock w1 w2 ->
                same_stock (fst (c w1)) (fst (c w2)) /\ snd (c w1) = snd (c w2).

(** [Math.random] is not called. *)
Definition same_draws (w w' : World) : Prop := draws (env w') = draws (env w).

(** How a call of [createBooking] can go: refused before the checks;
    refused by the check loop; order insert refused; or order inserted and
    the line items then written one by one. *)
Inductive create_case (dto : CreateBookingDto) (w : World)
  : World -> Outcome Order -> Prop :=
| create_refused_early w' e :
    same_tables w w' -> same_draws w w' ->
    e = BadRequestException "No userId found: user_id is required"
    \/ e = BadRequestException "User not found" ->
    create_case dto w w' (Thrown e)
| create_refused_by_check w0 w' e :
    same_tables w w0 -> same_draws w w0 ->
    for_of (items dto) check_item w0 = (w', Thrown e) ->
    create_case dto w w' (Thrown e)
| create_insert_refused w0 w1 w' :
    same_tables w w0 -> same_draws w w0 ->
    for_of (items dto) check_item w0 = (w1, Returned tt) ->
    same_tables w w' -> draws (env w') = S (draws (env w)) ->
    create_case dto w w' (Thrown (BadRequestException "Could not create order"))
| create_inserted w0 w1 w2 order :
    same_tables w w0 -> same_draws w w0 ->
    for_of (items dto) check_item w0 = (w1, Returned tt) ->
    ~ In (order_number order) (map order_number (orders w)) ->
    o_status order = pending ->
    orders w2 = (orders w ++ [order])%list ->
    order_items w2 = order_items w ->
    storage_items w2 = storage_items w ->
    draws (env w2) = S (draws (env w)) ->
    create_case dto w
      (fst (for_of (items dto) (insert_item order) w2))
      (match snd (for_of (items dto) (insert_item order) w2) with
       | Returned _ => Returned order
       | Thrown e => Thrown e
       end).

(** ** Worlds used as examples *)

(** An environment in which no store call fails; the random parts drawn
    are 0042, 0043, ... *)
Definition quiet : Env :=
  {| calls := 0; fault := fun _ => false; draws := 0;
     random := fun n => 42 + Z.of_nat n; today := "20240101";
     minted := 0; uuid := fun n => "order-" ++ toString (Z.of_nat n) |}.

(** The same, except that the [k]-th store call fails. *)
Definition failing_at (k : nat) : Env :=
  {| calls := 0; fault := Nat.eqb k; draws := 0;
     random := fun n => 42 + Z.of_nat n; today := "20240101";
     minted := 0; uuid := fun n => "order-" ++ toString (Z.of_nat n) |}.

Definition people : list UserProfile :=
  [ {| up_id := "alice"; up_role := "user" |};
    {| up_id := "bob"; up_role := "user" |};
    {| up_id := "root"; up_role := "admin" |} ].

Definition tent (available : Z) : StorageItem :=
  {| si_id := "tent"; items_number_total := 5;
     items_number_available := available; si_location_id := "hall" |}.

Definition kayak (available : Z) : StorageItem :=
  {| si_id := "kayak"; items_number_total := 2;
     items_number_available := available; si_location_id := "pier" |}.

(** Five tents and two kayaks, nothing booked. *)
Definition depot : World :=
  {| user_profiles := people; storage_items := [tent 5; kayak 2];
     orders := []; order_items := []; stock_log := []; env := quiet |}.

Definition jan (d : Z) : Z := date_ms 2024 1 d.
Definition feb (d : Z) : Z := date_ms 2024 2 d.

Definition line (id : string) (q s e : Z) : BookingItem :=
  {| item_id := id; quantity := q; start_date := s; end_date := e |}.

Definition request (who : string) (lines : list BookingItem) : CreateBookingDto :=
  {| user_id := Some who; items := lines |}.

(** A ledger row. *)
Definition claim (oid id : string) (q s e : Z) (st : Status) : OrderItem :=
  {| oi_order_id := oid; oi_item_id := id; oi_location_id := "hall";
     oi_quantity := Some q; oi_start_date := s; oi_end_date := e;
     oi_total_days := ceil_div (e - s) ms_per_day; oi_status := st |}.

Definition booking (oid who : string) (st : Status) (number : string) : Order :=
  {| o_id := oid; o_user_id := who; o_status := st; order_number := number |}.

(** Alice books 3 tents for 1-5 January, Bob 2 tents for 3-10 January,
    then Bob updates his booking to 4 tents. *)
Definition depot_after_update : World :=
  let w1 := fst (createBooking (request "alice" [line "tent" 3 (jan 1) (jan 5)]) depot) in
  let w2 := fst (createBooking (request "bob" [line "tent" 2 (jan 3) (jan 10)]) w1) in
  fst (updateBooking "order-1" "bob" [line "tent" 4 (jan 3) (jan 10)] w2).

(** Alice books all 5 tents for 1-5 January and the booking is confirmed;
    Bob then books 1 tent for 1-5 February. *)
Definition depot_after_confirm : World :=
  let w1 := fst (createBooking (request "alice" [line "tent" 5 (jan 1) (jan 5)]) depot) in
  let w2 := fst (confirmBooking "order-0" "root" w1) in
  fst (createBooking (request "bob" [line "tent" 1 (feb 1) (feb 5)]) w2).

(** A pending booking of 2 tents and 1 kayak while no kayak is in stock. *)
Definition depot_no_kayak : World :=
  {| user_profiles := people; storage_items := [tent 5; kayak 0];
     orders := [booking "o1" "alice" pending "ORD-20240101-0001"];
     order_items := [claim "o1" "tent" 2 (jan 1) (jan 5) pending;
                     claim "o1" "kayak" 1 (jan 1) (jan 5) pending];
     stock_log := []; env := quiet |}.

(** A pending booking with two lines of 3 tents each while 5 tents are in
    stock. *)
Definition depot_two_threes : World :=
  {| user_profiles := people; storage_items := [tent 5; kayak 2];
     orders := [booking "o1" "alice" pending "ORD-20240101-0001"];
     order_items := [claim "o1" "tent" 3 (jan 1) (jan 5) pending;
                     claim "o1" "tent" 3 (jan 6) (jan 10) pending];
     stock_log := []; env := quiet |}.

(** One booking of 2 tents in the given status. *)
Definition depot_with (st line_st : Status) (e : Env) : World :=
  {| user_profiles := people; storage_items := [tent 3; kayak 2];
     orders := [booking "o1" "alice" st "ORD-20240101-0042"];
     order_items := [claim "o1" "tent" 2 (jan 1) (jan 5) line_st];
     stock_log := []; env := e |}.

(** All 5 tents were once asked for 1-5 January, and the line item was
    rejected. *)
Definition depot_rejected_line : World :=
  {| user_profiles := people; storage_items := [tent 5; kayak 2];
     orders := [booking "o1" "alice" rejected "ORD-20240101-0001"];
     order_items := [claim "o1" "tent" 5 (jan 1) (jan 5) rejected];
     stock_log := []; env := quiet |}.

(** The stock of [depot_after_update] under a different ledger: Alice's
    booking is gone and Bob's 4 tents are a rejected line for two days of
    February. *)
Definition depot_other_ledger : World :=
  with_order_items depot_after_update
    [claim "order-1" "tent" 4 (feb 1) (feb 2) rejected].

(** Alice asks for 1 tent and 3 kayaks; there are only 2 kayaks. *)
Definition tent_and_three_kayaks : CreateBookingDto :=
  request "alice" [line "tent" 1 (jan 1) (jan 5); line "kayak" 3 (jan 1) (jan 5)].

(** Alice asks for 1 tent and 1 kayak. *)
Definition tent_and_kayak : CreateBookingDto :=
  request "alice" [line "tent" 1 (jan 1) (jan 5); line "kayak" 1 (jan 1) (jan 5)].

(** ** Vocabulary of the further properties *)

(** The location of an item, as the [.single()] reads of the two insert
    loops see it. *)
Definition location_of (id : string) (w : World) : option string :=
  single (map si_location_id
            (filter (fun s => String.eqb (si_id s) id) (storage_items w))).

(** [row] is the ledger row that the insert loops of [createBooking] and
    [updateBooking] write for the requested [item] under the order
    [oid]. *)
Definition line_of (oid : string) (w : World) (item : BookingItem) (row : OrderItem)
  : Prop :=
  oi_order_id row = oid
  /\ oi_item_id row = item_id item
  /\ location_of (item_id item) w = Some (oi_location_id row)
  /\ oi_quantity row = Some (quantity item)
  /\ oi_start_date row = start_date item
  /\ oi_end_date row = end_date item
  /\ oi_total_days row = ceil_div (end_date item - start_date item) ms_per_day
  /\ oi_status row = pending.

(** Only [order_items] changed, and only by rows added at its end. *)
Definition ledger_grew (w w' : World) : Prop :=
  user_profiles w' = user_profiles w /\ storage_items w' = storage_items w
  /\ orders w' = orders w
  /\ exists rows, order_items w' = (order_items w ++ rows)%list.

(** The environment is as before, except for the count of store calls. *)
Definition same_oracles (w w' : World) : Prop :=
  fault (env w') = fault (env w) /\ draws (env w') = draws (env w)
  /\ random (env w') = random (env w) /\ today (env w') = today (env w)
  /\ minted (env w') = minted (env w) /\ uuid (env w') = uuid (env w).

(** The order number that the next call of [generateOrderNumber] gives. *)
Definition next_order_number (e : Env) : string :=
  "ORD-" ++ today e ++ "-" ++ padStart 4 "0" (toString (random e (draws e) mod 10000)).

(** The quantity that the lines of a booking ask of one item. *)
Definition demand (id : string) (lines : list (string * option Z)) : Z :=
  fold_right (fun l acc => if String.eqb (fst l) id then num (snd l) + acc else acc)
             0 lines.

(** The source's [isAdmin]. *)
Definition is_admin (role : string) : bool :=
  String.eqb role "admin" || String.eqb role "superVera".

(** The number that a string of decimal digits denotes. *)
Definition digits_value (s : string) : Z :=
  fold_left (fun acc c => acc * 10 + (Z.of_N (N_of_ascii c) - 48))
            (list_ascii_of_string s) 0.

(** The character is one of "0" to "9". *)
Definition is_digit (c : ascii) : bool :=
  (48 <=? N_of_ascii c)%N && (N_of_ascii c <=? 57)%N.

(** The [n] integers from [z] on. *)
Fixpoint upto (n : nat) (z : Z) : list Z :=
  match n with
  | O => []
  | S k => z :: upto k (z + 1)
  end.

(** Alice has booked 3 of the 5 tents for 1-5 January. *)
Definition depot_one_booking : World :=
  fst (createBooking (request "alice" [line "tent" 3 (jan 1) (jan 5)]) depot).

(** Alice's pending booking of 2 tents and 1 kayak, beside a line of
    another booking; 5 tents and 2 kayaks are in stock. *)
Definition depot_two_lines : World :=
  {| user_profiles := people; storage_items := [tent 5; kayak 2];
     orders := [booking "o1" "alice" pending "ORD-20240101-0001"];
     order_items := [claim "o1" "tent" 2 (jan 1) (jan 5) pending;
                     claim "o1" "kayak" 1 (jan 1) (jan 5) pending;
                     claim "o2" "tent" 1 (jan 1) (jan 5) pending];
     stock_log := []; env := quiet |}.

(** Ledger, stock and the store's failures are as before. *)
Definition same_ledger (w w' : World) : Prop :=
  order_items w' = order_items w /\ storage_items w' = storage_items w
  /\ fault (env w') = fault (env w).

(** The rows of [order_items] that belong to other bookings. *)
Definition lines_of_others (orderId : string) (w : World) : list OrderItem :=
  filter (fun r => negb (String.eqb (oi_order_id r) orderId)) (order_items w).

(** Nothing changed but the line items of one booking. *)
Definition only_lines_of (orderId : string) (w w' : World) : Prop :=
  user_profiles w' = user_profiles w /\ storage_items w' = storage_items w
  /\ orders w' = orders w
  /\ lines_of_others orderId w' = lines_of_others orderId w.

(** The depot with a second administrator of role superVera. *)
Definition depot_with_vera : World :=
  {| user_profiles := {| up_id := "vera"; up_role := "superVera" |} :: people;
     storage_items := [tent 5; kayak 2];
     orders := [booking "o1" "alice" confirmed "ORD-20240101-0001"];
     order_items := [claim "o1" "tent" 2 (jan 1) (jan 5) confirmed;
                     claim "o2" "tent" 1 (jan 1) (jan 5) pending];
     stock_log := []; env := quiet |}.


(** ** The interval ledger in the words of the specification *)

(** The overlap predicate of the specification, as a decision. *)
Definition spec_overlap (a_start a_end b_start b_end : Z) : bool :=
  (a_start <=? b_end) && (a_end >=? b_start).

(** [sumOverlapping(item_id, start_date, end_date, statuses)] of the
    specification: the sum of the quantities of the ledger rows of the
    item whose status is in the given set and whose interval intersects
    the query interval. *)
Definition spec_sumOverlapping (itemId : string) (s e : Z) (statuses : list Status)
           (w : World) : Z :=
  fold_right
    (fun r acc =>
       if String.eqb (oi_item_id r) itemId
          && existsb (Status_eqb (oi_status r)) statuses
          && spec_overlap (oi_start_date r) (oi_end_date r) s e
       then num (oi_quantity r) + acc
       else acc)
    0 (order_items w).

(** The set of all statuses: a sum over it applies no status filter. *)
Definition every_status : list Status :=
  [pending; confirmed; rejected; cancelled_by_user; cancelled_by_admin; deleted].

(** The statuses that the specification lets count: pending and
    confirmed. *)
Definition active_statuses : list Status := [pending; confirmed].


(** * Properties *)

(** ** Sanity checks of the embedding *)

Example date_ms_epoch : date_ms 1970 1 1 = 0.
Proof. reflexivity. Qed.

Example date_ms_2024 : date_ms 2024 1 1 = 1704067200000.
Proof. reflexivity. Qed.

Example padStart_42 : padStart 4 "0" (toString 42) = "0042".
Proof. reflexivity. Qed.

Example ceil_div_partial_day : ceil_div (ms_per_day + 1) ms_per_day = 2.
Proof. reflexivity. Qed.

(** The scenario of the specification: capacity 5, a booking of 3 units
    for 1-5 January; for 3-10 January 2 units are available, a request for
    3 is refused and a request for 2 goes through. *)
Example scenario_capacity_5 :
  let w1 := fst (createBooking (request "alice" [line "tent" 3 (jan 1) (jan 5)]) depot) in
  option_map availableQuantity
    (match snd (checkAvailability "tent" (jan 3) (jan 10) "bob" w1) with
     | Returned a => Some a
     | Thrown _ => None
     end) = Some 2
  /\ snd (createBooking (request "bob" [line "tent" 3 (jan 3) (jan 10)]) w1)
     = Thrown (not_enough_quantity "tent")
  /\ snd (createBooking (request "bob" [line "tent" 2 (jan 3) (jan 10)]) w1)
     = Returned (booking "order-1" "bob" pending "ORD-20240101-0043").
Proof. vm_compute. repeat split. Qed.

(** ** Relations between the world before and after a computation *)

Section Preserves.
Variable P : World -> World -> Prop.
Hypothesis P_refl : forall w, P w w.
Hypothesis P_trans : forall a b c, P a b -> P b c -> P a c.

Lemma preserves_ret {A} (a : A) : preserves P (ret a).
Proof. intro w. apply P_refl. Qed.

Lemma preserves_throw {A} (e : Exn) : preserves P (@throw A e).
Proof. intro w. apply P_refl. Qed.

Lemma preserves_bind {A B} (c : M A) (k : A -> M B) :
  preserves P c -> (forall a, preserves P (k a)) -> preserves P (bind c k).
Proof.
  intros Hc Hk w. unfold bind. specialize (Hc w).
  destruct (c w) as [w1 [a | e]]; simpl in *.
  - eapply P_trans; [exact Hc | apply Hk].
  - exact Hc.
Qed.

Lemma preserves_for_of {A} (xs : list A) (body : A -> M unit) :
  (forall x, In x xs -> preserves P (body x)) -> preserves P (for_of xs body).
Proof.
  induction xs as [| x rest IH]; intros Hbody; simpl.
  - apply preserves_ret.
  - apply preserves_bind.
    + apply Hbody. now left.
    + intros _. apply IH. intros y Hy. apply Hbody. now right.
Qed.

Lemma preserves_store {A} (op : World -> World * option A) :
  (forall w, P w (with_env w (tick (env w)))) ->
  (forall w, P w (fst (op w))) ->
  preserves P (store op).
Proof.
  intros Henv Hop w. unfold store.
  destruct (fault (env w) (calls (env w))); simpl.
  - apply Henv.
  - specialize (Hop (with_env w (tick (env w)))).
    destruct (op (with_env w (tick (env w)))) as [w2 r]; simpl in *.
    eapply P_trans; [apply Henv | exact Hop].
Qed.
End Preserves.

(** Running a bind, and a store call that only reads. *)
Lemma bind_run {A B} (c : M A) (k : A -> M B) (w : World) :
  bind c k w
  = match c w with
    | (w1, Returned a) => k a w1
    | (w1, Thrown e) => (w1, Thrown e)
    end.
Proof. reflexivity. Qed.

Lemma store_read_run {A} (f : World -> option A) (w : World) :
  store (fun w => (w, f w)) w
  = (with_env w (tick (env w)),
     Returned (if fault (env w) (calls (env w))
               then None
               else f (with_env w (tick (env w))))).
Proof. unfold store. destruct (fault (env w) (calls (env w))); reflexivity. Qed.

(** ** The overlap queries, row by row *)

Lemma where_create_spec (item : BookingItem) (r : OrderItem) :
  where_create item r = true <->
  oi_item_id r = item_id item /\
  intervals_overlap (oi_start_date r) (oi_end_date r) (start_date item) (end_date item).
Proof.
  unfold where_create, intervals_overlap.
  rewrite !andb_true_iff, String.eqb_eq, Z.leb_le, Z.geb_le. intuition lia.
Qed.

Lemma where_check_spec (itemId : string) (s e : Z) (r : OrderItem) :
  where_check itemId s e r = true <->
  oi_item_id r = itemId /\
  intervals_overlap (oi_start_date r) (oi_end_date r) s e.
Proof.
  unfold where_check, intervals_overlap.
  rewrite !andb_true_iff, String.eqb_eq, Z.leb_le, Z.geb_le. intuition lia.
Qed.

Lemma status_in_pending_confirmed (st : Status) :
  existsb (Status_eqb st) [pending; confirmed] = true <->
  st = pending \/ st = confirmed.
Proof. destruct st; simpl; intuition discriminate. Qed.

Lemma where_calc_spec (itemId : string) (s e : Z) (r : OrderItem) :
  where_calc itemId s e r = true <->
  oi_item_id r = itemId /\
  (oi_status r = pending \/ oi_status r = confirmed) /\
  intervals_overlap (oi_start_date r) (oi_end_date r) s e.
Proof.
  unfold where_calc, intervals_overlap.
  rewrite !andb_true_iff, String.eqb_eq, Z.leb_le, Z.geb_le,
    status_in_pending_confirmed.
  intuition lia.
Qed.

(** ** C10: the values [confirmBooking] writes to the cached count *)

Lemma wrote_nonneg_refl w : wrote_nonneg w w.
Proof. exists []. split; [now rewrite app_nil_r | constructor]. Qed.

Lemma wrote_nonneg_trans a b c :
  wrote_nonneg a b -> wrote_nonneg b c -> wrote_nonneg a c.
Proof.
  intros [e1 [H1 F1]] [e2 [H2 F2]]. exists (e1 ++ e2)%list. split.
  - now rewrite H2, H1, app_assoc.
  - apply Forall_app. now split.
Qed.

Lemma wrote_nonneg_same_log w w' :
  stock_log w' = stock_log w -> wrote_nonneg w w'.
Proof. intros H. exists []. split; [now rewrite app_nil_r | constructor]. Qed.

Lemma store_keeps_log_nonneg {A} (op : World -> World * option A) :
  (forall w, stock_log (fst (op w)) = stock_log w) ->
  preserves wrote_nonneg (store op).
Proof.
  intros H. apply preserves_store.
  - exact wrote_nonneg_trans.
  - intros w. now apply wrote_nonneg_same_log.
  - intros w. apply wrote_nonneg_same_log, H.
Qed.

Lemma update_available_nonneg (id : string) (v : Z) :
  0 <= v -> preserves wrote_nonneg (update_available id v).
Proof.
  intros Hv. apply preserves_store.
  - exact wrote_nonneg_trans.
  - intros w. now apply wrote_nonneg_same_log.
  - intros w. exists [(id, v)]. split; [reflexivity |].
    constructor; [exact Hv | constructor].
Qed.

Lemma confirm_item_nonneg (item : string * option Z) :
  preserves wrote_nonneg (confirm_item item).
Proof.
  destruct item as [id qty]. unfold confirm_item.
  apply preserves_bind; [exact wrote_nonneg_trans | |].
  - apply store_keeps_log_nonneg. reflexivity.
  - intros [available |]; [| apply preserves_throw, wrote_nonneg_refl].
    destruct (Z.ltb_spec available (num qty)) as [Hlt | Hge].
    + apply preserves_throw, wrote_nonneg_refl.
    + apply preserves_bind; [exact wrote_nonneg_trans | |].
      * apply update_available_nonneg. lia.
      * intros [u |];
          [apply preserves_ret | apply preserves_throw]; apply wrote_nonneg_refl.
Qed.

(** C10.  Whatever the world, the booking and the actor, and whether the
    call returns or throws, every value that [confirmBooking] writes to
    [items_number_available] is non-negative: each write is
    [available - quantity], made only after [available < quantity] was
    found false. *)
Theorem C10_confirm_never_writes_negative (orderId userId : string) (w : World) :
  exists evs,
    stock_log (fst (confirmBooking orderId userId w)) = (stock_log w ++ evs)%list
    /\ Forall (fun ev => 0 <= snd ev) evs.
Proof.
  change (wrote_nonneg w (fst (confirmBooking orderId userId w))).
  revert w. change (preserves wrote_nonneg (confirmBooking orderId userId)).
  unfold confirmBooking.
  apply preserves_bind; [exact wrote_nonneg_trans | |].
  - apply store_keeps_log_nonneg. reflexivity.
  - intros [its |]; [| apply preserves_throw, wrote_nonneg_refl].
    apply preserves_bind; [exact wrote_nonneg_trans | |].
    + apply preserves_for_of; [exact wrote_nonneg_refl | exact wrote_nonneg_trans |].
      intros x _. apply confirm_item_nonneg.
    + intros _. apply preserves_bind; [exact wrote_nonneg_trans | |].
      * apply store_keeps_log_nonneg. reflexivity.
      * intros [u |]; [| apply preserves_throw, wrote_nonneg_refl].
        apply preserves_bind; [exact wrote_nonneg_trans | |].
        -- apply store_keeps_log_nonneg. reflexivity.
        -- intros [u' |];
             [apply preserves_ret | apply preserves_throw]; apply wrote_nonneg_refl.
Qed.

(** ** C3: what a failed confirmation leaves behind *)

Lemma same_bookings_refl w : same_bookings w w.
Proof. split; reflexivity. Qed.

Lemma same_bookings_trans a b c :
  same_bookings a b -> same_bookings b c -> same_bookings a c.
Proof. intros [H1 H2] [H3 H4]. split; congruence. Qed.

Lemma store_same_bookings {A} (op : World -> World * option A) :
  (forall w, same_bookings w (fst (op w))) ->
  preserves same_bookings (store op).
Proof.
  intros H. apply preserves_store; [exact same_bookings_trans | | exact H].
  intros w. split; reflexivity.
Qed.

Lemma confirm_item_same_bookings (item : string * option Z) :
  preserves same_bookings (confirm_item item).
Proof.
  destruct item as [id qty]. unfold confirm_item.
  apply preserves_bind; [exact same_bookings_trans | |].
  - apply store_same_bookings. intros w. split; reflexivity.
  - intros [available |]; [| apply preserves_throw, same_bookings_refl].
    destruct (available <? num qty).
    + apply preserves_throw, same_bookings_refl.
    + apply preserves_bind; [exact same_bookings_trans | |].
      * apply store_same_bookings. intros w. split; reflexivity.
      * intros [u |];
          [apply preserves_ret | apply preserves_throw]; apply same_bookings_refl.
Qed.

Lemma confirm_loop_same_bookings (its : list (string * option Z)) :
  preserves same_bookings (for_of its confirm_item).
Proof.
  apply preserves_for_of;
    [exact same_bookings_refl | exact same_bookings_trans |].
  intros x _. apply confirm_item_same_bookings.
Qed.

(** The cached count after an update of one item. *)

Lemma set_available_id id v s : si_id (set_available id v s) = si_id s.
Proof. unfold set_available. destruct (String.eqb (si_id s) id); reflexivity. Qed.

Lemma filter_set_available id v id' (l : list StorageItem) :
  filter (fun s => String.eqb (si_id s) id') (map (set_available id v) l)
  = map (set_available id v) (filter (fun s => String.eqb (si_id s) id') l).
Proof.
  induction l as [| s l IH]; simpl; [reflexivity |].
  rewrite set_available_id.
  destruct (String.eqb (si_id s) id'); simpl; now rewrite IH.
Qed.

Lemma available_of_set_same id v (l : list StorageItem) :
  map items_number_available
    (map (set_available id v) (filter (fun s => String.eqb (si_id s) id) l))
  = map (fun _ => v) (filter (fun s => String.eqb (si_id s) id) l).
Proof.
  induction l as [| s l IH]; simpl; [reflexivity |].
  destruct (String.eqb (si_id s) id) eqn:E; simpl; [| exact IH].
  unfold set_available at 1. rewrite E. simpl. now rewrite IH.
Qed.

Lemma set_available_other id v id' (l : list StorageItem) :
  String.eqb id' id = false ->
  map (set_available id v) (filter (fun s => String.eqb (si_id s) id') l)
  = filter (fun s => String.eqb (si_id s) id') l.
Proof.
  intros Hne. induction l as [| s l IH]; simpl; [reflexivity |].
  destruct (String.eqb (si_id s) id') eqn:E; simpl; [| exact IH].
  apply String.eqb_eq in E. unfold set_available at 1.
  rewrite E, Hne. now rewrite IH.
Qed.

Lemma cached_available_update id v id' (w w' : World) :
  storage_items w' = map (set_available id v) (storage_items w) ->
  cached_available id' w'
  = if String.eqb id' id
    then option_map (fun _ => v) (cached_available id' w)
    else cached_available id' w.
Proof.
  intros Hw. unfold cached_available. rewrite Hw, filter_set_available.
  destruct (String.eqb id' id) eqn:E.
  - apply String.eqb_eq in E. subst id'. rewrite available_of_set_same.
    destruct (filter (fun s => String.eqb (si_id s) id) (storage_items w))
      as [| a [| b t]]; reflexivity.
  - now rewrite set_available_other.
Qed.

Lemma cached_le_refl w : cached_le w w.
Proof. intros id a H. exists a. split; [exact H | lia]. Qed.

Lemma cached_le_trans a b c : cached_le a b -> cached_le b c -> cached_le a c.
Proof.
  intros Hab Hbc id x Hx.
  destruct (Hbc id x Hx) as [y [Hy Hxy]].
  destruct (Hab id y Hy) as [z [Hz Hyz]].
  exists z. split; [exact Hz | lia].
Qed.

Lemma cached_le_same_storage w w' :
  storage_items w' = storage_items w -> cached_le w w'.
Proof.
  intros H id a Ha. exists a. split; [| lia].
  unfold cached_available in *. now rewrite <- H.
Qed.

Lemma cached_le_update id v a (w w' : World) :
  cached_available id w = Some a -> v <= a ->
  storage_items w' = map (set_available id v) (storage_items w) ->
  cached_le w w'.
Proof.
  intros Ha Hv Hw id' x Hx.
  rewrite (cached_available_update id v id' w w' Hw) in Hx.
  destruct (String.eqb id' id) eqn:E.
  - apply String.eqb_eq in E. subst id'. rewrite Ha in Hx. simpl in Hx.
    injection Hx as <-. exists a. now split.
  - exists x. split; [exact Hx | lia].
Qed.

(** One turn of the loop of [confirmBooking] does not raise a cached
    count when the quantity is not negative. *)
Lemma confirm_item_cached_le id qty (w : World) :
  0 <= num qty -> cached_le w (fst (confirm_item (id, qty) w)).
Proof.
  intros Hq. unfold confirm_item, bind, store at 1.
  destruct (fault (env w) (calls (env w))); simpl;
    [now apply cached_le_same_storage |].
  fold (cached_available id w).
  destruct (cached_available id w) as [a |] eqn:Ha;
    [| now apply cached_le_same_storage].
  destruct (a <? num qty); simpl; [now apply cached_le_same_storage |].
  unfold update_available, store.
  destruct (fault _ _); simpl; [now apply cached_le_same_storage |].
  apply (cached_le_update id (a - num qty) a); [exact Ha | lia | reflexivity].
Qed.

(** A line item that lacked capacity when the call began makes its turn
    of the loop throw, as long as no count was raised meanwhile. *)
Lemma confirm_item_lacking_throws (item : string * option Z) (w w0 : World) :
  lacks_capacity w item -> cached_le w w0 ->
  exists e, snd (confirm_item item w0) = Thrown e.
Proof.
  destruct item as [id qty]. intros [a [Ha Hlt]] Hle. simpl in Ha, Hlt.
  unfold confirm_item, bind, store at 1.
  destruct (fault (env w0) (calls (env w0))); simpl; [eexists; reflexivity |].
  fold (cached_available id w0).
  destruct (cached_available id w0) as [a0 |] eqn:Ha0; [| eexists; reflexivity].
  destruct (Hle id a0 Ha0) as [a' [Ha' Hle']].
  rewrite Ha in Ha'. injection Ha' as <-.
  assert ((a0 <? num qty) = true) as -> by (apply Z.ltb_lt; lia).
  eexists; reflexivity.
Qed.

Lemma for_of_cons {A} (x : A) (rest : list A) (body : A -> M unit) (w : World) :
  for_of (x :: rest) body w
  = match body x w with
    | (w1, Returned _) => for_of rest body w1
    | (w1, Thrown e) => (w1, Thrown e)
    end.
Proof. reflexivity. Qed.

Lemma confirm_loop_lacking_throws (its : list (string * option Z)) :
  forall w w0,
    Forall (fun it => 0 <= num (snd it)) its ->
    Exists (lacks_capacity w) its ->
    cached_le w w0 ->
    exists e, snd (for_of its confirm_item w0) = Thrown e.
Proof.
  induction its as [| [id qty] rest IH]; intros w w0 Hnn Hex Hle.
  - inversion Hex.
  - rewrite for_of_cons.
    pose proof (confirm_item_cached_le id qty w0) as Hstep.
    destruct (confirm_item (id, qty) w0) as [w1 [u | e]] eqn:Hrun;
      [| eexists; reflexivity].
    inversion Hnn as [| ? ? Hq Hrest]; subst.
    inversion Hex as [? ? Hhere | ? ? Hlater]; subst.
    + destruct (confirm_item_lacking_throws (id, qty) w w0 Hhere Hle) as [e He].
      rewrite Hrun in He. discriminate.
    + apply (IH w w1 Hrest Hlater).
      eapply cached_le_trans; [exact Hle |]. apply Hstep. exact Hq.
Qed.

Lemma confirm_item_run (id : string) (qty : option Z) (w : World) :
  confirm_item (id, qty) w
  = let w1 := with_env w (tick (env w)) in
    if fault (env w) (calls (env w))
    then (w1, Thrown (BadRequestException "Could not fetch storage item details"))
    else
      match cached_available id w with
      | None => (w1, Thrown (BadRequestException "Could not fetch storage item details"))
      | Some available =>
          if available <? num qty
          then (w1, Thrown (not_enough_available id))
          else
            let w2 := with_env w1 (tick (env w1)) in
            if fault (env w1) (calls (env w1))
            then (w2, Thrown (BadRequestException
                                ("Failed to reduce stock for item " ++ id)))
            else
              (with_stock_log
                 (with_storage_items w2
                    (map (set_available id (available - num qty)) (storage_items w)))
                 (stock_log w ++ [(id, available - num qty)]),
               Returned tt)
      end.
Proof.
  unfold confirm_item. rewrite bind_run, store_read_run.
  destruct (fault (env w) (calls (env w))); [reflexivity |].
  change (single _) with (cached_available id w).
  destruct (cached_available id w) as [available |]; [| reflexivity].
  destruct (available <? num qty); [reflexivity |].
  rewrite bind_run. unfold update_available, store.
  cbv zeta. destruct (fault _ _); reflexivity.
Qed.

Lemma confirm_item_returned (id : string) (qty : option Z) (w w' : World) :
  confirm_item (id, qty) w = (w', Returned tt) ->
  exists available,
    cached_available id w = Some available
    /\ num qty <= available
    /\ storage_items w' = map (set_available id (available - num qty)) (storage_items w).
Proof.
  rewrite confirm_item_run. cbv zeta.
  destruct (fault _ _); [discriminate |].
  destruct (cached_available id w) as [available |]; [| discriminate].
  destruct (Z.ltb_spec available (num qty)) as [Hlt | Hge]; [discriminate |].
  destruct (fault _ _); [discriminate |].
  intros H. injection H as <-. exists available. repeat split. lia.
Qed.

Lemma demand_cons (id id0 : string) (q : option Z) (lines : list (string * option Z)) :
  demand id ((id0, q) :: lines)
  = if String.eqb id0 id then num q + demand id lines else demand id lines.
Proof. reflexivity. Qed.

Lemma demand_nonneg (id : string) (lines : list (string * option Z)) :
  Forall (fun l => 0 <= num (snd l)) lines -> 0 <= demand id lines.
Proof.
  intros H. induction H as [| [id0 q] lines Hq Hl IH]; simpl; [lia |].
  simpl in Hq. destruct (String.eqb id0 id); lia.
Qed.

(** After a loop of [confirmBooking] that went through, every cached
    count is down by what the lines asked of the item. *)
Lemma confirm_loop_returned (lines : list (string * option Z)) :
  forall w w',
    for_of lines confirm_item w = (w', Returned tt) ->
    forall id,
      cached_available id w'
      = option_map (fun a => a - demand id lines) (cached_available id w).
Proof.
  induction lines as [| [id0 q] rest IH]; intros w w' Hrun id.
  - injection Hrun as <-. simpl.
    destruct (cached_available id w) as [a |]; simpl; [f_equal; lia | reflexivity].
  - rewrite for_of_cons in Hrun.
    destruct (confirm_item (id0, q) w) as [w1 [[] | e]] eqn:Hitem; [| discriminate].
    destruct (confirm_item_returned id0 q w w1 Hitem) as [a0 (Ha0 & _ & Hs)].
    rewrite (IH w1 w' Hrun id), (cached_available_update id0 _ id w w1 Hs), demand_cons.
    rewrite String.eqb_sym.
    destruct (String.eqb id0 id) eqn:E.
    + apply String.eqb_eq in E. subst id0. rewrite Ha0. simpl. f_equal. lia.
    + reflexivity.
Qed.

Lemma demand_absent (id : string) (lines : list (string * option Z)) :
  ~ In id (map fst lines) -> demand id lines = 0.
Proof.
  induction lines as [| [id0 q] rest IH]; intros Hn; [reflexivity |].
  rewrite demand_cons. destruct (String.eqb id0 id) eqn:E.
  - apply String.eqb_eq in E. exfalso. apply Hn. left. exact E.
  - apply IH. intros H. apply Hn. right. exact H.
Qed.

Lemma demand_at_least_line (id : string) (q : option Z)
      (lines : list (string * option Z)) :
  Forall (fun l => 0 <= num (snd l)) lines ->
  In (id, q) lines -> num q <= demand id lines.
Proof.
  intros Hnn. induction Hnn as [| [id0 q0] rest Hq Hrest IH]; intros Hin;
    [destruct Hin |].
  rewrite demand_cons. simpl in Hq.
  pose proof (demand_nonneg id rest Hrest) as Hd.
  destruct Hin as [Heq | Hin].
  - injection Heq as -> ->. rewrite String.eqb_refl. lia.
  - specialize (IH Hin). destruct (String.eqb id0 id); lia.
Qed.

(** The test in the loop of [confirmBooking]: the loop goes through only
    if, for every item the lines mention, the cached count at the start
    covers all that the lines ask of the item. *)
Lemma confirm_loop_returned_covers (lines : list (string * option Z)) :
  forall w w',
    for_of lines confirm_item w = (w', Returned tt) ->
    forall id, In id (map fst lines) ->
      exists a, cached_available id w = Some a /\ demand id lines <= a.
Proof.
  induction lines as [| [id0 q] rest IH]; intros w w' Hrun id Hin;
    [destruct Hin |].
  rewrite for_of_cons in Hrun.
  destruct (confirm_item (id0, q) w) as [w1 [[] | e]] eqn:Hitem; [| discriminate].
  destruct (confirm_item_returned id0 q w w1 Hitem) as [a0 (Ha0 & Hq & Hs)].
  rewrite demand_cons.
  destruct (in_dec string_dec id (map fst rest)) as [Hrest | Hrest].
  - destruct (IH w1 w' Hrun id Hrest) as [a1 [Ha1 Hd]].
    rewrite (cached_available_update id0 _ id w w1 Hs) in Ha1.
    rewrite String.eqb_sym in Ha1.
    destruct (String.eqb id0 id) eqn:E.
    + apply String.eqb_eq in E. subst id0. rewrite Ha0 in Ha1. simpl in Ha1.
      injection Ha1 as <-. exists a0. split; [exact Ha0 | lia].
    + exists a1. split; [exact Ha1 | exact Hd].
  - rewrite (demand_absent id rest Hrest).
    destruct Hin as [Heq | Hin]; [| contradiction]. simpl in Heq. subst id0.
    rewrite String.eqb_refl. exists a0. split; [exact Ha0 | lia].
Qed.

(** The loop, begun where the load of the lines leaves the world, goes
    through only if every demand is covered. *)
Lemma confirmBooking_returned_covers (orderId userId : string) (w w' : World)
      (msg : string) :
  confirmBooking orderId userId w = (w', Returned msg) ->
  forall id, In id (map fst (items_of_order orderId w)) ->
    exists a, cached_available id w = Some a
              /\ demand id (items_of_order orderId w) <= a.
Proof.
  unfold confirmBooking. rewrite bind_run, store_read_run.
  destruct (fault (env w) (calls (env w))); [discriminate |].
  rewrite bind_run.
  change (items_of_order orderId (with_env w (tick (env w))))
    with (items_of_order orderId w).
  destruct (for_of (items_of_order orderId w) confirm_item
              (with_env w (tick (env w)))) as [w1 [[] | e]] eqn:Hloop;
    [| discriminate].
  intros _ id Hin.
  exact (confirm_loop_returned_covers _ _ _ Hloop id Hin).
Qed.

(** C3 as amended.  When the lines of the booking together ask of some
    item more than its cached count at the time of the call (or the item
    has no single stock row), [confirmBooking] throws, and the [orders]
    and [order_items] tables are left as they were: the booking keeps its
    status and no line-item status changes.  In particular this is so
    when one line alone asks for more than the cached count, quantities
    being non-negative. *)
Theorem C3_failed_confirm_keeps_statuses (orderId userId : string) (w : World) :
  ((exists id,
       In id (map fst (items_of_order orderId w))
       /\ forall a, cached_available id w = Some a ->
                    a < demand id (items_of_order orderId w))
   \/ (Forall (fun it => 0 <= num (snd it)) (items_of_order orderId w)
       /\ Exists (lacks_capacity w) (items_of_order orderId w))) ->
  exists e,
    snd (confirmBooking orderId userId w) = Thrown e
    /\ orders (fst (confirmBooking orderId userId w)) = orders w
    /\ order_items (fst (confirmBooking orderId userId w)) = order_items w.
Proof.
  intros Hlacks.
  assert (exists id,
             In id (map fst (items_of_order orderId w))
             /\ forall a, cached_available id w = Some a ->
                          a < demand id (items_of_order orderId w)) as Hdemand.
  { destruct Hlacks as [H | [Hnn Hex]]; [exact H |].
    apply Exists_exists in Hex. destruct Hex as [[id q] [Hin [a [Ha Hlt]]]].
    simpl in Ha, Hlt. exists id. split.
    - apply in_map_iff. exists (id, q). split; [reflexivity | exact Hin].
    - intros a' Ha'. rewrite Ha in Ha'. injection Ha' as <-.
      pose proof (demand_at_least_line id q _ Hnn Hin). lia. }
  clear Hlacks. destruct Hdemand as [id [Hin Hshort]].
  unfold confirmBooking. rewrite bind_run, store_read_run.
  destruct (fault (env w) (calls (env w)));
    [eexists; repeat split; reflexivity |].
  set (w0 := with_env w (tick (env w))).
  rewrite bind_run.
  change (items_of_order orderId w0) with (items_of_order orderId w).
  pose proof (confirm_loop_same_bookings (items_of_order orderId w) w0) as [Ho Hi].
  destruct (for_of (items_of_order orderId w) confirm_item w0)
    as [w1 [[] | e']] eqn:Hloop.
  - destruct (confirm_loop_returned_covers _ _ _ Hloop id Hin) as [a [Ha Hd]].
    change (cached_available id w0) with (cached_available id w) in Ha.
    specialize (Hshort a Ha). lia.
  - exists e'. repeat split; assumption.
Qed.

(** One booking holds two lines of 3 tents each while 5 tents are in
    stock: neither line alone exceeds the count, the two together do, the
    confirmation throws on the second line and the booking stays
    pending. *)
Lemma C3_failed_confirm_keeps_statuses_witness :
  (exists id,
      In id (map fst (items_of_order "o1" depot_two_threes))
      /\ forall a, cached_available id depot_two_threes = Some a ->
                   a < demand id (items_of_order "o1" depot_two_threes))
  /\ exists e,
      snd (confirmBooking "o1" "root" depot_two_threes) = Thrown e
      /\ orders (fst (confirmBooking "o1" "root" depot_two_threes))
         = orders depot_two_threes
      /\ order_items (fst (confirmBooking "o1" "root" depot_two_threes))
         = order_items depot_two_threes.
Proof.
  assert (exists id,
      In id (map fst (items_of_order "o1" depot_two_threes))
      /\ forall a, cached_available id depot_two_threes = Some a ->
                   a < demand id (items_of_order "o1" depot_two_threes)) as H.
  { exists "tent". split; [left; reflexivity |].
    intros a Ha. vm_compute in Ha. injection Ha as <-. vm_compute. reflexivity. }
  split; [exact H |].
  apply (C3_failed_confirm_keeps_statuses "o1" "root" depot_two_threes).
  left. exact H.
Defined.

(** C3 as stated fails: the confirmation of the booking of 2 tents and 1
    kayak throws on the kayak, yet the cached count of the tents has been
    written down from 5 to 3 and stays so. *)
Lemma C3_partial_decrement :
  snd (confirmBooking "o1" "root" depot_no_kayak)
  = Thrown (not_enough_available "kayak")
  /\ storage_items depot_no_kayak = [tent 5; kayak 0]
  /\ storage_items (fst (confirmBooking "o1" "root" depot_no_kayak))
     = [tent 3; kayak 0]
  /\ orders (fst (confirmBooking "o1" "root" depot_no_kayak))
     = [booking "o1" "alice" pending "ORD-20240101-0001"].
Proof. vm_compute. repeat split. Qed.

(** ** C1: what gates a confirmation *)

Lemma same_stock_refl w : same_stock w w.
Proof. split; reflexivity. Qed.

Lemma stock_only_ret {A} (a : A) : stock_only (ret a).
Proof. intros w1 w2 H. split; [exact H | reflexivity]. Qed.

Lemma stock_only_throw {A} (e : Exn) : stock_only (@throw A e).
Proof. intros w1 w2 H. split; [exact H | reflexivity]. Qed.

Lemma stock_only_bind {A B} (c : M A) (k : A -> M B) :
  stock_only c -> (forall a, stock_only (k a)) -> stock_only (bind c k).
Proof.
  intros Hc Hk w1 w2 H. rewrite !bind_run.
  destruct (Hc w1 w2 H) as [Hs Ho].
  destruct (c w1) as [w1' [a1 | e1]], (c w2) as [w2' [a2 | e2]];
    simpl in *; try discriminate.
  - injection Ho as <-. now apply Hk.
  - injection Ho as <-. split; [exact Hs | reflexivity].
Qed.

Lemma stock_only_for_of {A} (xs : list A) (body : A -> M unit) :
  (forall x, stock_only (body x)) -> stock_only (for_of xs body).
Proof.
  intros Hbody. induction xs as [| x rest IH]; simpl.
  - apply stock_only_ret.
  - apply stock_only_bind; [apply Hbody | intros _; exact IH].
Qed.

Lemma stock_only_store {A} (op : World -> World * option A) :
  (forall w1 w2, same_stock w1 w2 ->
                 same_stock (fst (op w1)) (fst (op w2)) /\ snd (op w1) = snd (op w2)) ->
  stock_only (store op).
Proof.
  intros Hop w1 w2 [Hs He]. unfold store. rewrite He.
  destruct (fault (env w2) (calls (env w2))); simpl.
  - repeat split; assumption.
  - assert (same_stock (with_env w1 (tick (env w2))) (with_env w2 (tick (env w2))))
      as Hticked by (split; [exact Hs | reflexivity]).
    destruct (Hop _ _ Hticked) as [Hs' Hr'].
    destruct (op (with_env w1 (tick (env w2)))) as [u1 r1],
             (op (with_env w2 (tick (env w2)))) as [u2 r2]; simpl in *.
    split; [exact Hs' | now rewrite Hr'].
Qed.

Lemma confirm_item_stock_only (item : string * option Z) :
  stock_only (confirm_item item).
Proof.
  destruct item as [id qty]. unfold confirm_item.
  apply stock_only_bind.
  - apply stock_only_store. intros w1 w2 [Hs He]. simpl.
    split; [split; assumption | now rewrite Hs].
  - intros [available |]; [| apply stock_only_throw].
    destruct (available <? num qty); [apply stock_only_throw |].
    apply stock_only_bind.
    + apply stock_only_store. intros w1 w2 [Hs He]. simpl.
      split; [split; [now rewrite Hs | assumption] | reflexivity].
    + intros [u |]; [apply stock_only_ret | apply stock_only_throw].
Qed.

Lemma stock_only_after_read {A B} (f : World -> option A) (k : option A -> M B)
      (w1 w2 : World) :
  same_stock w1 w2 ->
  f (with_env w1 (tick (env w1))) = f (with_env w2 (tick (env w2))) ->
  (forall r, stock_only (k r)) ->
  same_stock (fst (bind (store (fun w => (w, f w))) k w1))
             (fst (bind (store (fun w => (w, f w))) k w2))
  /\ snd (bind (store (fun w => (w, f w))) k w1)
     = snd (bind (store (fun w => (w, f w))) k w2).
Proof.
  intros [Hs He] Hf Hk. rewrite !bind_run, !store_read_run, Hf, He.
  apply Hk. split; [exact Hs | reflexivity].
Qed.

(** From two worlds with the same stock and environment in which the
    booking has the same (item, quantity) lines, [confirmBooking] ends the
    same way and leaves the same stock. *)
Lemma confirmBooking_gate_same (orderId userId : string) (w1 w2 : World) :
  storage_items w1 = storage_items w2 ->
  env w1 = env w2 ->
  items_of_order orderId w1 = items_of_order orderId w2 ->
  snd (confirmBooking orderId userId w1) = snd (confirmBooking orderId userId w2)
  /\ storage_items (fst (confirmBooking orderId userId w1))
     = storage_items (fst (confirmBooking orderId userId w2)).
Proof.
  intros Hstock Henv Hlines.
  cut (same_stock (fst (confirmBooking orderId userId w1))
                  (fst (confirmBooking orderId userId w2))
       /\ snd (confirmBooking orderId userId w1)
          = snd (confirmBooking orderId userId w2)).
  { intros [[Hs _] Ho]. split; assumption. }
  unfold confirmBooking.
  apply (stock_only_after_read (fun w => Some (items_of_order orderId w))).
  - split; assumption.
  - change (Some (items_of_order orderId w1) = Some (items_of_order orderId w2)).
    now rewrite Hlines.
  - intros [its |]; [| apply stock_only_throw].
    apply stock_only_bind.
    + apply stock_only_for_of. exact confirm_item_stock_only.
    + intros _. apply stock_only_bind.
      * apply stock_only_store. intros u1 u2 [Hs He]. simpl.
        split; [split; assumption | reflexivity].
      * intros [u |]; [| apply stock_only_throw].
        apply stock_only_bind.
        -- apply stock_only_store. intros u1 u2 [Hs He]. simpl.
           split; [split; assumption | reflexivity].
        -- intros [u' |]; [apply stock_only_ret | apply stock_only_throw].
Qed.

(** C1 as amended.  [confirmBooking] re-validates each line item against
    the cached [items_number_available] of its item alone, with no overlap
    sum.  (1) From two worlds with the same [storage_items] and the same
    environment in which the booking has the same (item, quantity) lines,
    it ends the same way and leaves the same [storage_items], whatever the
    dates and statuses in the ledger and whatever other bookings hold.
    (2) It returns only if every item the booking mentions has a single
    stock row whose cached count covers all that the booking asks of the
    item.  (3) A turn of its loop on a line that asks for more than the
    cached count throws "Not enough available quantity" and writes
    nothing; so does the whole call when that line is the first. *)
Theorem C1_confirm_gate_is_cached_count (orderId userId : string) :
  (forall w1 w2,
      storage_items w1 = storage_items w2 ->
      env w1 = env w2 ->
      items_of_order orderId w1 = items_of_order orderId w2 ->
      snd (confirmBooking orderId userId w1) = snd (confirmBooking orderId userId w2)
      /\ storage_items (fst (confirmBooking orderId userId w1))
         = storage_items (fst (confirmBooking orderId userId w2)))
  /\ (forall w w' msg,
         confirmBooking orderId userId w = (w', Returned msg) ->
         forall id, In id (map fst (items_of_order orderId w)) ->
           exists a, cached_available id w = Some a
                     /\ demand id (items_of_order orderId w) <= a)
  /\ (forall id qty w a,
         fault (env w) (calls (env w)) = false ->
         cached_available id w = Some a ->
         a < num qty ->
         snd (confirm_item (id, qty) w) = Thrown (not_enough_available id)
         /\ same_tables w (fst (confirm_item (id, qty) w)))
  /\ (forall w id qty rest a,
         no_faults w ->
         items_of_order orderId w = (id, qty) :: rest ->
         cached_available id w = Some a ->
         a < num qty ->
         snd (confirmBooking orderId userId w) = Thrown (not_enough_available id)
         /\ same_tables w (fst (confirmBooking orderId userId w))).
Proof.
  split; [| split; [| split]].
  - intros w1 w2. apply confirmBooking_gate_same.
  - intros w w' msg Hrun. exact (confirmBooking_returned_covers _ _ _ _ _ Hrun).
  - intros id qty w a Hf Ha Hlt. rewrite confirm_item_run. cbv zeta.
    rewrite Hf, Ha.
    assert ((a <? num qty) = true) as -> by (apply Z.ltb_lt; exact Hlt).
    split; [reflexivity | repeat split].
  - intros w id qty rest a Hnf Hitems Ha Hlt.
    unfold confirmBooking. rewrite bind_run, store_read_run, (Hnf (calls (env w))).
    rewrite bind_run.
    change (items_of_order orderId (with_env w (tick (env w))))
      with (items_of_order orderId w).
    rewrite Hitems, for_of_cons, confirm_item_run. cbv zeta.
    change (cached_available id (with_env w (tick (env w))))
      with (cached_available id w).
    cbn [env with_env tick fault calls].
    rewrite (Hnf (S (calls (env w)))), Ha.
    assert ((a <? num qty) = true) as -> by (apply Z.ltb_lt; exact Hlt).
    split; [reflexivity | repeat split].
Qed.

(** The confirmation of Bob's 4 tents goes the same way whether the ledger
    holds Alice's overlapping 3 tents or nothing else at all; it returns,
    and the 5 tents cached cover the 4 asked; with no tent cached, the
    confirmation of his single tent is refused and writes nothing. *)
Lemma C1_confirm_gate_is_cached_count_witness :
  (snd (confirmBooking "order-1" "root" depot_after_update)
   = snd (confirmBooking "order-1" "root" depot_other_ledger)
   /\ storage_items (fst (confirmBooking "order-1" "root" depot_after_update))
      = storage_items (fst (confirmBooking "order-1" "root" depot_other_ledger)))
  /\ (exists a, cached_available "tent" depot_after_update = Some a
                /\ demand "tent" (items_of_order "order-1" depot_after_update) <= a)
  /\ (snd (confirm_item ("tent", Some 1) depot_after_confirm)
      = Thrown (not_enough_available "tent")
      /\ same_tables depot_after_confirm
                     (fst (confirm_item ("tent", Some 1) depot_after_confirm)))
  /\ (snd (confirmBooking "order-1" "root" depot_after_confirm)
      = Thrown (not_enough_available "tent")
      /\ same_tables depot_after_confirm
                     (fst (confirmBooking "order-1" "root" depot_after_confirm))).
Proof.
  destruct (C1_confirm_gate_is_cached_count "order-1" "root")
    as (Hsame & Hcovers & Hline & Hfirst).
  split; [| split; [| split]].
  - apply (Hsame depot_after_update depot_other_ledger); vm_compute; reflexivity.
  - apply (Hcovers depot_after_update
             (fst (confirmBooking "order-1" "root" depot_after_update))
             "Booking confirmed").
    + vm_compute. reflexivity.
    + vm_compute. left. reflexivity.
  - apply (Hline "tent" (Some 1) depot_after_confirm 0).
    + vm_compute. reflexivity.
    + vm_compute. reflexivity.
    + vm_compute. reflexivity.
  - apply (Hfirst depot_after_confirm "tent" (Some 1) [] 0).
    + intros n. reflexivity.
    + vm_compute. reflexivity.
    + vm_compute. reflexivity.
    + vm_compute. reflexivity.
Defined.

(** C1 as stated fails, both ways.  With 5 tents, 3 booked by Alice for
    1-5 January and 4 by Bob for 3-10 January, the overlap sum over the
    ledger leaves -2 tents for Bob's range, yet his booking is confirmed
    because the cached count is 5.  With Alice's 5 tents of January
    confirmed, the ledger leaves 4 tents for Bob's single tent of 1-5
    February, yet his booking is refused because the cached count is 0. *)
Lemma C1_confirm_ignores_ledger :
  snd (calculateAvailableQuantity "tent" (jan 3) (jan 10) depot_after_update)
  = Returned (-2)
  /\ cached_available "tent" depot_after_update = Some 5
  /\ snd (confirmBooking "order-1" "root" depot_after_update)
     = Returned "Booking confirmed"
  /\ snd (calculateAvailableQuantity "tent" (feb 1) (feb 5) depot_after_confirm)
     = Returned 4
  /\ cached_available "tent" depot_after_confirm = Some 0
  /\ snd (confirmBooking "order-1" "root" depot_after_confirm)
     = Thrown (not_enough_available "tent").
Proof. vm_compute. repeat split. Qed.

(** ** The phases of [createBooking] *)

Lemma same_tables_refl w : same_tables w w.
Proof. repeat split. Qed.

Lemma same_tables_trans a b c :
  same_tables a b -> same_tables b c -> same_tables a c.
Proof.
  intros (H1 & H2 & H3 & H4) (H5 & H6 & H7 & H8). repeat split; congruence.
Qed.

Lemma same_tables_ticked w : same_tables w (with_env w (tick (env w))).
Proof. repeat split. Qed.

Lemma store_read_same_tables {A} (f : World -> option A) :
  preserves same_tables (store (fun w => (w, f w))).
Proof.
  apply preserves_store; [exact same_tables_trans | |]; intros w; repeat split.
Qed.

Lemma check_item_same_tables (item : BookingItem) :
  preserves same_tables (check_item item).
Proof.
  unfold check_item.
  apply preserves_bind; [exact same_tables_trans | apply store_read_same_tables |].
  intros [rows |]; [| apply preserves_throw, same_tables_refl].
  apply preserves_bind; [exact same_tables_trans | apply store_read_same_tables |].
  intros [total |]; [| apply preserves_throw, same_tables_refl].
  destruct (_ >? _); [apply preserves_throw | apply preserves_ret];
    apply same_tables_refl.
Qed.

Lemma check_loop_same_tables (its : list BookingItem) :
  preserves same_tables (for_of its check_item).
Proof.
  apply preserves_for_of; [exact same_tables_refl | exact same_tables_trans |].
  intros x _. apply check_item_same_tables.
Qed.

Lemma same_draws_refl w : same_draws w w.
Proof. reflexivity. Qed.

Lemma same_draws_trans a b c : same_draws a b -> same_draws b c -> same_draws a c.
Proof. unfold same_draws. congruence. Qed.

Lemma store_same_draws {A} (op : World -> World * option A) :
  (forall w, env (fst (op w)) = env w) -> preserves same_draws (store op).
Proof.
  intros H. apply preserves_store; [exact same_draws_trans | |]; intros w.
  - reflexivity.
  - unfold same_draws. now rewrite H.
Qed.

Lemma check_loop_same_draws (its : list BookingItem) :
  preserves same_draws (for_of its check_item).
Proof.
  apply preserves_for_of; [exact same_draws_refl | exact same_draws_trans |].
  intros item _. unfold check_item.
  apply preserves_bind; [exact same_draws_trans | now apply store_same_draws |].
  intros [rows |]; [| apply preserves_throw, same_draws_refl].
  apply preserves_bind; [exact same_draws_trans | now apply store_same_draws |].
  intros [total |]; [| apply preserves_throw, same_draws_refl].
  destruct (_ >? _); [apply preserves_throw | apply preserves_ret];
    apply same_draws_refl.
Qed.

Lemma insert_loop_same_draws (order : Order) (its : list BookingItem) :
  preserves same_draws (for_of its (insert_item order)).
Proof.
  apply preserves_for_of; [exact same_draws_refl | exact same_draws_trans |].
  intros item _. unfold insert_item.
  apply preserves_bind; [exact same_draws_trans | now apply store_same_draws |].
  intros [location |]; [| apply preserves_throw, same_draws_refl].
  apply preserves_bind; [exact same_draws_trans | now apply store_same_draws |].
  intros [u |]; [apply preserves_ret | apply preserves_throw];
    apply same_draws_refl.
Qed.

Lemma existsb_order_number_false (number : string) (l : list Order) :
  existsb (fun o => String.eqb (order_number o) number) l = false ->
  ~ In number (map order_number l).
Proof.
  intros H Hin. apply in_map_iff in Hin. destruct Hin as [o [Ho Hin]].
  assert (existsb (fun o => String.eqb (order_number o) number) l = true) as Ht.
  { apply existsb_exists. exists o. split; [exact Hin | now apply String.eqb_eq]. }
  congruence.
Qed.

Lemma createBooking_run_cases (dto : CreateBookingDto) (w w' : World)
      (r : Outcome Order) :
  createBooking dto w = (w', r) -> create_case dto w w' r.
Proof.
  unfold createBooking.
  destruct (user_id dto) as [userId |];
    [| intros H; injection H as <- <-; apply create_refused_early;
       [apply same_tables_refl | reflexivity | now left]].
  destruct (String.eqb userId "");
    [intros H; injection H as <- <-; apply create_refused_early;
       [apply same_tables_refl | reflexivity | now left] |].
  rewrite bind_run, store_read_run.
  set (w0 := with_env w (tick (env w))).
  assert (same_tables w w0) as Ht0 by apply same_tables_ticked.
  assert (same_draws w w0) as Hd0 by reflexivity.
  destruct (if fault (env w) (calls (env w)) then None else _) as [user |];
    [| intros H; injection H as <- <-; apply create_refused_early;
       [exact Ht0 | exact Hd0 | now right]].
  rewrite bind_run.
  pose proof (check_loop_same_tables (items dto) w0) as Ht1.
  pose proof (check_loop_same_draws (items dto) w0) as Hd1.
  destruct (for_of (items dto) check_item w0) as [w1 [[] | e]] eqn:Hcheck;
    [| intros H; injection H as <- <-;
       apply (create_refused_by_check dto w w0);
         [exact Ht0 | exact Hd0 | exact Hcheck]].
  simpl in Ht1, Hd1.
  rewrite bind_run. unfold generateOrderNumber. cbv beta zeta.
  set (number := ("ORD-" ++ _)%string).
  set (w1' := with_env w1 (drawn (env w1))).
  assert (same_tables w w1') as Ht1'.
  { eapply same_tables_trans; [exact Ht0 |].
    eapply same_tables_trans; [exact Ht1 | repeat split]. }
  assert (draws (env w1') = S (draws (env w))) as Hd1'.
  { unfold same_draws in *. simpl. congruence. }
  rewrite bind_run. unfold insert_order, store.
  destruct (fault (env w1') (calls (env w1'))).
  { intros H; injection H as <- <-.
    apply (create_insert_refused dto w w0 w1);
      [exact Ht0 | exact Hd0 | exact Hcheck | | exact Hd1'].
    eapply same_tables_trans; [exact Ht1' | repeat split]. }
  destruct (existsb _ _) eqn:Hdup.
  { intros H; injection H as <- <-.
    apply (create_insert_refused dto w w0 w1);
      [exact Ht0 | exact Hd0 | exact Hcheck | | exact Hd1'].
    eapply same_tables_trans; [exact Ht1' | repeat split]. }
  cbv beta iota zeta. rewrite bind_run.
  set (order := {| o_id := _; o_user_id := _; o_status := _; order_number := _ |}).
  set (w2 := with_env _ (mint _)).
  destruct Ht1' as (Hu & Hs & Ho & Hi).
  assert (create_case dto w
            (fst (for_of (items dto) (insert_item order) w2))
            (match snd (for_of (items dto) (insert_item order) w2) with
             | Returned _ => Returned order
             | Thrown e => Thrown e
             end)) as Hcase.
  { apply (create_inserted dto w w0 w1 w2 order);
      [exact Ht0 | exact Hd0 | exact Hcheck | | reflexivity | | | | exact Hd1'].
    - apply existsb_order_number_false. simpl in Hdup.
      now rewrite <- Ho.
    - simpl. now rewrite <- Ho.
    - exact Hi.
    - exact Hs. }
  destruct (for_of (items dto) (insert_item order) w2) as [w3 [[] | e]];
    intros H; injection H as <- <-; exact Hcase.
Qed.

Lemma createBooking_cases (dto : CreateBookingDto) (w : World) :
  create_case dto w (fst (createBooking dto w)) (snd (createBooking dto w)).
Proof.
  apply createBooking_run_cases. now destruct (createBooking dto w).
Qed.

(** ** C2: what a refused [createBooking] leaves behind *)

Lemma capacity_same_tables id w w0 :
  same_tables w w0 -> capacity id w0 = capacity id w.
Proof. intros (_ & Hs & _ & _). unfold capacity. now rewrite Hs. Qed.

Lemma overlapping_same_tables item w w0 :
  same_tables w w0 -> overlappingOrders_create item w0 = overlappingOrders_create item w.
Proof. intros (_ & _ & _ & Hi). unfold overlappingOrders_create. now rewrite Hi. Qed.

Lemma exceeds_same_tables item w w0 :
  same_tables w w0 -> exceeds_availability w0 item <-> exceeds_availability w item.
Proof.
  intros H. unfold exceeds_availability.
  rewrite (capacity_same_tables _ _ _ H), (overlapping_same_tables _ _ _ H).
  reflexivity.
Qed.

Lemma fits_same_tables item w w0 :
  same_tables w w0 -> fits_availability w0 item <-> fits_availability w item.
Proof.
  intros H. unfold fits_availability.
  rewrite (capacity_same_tables _ _ _ H), (overlapping_same_tables _ _ _ H).
  reflexivity.
Qed.

(** One turn of the check loop, run. *)
Lemma check_item_run (item : BookingItem) (w : World) :
  check_item item w
  = let w1 := with_env w (tick (env w)) in
    if fault (env w) (calls (env w))
    then (w1, Thrown (BadRequestException "Could not check overlapping bookings"))
    else
      let w2 := with_env w1 (tick (env w1)) in
      if fault (env w1) (calls (env w1))
      then (w2, Thrown (BadRequestException "Item data not found"))
      else
        match capacity (item_id item) w with
        | None => (w2, Thrown (BadRequestException "Item data not found"))
        | Some total =>
            if sum_quantity (overlappingOrders_create item w) + quantity item >? total
            then (w2, Thrown (not_enough_quantity (item_id item)))
            else (w2, Returned tt)
        end.
Proof.
  unfold check_item. rewrite bind_run, store_read_run.
  destruct (fault (env w) (calls (env w))); [reflexivity |].
  cbv zeta. rewrite bind_run, store_read_run.
  destruct (fault _ _); [reflexivity |].
  change (single _) with (capacity (item_id item) w).
  destruct (capacity (item_id item) w) as [total |]; [| reflexivity].
  change (overlappingOrders_create item (with_env w (tick (env w))))
    with (overlappingOrders_create item w).
  destruct (_ >? _); reflexivity.
Qed.

Lemma check_item_exceeding_throws (item : BookingItem) (w : World) :
  exceeds_availability w item -> exists e, snd (check_item item w) = Thrown e.
Proof.
  intros [total [Hcap Hgt]]. rewrite check_item_run. cbv zeta.
  destruct (fault _ _); [eexists; reflexivity |].
  destruct (fault _ _); [eexists; reflexivity |].
  rewrite Hcap.
  assert ((sum_quantity (overlappingOrders_create item w) + quantity item >? total)
          = true) as -> by (apply Z.gtb_lt; lia).
  eexists; reflexivity.
Qed.

Lemma check_loop_exceeding_throws (its : list BookingItem) :
  forall w, Exists (exceeds_availability w) its ->
            exists e, snd (for_of its check_item w) = Thrown e.
Proof.
  induction its as [| item rest IH]; intros w Hex; [inversion Hex |].
  rewrite for_of_cons.
  pose proof (check_item_same_tables item w) as Hsame.
  destruct (check_item item w) as [w1 [u | e]] eqn:Hrun; [| eexists; reflexivity].
  simpl in Hsame. apply IH.
  inversion Hex as [? ? Hhere | ? ? Hlater]; subst.
  - destruct (check_item_exceeding_throws item w Hhere) as [e He].
    rewrite Hrun in He. discriminate.
  - eapply Exists_impl; [| exact Hlater].
    intros x Hx. now apply (exceeds_same_tables x w w1).
Qed.

Lemma check_item_names_offender (item : BookingItem) (w w' : World) (id : string) :
  check_item item w = (w', Thrown (not_enough_quantity id)) ->
  item_id item = id /\ exceeds_availability w item.
Proof.
  rewrite check_item_run. cbv zeta.
  destruct (fault _ _); [intros H; injection H as _ H; discriminate |].
  destruct (fault _ _); [intros H; injection H as _ H; discriminate |].
  destruct (capacity (item_id item) w) as [total |] eqn:Hcap;
    [| intros H; injection H as _ H; discriminate].
  destruct (_ >? _) eqn:Hgt; [| discriminate].
  intros H. injection H as _ H.
  split; [exact H |]. exists total. split; [exact Hcap |].
  apply Z.gtb_lt in Hgt. lia.
Qed.

Lemma check_loop_names_offender (its : list BookingItem) (id : string) :
  forall w w',
    for_of its check_item w = (w', Thrown (not_enough_quantity id)) ->
    exists item, In item its /\ item_id item = id /\ exceeds_availability w item.
Proof.
  induction its as [| item rest IH]; intros w w' Hrun; [discriminate |].
  rewrite for_of_cons in Hrun.
  pose proof (check_item_same_tables item w) as Hsame.
  destruct (check_item item w) as [w1 [u | e]] eqn:Hitem.
  - destruct (IH w1 w' Hrun) as [x (Hin & Hid & Hx)].
    exists x. repeat split; [now right | exact Hid |].
    now apply (exceeds_same_tables x w w1).
  - injection Hrun as -> ->.
    destruct (check_item_names_offender item w w' id Hitem) as [Hid Hx].
    exists item. repeat split; [now left | exact Hid | exact Hx].
Qed.

(** What the second loop of [createBooking] can throw. *)
Lemma insert_loop_throws (order : Order) (its : list BookingItem) :
  forall w w' e,
    for_of its (insert_item order) w = (w', Thrown e) ->
    e = BadRequestException "Could not create order items"
    \/ exists id, e = BadRequestException ("Could not fetch location_id for item " ++ id).
Proof.
  induction its as [| item rest IH]; intros w w' e Hrun; [discriminate |].
  rewrite for_of_cons in Hrun.
  destruct (insert_item order item w) as [w1 [u | e1]] eqn:Hitem;
    [now apply (IH w1 w' e) |].
  injection Hrun as _ <-. revert Hitem. unfold insert_item.
  rewrite bind_run, store_read_run.
  destruct (if fault (env w) (calls (env w)) then None else _) as [location |].
  - rewrite bind_run. unfold store.
    destruct (fault _ _); cbv beta iota zeta.
    + intros H. injection H as _ <-. now left.
    + discriminate.
  - intros H. injection H as _ <-. right. eexists; reflexivity.
Qed.

Lemma check_item_fitting_returns (item : BookingItem) (w : World) :
  no_faults w -> fits_availability w item ->
  check_item item w
  = (with_env (with_env w (tick (env w))) (tick (tick (env w))), Returned tt).
Proof.
  intros Hnf [total [Hcap Hle]]. rewrite check_item_run. cbv zeta.
  rewrite Hnf. simpl fault at 1. rewrite Hnf, Hcap.
  assert ((sum_quantity (overlappingOrders_create item w) + quantity item >? total)
          = false) as ->.
  { destruct (Z.gtb_spec (sum_quantity (overlappingOrders_create item w)
                          + quantity item) total); [lia | reflexivity]. }
  reflexivity.
Qed.

Lemma check_item_exceeding_named (item : BookingItem) (w : World) :
  no_faults w -> exceeds_availability w item ->
  snd (check_item item w) = Thrown (not_enough_quantity (item_id item)).
Proof.
  intros Hnf [total [Hcap Hgt]]. rewrite check_item_run. cbv zeta.
  rewrite Hnf. simpl fault at 1. rewrite Hnf, Hcap.
  assert ((sum_quantity (overlappingOrders_create item w) + quantity item >? total)
          = true) as -> by (apply Z.gtb_lt; lia).
  reflexivity.
Qed.

Lemma check_loop_names_first (pre : list BookingItem) (it : BookingItem)
      (post : list BookingItem) :
  forall w,
    no_faults w ->
    Forall (fits_availability w) pre ->
    exceeds_availability w it ->
    snd (for_of (pre ++ it :: post) check_item w)
    = Thrown (not_enough_quantity (item_id it)).
Proof.
  induction pre as [| x pre IH]; intros w Hnf Hfits Hex.
  - simpl app. rewrite for_of_cons.
    pose proof (check_item_exceeding_named it w Hnf Hex) as H.
    destruct (check_item it w) as [w1 [u | e]]; simpl in H;
      [discriminate | now injection H as ->].
  - inversion Hfits as [| ? ? Hx Hpre]; subst.
    simpl app. rewrite for_of_cons, (check_item_fitting_returns x w Hnf Hx).
    apply IH.
    + intros n. apply Hnf.
    + eapply Forall_impl; [| exact Hpre]. intros y Hy. exact Hy.
    + exact Hex.
Qed.

(** C2 as amended.  [createBooking] checks every requested line item
    before it writes anything, and is all-or-nothing for every failure up
    to and including the insert of the order row.  (1) When some requested
    line item exceeds the availability of its item, the call throws and
    the four tables are as before: neither the booking nor any line item
    exists.  (2) When the call throws "Not enough quantity available for
    item X", the tables are as before and X is the item of a requested
    line that exceeds availability.  (3) With no store failure and a known
    user, when the lines before the first exceeding line all fit, the
    exception names the item of that line.  (4) Whenever the call throws
    anything but the two exceptions of the insert of a line item ("Could
    not fetch location_id for item X", "Could not create order items"),
    the four tables are as before.  Only a failure while the line items
    are inserted, after the order row, is not undone. *)
Theorem C2_create_checks_before_writing (dto : CreateBookingDto) (w : World) :
  (Exists (exceeds_availability w) (items dto) ->
   exists e, snd (createBooking dto w) = Thrown e
             /\ same_tables w (fst (createBooking dto w)))
  /\ (forall id,
         snd (createBooking dto w) = Thrown (not_enough_quantity id) ->
         same_tables w (fst (createBooking dto w))
         /\ exists item, In item (items dto) /\ item_id item = id
                         /\ exceeds_availability w item)
  /\ (forall userId user pre it post,
         no_faults w ->
         user_id dto = Some userId -> userId <> "" ->
         single (filter (fun u => String.eqb (up_id u) userId) (user_profiles w))
         = Some user ->
         items dto = (pre ++ it :: post)%list ->
         Forall (fits_availability w) pre ->
         exceeds_availability w it ->
         snd (createBooking dto w) = Thrown (not_enough_quantity (item_id it)))
  /\ (forall e,
         snd (createBooking dto w) = Thrown e ->
         e <> BadRequestException "Could not create order items" ->
         (forall id,
             e <> BadRequestException ("Could not fetch location_id for item " ++ id)) ->
         same_tables w (fst (createBooking dto w))).
Proof.
  split; [| split; [| split]].
  - intros Hex. pose proof (createBooking_cases dto w) as Hcase.
    destruct Hcase as
      [w' e Ht Hd He | w0 w' e Ht Hd Hloop | w0 w1 w' Ht Hd Hloop Ht' Hd'
       | w0 w1 w2 order Ht Hd Hloop Hnew Hst Ho Hi Hs Hd'].
    + exists e. split; [reflexivity | exact Ht].
    + exists e. split; [reflexivity |].
      eapply same_tables_trans; [exact Ht |].
      pose proof (check_loop_same_tables (items dto) w0) as H.
      now rewrite Hloop in H.
    + destruct (check_loop_exceeding_throws (items dto) w0) as [e He].
      { eapply Exists_impl; [| exact Hex].
        intros x Hx. now apply (exceeds_same_tables x w w0). }
      rewrite Hloop in He. discriminate.
    + destruct (check_loop_exceeding_throws (items dto) w0) as [e He].
      { eapply Exists_impl; [| exact Hex].
        intros x Hx. now apply (exceeds_same_tables x w w0). }
      rewrite Hloop in He. discriminate.
  - intros id. pose proof (createBooking_cases dto w) as Hcase.
    destruct Hcase as
      [w' e Ht Hd He | w0 w' e Ht Hd Hloop | w0 w1 w' Ht Hd Hloop Ht' Hd'
       | w0 w1 w2 order Ht Hd Hloop Hnew Hst Ho Hi Hs Hd'].
    + intros H. injection H as ->. destruct He; discriminate.
    + intros H. injection H as ->.
      pose proof (check_loop_same_tables (items dto) w0) as Hsame.
      rewrite Hloop in Hsame. simpl in Hsame. split.
      * eapply same_tables_trans; eassumption.
      * destruct (check_loop_names_offender _ _ _ _ Hloop) as [x (Hin & Hid & Hx)].
        exists x. repeat split; [exact Hin | exact Hid |].
        now apply (exceeds_same_tables x w w0).
    + discriminate.
    + destruct (for_of (items dto) (insert_item order) w2) as [w3 [u | e]] eqn:Hins;
        simpl; [discriminate |].
      intros H. injection H as ->.
      destruct (insert_loop_throws _ _ _ _ _ Hins) as [He | [x He]]; discriminate.
  - intros userId user pre it post Hnf Huid Hne Huser Hitems Hfits Hex.
    unfold createBooking. rewrite Huid.
    apply String.eqb_neq in Hne. rewrite Hne.
    rewrite bind_run, store_read_run, Hnf.
    change (user_profiles (with_env w (tick (env w)))) with (user_profiles w).
    rewrite Huser, bind_run, Hitems.
    pose proof (check_loop_names_first pre it post (with_env w (tick (env w))))
      as Hloop.
    specialize (Hloop Hnf Hfits Hex).
    destruct (for_of (pre ++ it :: post) check_item (with_env w (tick (env w))))
      as [w1 [u | e]]; simpl in Hloop |- *;
      [discriminate | now injection Hloop as ->].
  - intros e. pose proof (createBooking_cases dto w) as Hcase.
    destruct Hcase as
      [w' e0 Ht Hd He | w0 w' e0 Ht Hd Hloop | w0 w1 w' Ht Hd Hloop Ht' Hd'
       | w0 w1 w2 order Ht Hd Hloop Hnew Hst Ho Hi Hs Hd'].
    + intros _ _ _. exact Ht.
    + intros _ _ _. eapply same_tables_trans; [exact Ht |].
      pose proof (check_loop_same_tables (items dto) w0) as H.
      now rewrite Hloop in H.
    + intros _ _ _. exact Ht'.
    + destruct (for_of (items dto) (insert_item order) w2) as [w3 [u | e1]] eqn:Hins;
        simpl; [discriminate |].
      intros H Hne1 Hne2. injection H as ->.
      destruct (insert_loop_throws _ _ _ _ _ Hins) as [He | [x He]].
      * contradiction.
      * exfalso. exact (Hne2 x He).
Qed.

(** The tent is there but the third kayak is not: the request is refused
    naming the kayak, and neither the booking nor the tent line exists.
    When the store fails on the insert of the order row (the sixth store
    call), nothing is written either. *)
Lemma C2_create_checks_before_writing_witness :
  (exists e, snd (createBooking tent_and_three_kayaks depot) = Thrown e
             /\ same_tables depot (fst (createBooking tent_and_three_kayaks depot)))
  /\ (same_tables depot (fst (createBooking tent_and_three_kayaks depot))
      /\ exists item, In item (items tent_and_three_kayaks)
                      /\ item_id item = "kayak"
                      /\ exceeds_availability depot item)
  /\ snd (createBooking tent_and_three_kayaks depot)
     = Thrown (not_enough_quantity "kayak")
  /\ (snd (createBooking tent_and_kayak (with_env depot (failing_at 5)))
      = Thrown (BadRequestException "Could not create order")
      /\ same_tables (with_env depot (failing_at 5))
                     (fst (createBooking tent_and_kayak
                             (with_env depot (failing_at 5))))).
Proof.
  split; [| split; [| split]].
  - apply (proj1 (C2_create_checks_before_writing tent_and_three_kayaks depot)).
    apply Exists_cons_tl, Exists_cons_hd.
    exists 2. split; [reflexivity | vm_compute; reflexivity].
  - apply (proj1 (proj2 (C2_create_checks_before_writing tent_and_three_kayaks depot))
             "kayak").
    vm_compute. reflexivity.
  - apply (proj1 (proj2 (proj2
             (C2_create_checks_before_writing tent_and_three_kayaks depot)))
             "alice" {| up_id := "alice"; up_role := "user" |}
             [line "tent" 1 (jan 1) (jan 5)] (line "kayak" 3 (jan 1) (jan 5)) []).
    + intros n. reflexivity.
    + reflexivity.
    + discriminate.
    + reflexivity.
    + reflexivity.
    + constructor; [| constructor].
      exists 5. split; [reflexivity | vm_compute; discriminate].
    + exists 2. split; [reflexivity | vm_compute; reflexivity].
  - split; [vm_compute; reflexivity |].
    apply (proj2 (proj2 (proj2
             (C2_create_checks_before_writing tent_and_kayak
                (with_env depot (failing_at 5)))))
             (BadRequestException "Could not create order")).
    + vm_compute. reflexivity.
    + discriminate.
    + intros id. discriminate.
Defined.

(** C2 as stated fails: when the store fails on the insert of the second
    line item (the tenth store call), [createBooking] throws, and the
    booking row and the first line item stay in the store. *)
Lemma C2_partial_booking_persists :
  let w := with_env depot (failing_at 9) in
  snd (createBooking tent_and_kayak w)
  = Thrown (BadRequestException "Could not create order items")
  /\ orders (fst (createBooking tent_and_kayak w))
     = [booking "order-0" "alice" pending "ORD-20240101-0042"]
  /\ order_items (fst (createBooking tent_and_kayak w))
     = [claim "order-0" "tent" 1 (jan 1) (jan 5) pending]
  /\ orders w = [] /\ order_items w = [].
Proof. vm_compute. repeat split. Qed.

(** ** C8: the order number is drawn once *)

Lemma insert_loop_same_orders (order : Order) (its : list BookingItem) :
  preserves (fun w w' => orders w' = orders w) (for_of its (insert_item order)).
Proof.
  assert (forall a b c : World,
             orders b = orders a -> orders c = orders b -> orders c = orders a)
    as Htrans by (intros; congruence).
  apply preserves_for_of; [reflexivity | exact Htrans |].
  intros item _. unfold insert_item.
  apply preserves_bind; [exact Htrans | |].
  - apply preserves_store; [exact Htrans | |]; reflexivity.
  - intros [location |]; [| now apply preserves_throw].
    apply preserves_bind; [exact Htrans | |].
    + apply preserves_store; [exact Htrans | |]; reflexivity.
    + intros [u |]; [now apply preserves_ret | now apply preserves_throw].
Qed.

(** What [createBooking] does once its checks have passed: it draws one
    order number and attempts the insert of the order row, once. *)
Lemma createBooking_insert_attempted (dto : CreateBookingDto) (w w1 : World)
      (userId : string) (user : UserProfile) :
  user_id dto = Some userId -> userId <> "" ->
  fault (env w) (calls (env w)) = false ->
  single (filter (fun u => String.eqb (up_id u) userId) (user_profiles w))
  = Some user ->
  for_of (items dto) check_item (with_env w (tick (env w))) = (w1, Returned tt) ->
  draws (env (fst (createBooking dto w))) = S (draws (env w))
  /\ (fault (env w1) (calls (env w1)) = true
      \/ In (next_order_number (env w1)) (map order_number (orders w)) ->
      snd (createBooking dto w)
      = Thrown (BadRequestException "Could not create order")
      /\ same_tables w (fst (createBooking dto w))).
Proof.
  intros Huid Hne Hf Huser Hcheck.
  pose proof (check_loop_same_tables (items dto) (with_env w (tick (env w)))) as Ht1.
  pose proof (check_loop_same_draws (items dto) (with_env w (tick (env w)))) as Hd1.
  rewrite Hcheck in Ht1, Hd1. unfold same_draws in Hd1. simpl in Ht1, Hd1.
  destruct Ht1 as (Hu & Hs & Ho & Hi).
  destruct (createBooking dto w) as [w' r] eqn:Hrun. simpl. revert Hrun.
  unfold createBooking. rewrite Huid.
  apply String.eqb_neq in Hne. rewrite Hne.
  rewrite bind_run, store_read_run, Hf.
  change (user_profiles (with_env w (tick (env w)))) with (user_profiles w).
  rewrite Huser, bind_run, Hcheck, bind_run.
  unfold generateOrderNumber. cbv beta zeta.
  change ("ORD-" ++ today (env w1) ++ "-"
            ++ padStart 4 "0" (toString (random (env w1) (draws (env w1)) mod 10000)))
    with (next_order_number (env w1)).
  rewrite bind_run. unfold insert_order, store.
  cbn [env with_env drawn fault calls orders].
  destruct (fault (env w1) (calls (env w1))) eqn:Hf1.
  { intros H. injection H as <- <-. split; [simpl; congruence |].
    intros _. split; [reflexivity | repeat split; assumption]. }
  destruct (existsb _ (orders w1)) eqn:Hdup.
  { intros H. injection H as <- <-. split; [simpl; congruence |].
    intros _. split; [reflexivity | repeat split; assumption]. }
  cbv beta iota zeta. rewrite bind_run.
  match goal with
  | |- context [for_of (items dto) (insert_item ?o) ?w2] =>
      pose proof (insert_loop_same_draws o (items dto) w2) as Hd2;
      destruct (for_of (items dto) (insert_item o) w2) as [w3 [[] | e]]
  end; unfold same_draws in Hd2; simpl in Hd2;
    intros H; injection H as <- <-;
    (split; [congruence |]);
    (intros [Hft | Hin]; [discriminate |]);
    apply existsb_order_number_false in Hdup; rewrite Ho in Hdup; contradiction.
Qed.

(** C8 as amended.  [createBooking] generates the order number once and
    never retries.  (1) A call draws at most one random part.  (2) An
    order is only returned with a number that no order had before and is
    then in the store, after exactly one draw.  (3) When the call throws
    "Could not create order", the four tables are as before.  (4) Once the
    user is found and the checks of the lines have passed, so that the
    insert of the order row is attempted, exactly one random part is
    drawn; and if the store refuses that insert, as it does on a failure
    or on a collision of the number, the call throws "Could not create
    order" at once, with the four tables as before.  (5) When the call
    fails earlier, with any other exception than that one and the two of
    the insert of a line item, no random part has been drawn. *)
Theorem C8_order_number_drawn_once (dto : CreateBookingDto) (w : World) :
  (draws (env (fst (createBooking dto w))) <= S (draws (env w)))%nat
  /\ (forall order,
         snd (createBooking dto w) = Returned order ->
         ~ In (order_number order) (map order_number (orders w))
         /\ In order (orders (fst (createBooking dto w)))
         /\ draws (env (fst (createBooking dto w))) = S (draws (env w)))
  /\ (snd (createBooking dto w)
      = Thrown (BadRequestException "Could not create order") ->
      same_tables w (fst (createBooking dto w)))
  /\ (forall userId user w1,
         user_id dto = Some userId -> userId <> "" ->
         fault (env w) (calls (env w)) = false ->
         single (filter (fun u => String.eqb (up_id u) userId) (user_profiles w))
         = Some user ->
         for_of (items dto) check_item (with_env w (tick (env w)))
         = (w1, Returned tt) ->
         draws (env (fst (createBooking dto w))) = S (draws (env w))
         /\ (fault (env w1) (calls (env w1)) = true
             \/ In (next_order_number (env w1)) (map order_number (orders w)) ->
             snd (createBooking dto w)
             = Thrown (BadRequestException "Could not create order")
             /\ same_tables w (fst (createBooking dto w))))
  /\ (forall e,
         snd (createBooking dto w) = Thrown e ->
         e <> BadRequestException "Could not create order" ->
         e <> BadRequestException "Could not create order items" ->
         (forall id,
             e <> BadRequestException ("Could not fetch location_id for item " ++ id)) ->
         draws (env (fst (createBooking dto w))) = draws (env w)).
Proof.
  assert (forall A B C D E : Prop,
             (A /\ B /\ C /\ E) -> D -> A /\ B /\ C /\ D /\ E) as Hjoin
    by tauto.
  apply Hjoin; [| intros userId user w1; apply createBooking_insert_attempted].
  pose proof (createBooking_cases dto w) as Hcase.
  destruct Hcase as
    [w' e Ht Hd He | w0 w' e Ht Hd Hloop | w0 w1 w' Ht Hd Hloop Ht' Hd'
     | w0 w1 w2 order Ht Hd Hloop Hnew Hst Ho Hi Hs Hd'].
  - unfold same_draws in Hd.
    split; [lia | split; [intros order H; discriminate |]].
    split; [intros _; exact Ht | intros _ _ _ _ _; exact Hd].
  - pose proof (check_loop_same_draws (items dto) w0) as Hd1.
    pose proof (check_loop_same_tables (items dto) w0) as Ht1.
    rewrite Hloop in Hd1, Ht1. unfold same_draws in *. simpl in Hd1, Ht1.
    split; [lia | split; [intros order H; discriminate |]].
    split; [| intros _ _ _ _ _; simpl; congruence].
    intros _. eapply same_tables_trans; eassumption.
  - split; [lia | split; [intros order H; discriminate |]].
    split; [intros _; exact Ht' |].
    intros e H Hne. injection H as <-. contradiction.
  - pose proof (insert_loop_same_draws order (items dto) w2) as Hd2.
    pose proof (insert_loop_same_orders order (items dto) w2) as Ho2.
    unfold same_draws in Hd2. cbv beta in Ho2.
    split; [lia |]. split; [| split].
    + intros order'.
      destruct (for_of (items dto) (insert_item order) w2) as [w3 [u | e]];
        simpl in *; [| discriminate].
      intros H. injection H as <-. repeat split; [exact Hnew | | lia].
      rewrite Ho2, Ho. apply in_or_app. right. now left.
    + destruct (for_of (items dto) (insert_item order) w2) as [w3 [u | e]] eqn:Hins;
        simpl; [discriminate |].
      intros H. injection H as ->.
      destruct (insert_loop_throws _ _ _ _ _ Hins) as [He | [x He]]; discriminate.
    + intros e.
      destruct (for_of (items dto) (insert_item order) w2) as [w3 [u | e1]] eqn:Hins;
        simpl; [discriminate |].
      intros H _ Hne1 Hne2. injection H as ->.
      destruct (insert_loop_throws _ _ _ _ _ Hins) as [He | [x He]].
      * contradiction.
      * exfalso. exact (Hne2 x He).
Qed.

(** The number ORD-20240101-0042 is taken and 42 is drawn: the insert is
    attempted after one draw and refused, and the call fails at once with
    the tables as before; from the depot it returns the order; for a user
    nobody knows it fails before any draw. *)
Lemma C8_order_number_drawn_once_witness :
  same_tables (depot_with pending pending quiet)
    (fst (createBooking (request "bob" [line "tent" 1 (jan 1) (jan 5)])
            (depot_with pending pending quiet)))
  /\ In (booking "order-0" "bob" pending "ORD-20240101-0042")
        (orders (fst (createBooking (request "bob" [line "tent" 1 (jan 1) (jan 5)])
                        depot)))
  /\ (draws (env (fst (createBooking (request "bob" [line "tent" 1 (jan 1) (jan 5)])
                         (depot_with pending pending quiet)))) = 1%nat
      /\ snd (createBooking (request "bob" [line "tent" 1 (jan 1) (jan 5)])
                (depot_with pending pending quiet))
         = Thrown (BadRequestException "Could not create order"))
  /\ draws (env (fst (createBooking (request "mallory" []) depot)))
     = draws (env depot).
Proof.
  split; [| split; [| split]].
  - apply (proj1 (proj2 (proj2 (C8_order_number_drawn_once
                           (request "bob" [line "tent" 1 (jan 1) (jan 5)])
                           (depot_with pending pending quiet))))).
    vm_compute. reflexivity.
  - apply (proj1 (proj2 (C8_order_number_drawn_once
                           (request "bob" [line "tent" 1 (jan 1) (jan 5)])
                           depot))
             (booking "order-0" "bob" pending "ORD-20240101-0042")).
    vm_compute. reflexivity.
  - destruct (proj1 (proj2 (proj2 (proj2 (C8_order_number_drawn_once
                           (request "bob" [line "tent" 1 (jan 1) (jan 5)])
                           (depot_with pending pending quiet)))))
                "bob" {| up_id := "bob"; up_role := "user" |}
                (fst (for_of [line "tent" 1 (jan 1) (jan 5)] check_item
                        (with_env (depot_with pending pending quiet)
                           (tick quiet)))))
      as [Hdraws Hrefused].
    + reflexivity.
    + discriminate.
    + reflexivity.
    + vm_compute. reflexivity.
    + vm_compute. reflexivity.
    + split; [exact Hdraws |].
      apply Hrefused. right. vm_compute. left. reflexivity.
  - apply (proj2 (proj2 (proj2 (proj2 (C8_order_number_drawn_once
                                          (request "mallory" []) depot))))
             (BadRequestException "User not found")).
    + vm_compute. reflexivity.
    + discriminate.
    + discriminate.
    + intros id. discriminate.
Defined.

(** C8 as stated fails: with ORD-20240101-0042 taken and 42 drawn,
    [createBooking] throws a bad-request exception after that single draw;
    the next draw, 43, is free, and the same request made again
    succeeds with it. *)
Lemma C8_collision_not_retried :
  let w := depot_with pending pending quiet in
  let dto := request "bob" [line "tent" 1 (jan 1) (jan 5)] in
  snd (createBooking dto w) = Thrown (BadRequestException "Could not create order")
  /\ draws (env w) = 0%nat
  /\ draws (env (fst (createBooking dto w))) = 1%nat
  /\ random (env w) 1 mod 10000 = 43
  /\ snd (createBooking dto (fst (createBooking dto w)))
     = Returned (booking "order-0" "bob" pending "ORD-20240101-0043").
Proof. vm_compute. repeat split. Qed.

(** ** C7: transitions and the current status *)

(** Reduction of the administrative redexes left by running a step:
    projections of updated worlds and environments, and booleans. *)
Ltac tidy :=
  cbv beta iota zeta;
  cbn [negb fst snd option_map env tick fault calls
       with_env with_orders with_order_items with_storage_items with_stock_log
       sel_user_id sel_status select_user_id status_is].


Lemma single_filter_In {R} (p : R -> bool) (l : list R) (r : R) :
  single (filter p l) = Some r -> In r l /\ p r = true.
Proof.
  intros H. apply filter_In.
  destruct (filter p l) as [| a [| b t]]; try discriminate.
  injection H as ->. now left.
Qed.

Lemma single_map {R S} (f : R -> S) (l : list R) :
  single (map f l) = option_map f (single l).
Proof. destruct l as [| a [| b t]]; reflexivity. Qed.

Lemma is_admin_role (role : string) :
  role = "admin" \/ role = "superVera" ->
  (String.eqb role "admin" || String.eqb role "superVera") = true.
Proof. intros [-> | ->]; reflexivity. Qed.

(** The administrative transitions, run without store failure. *)

Lemma rejectBooking_admin_run (orderId userId role : string) (w : World) :
  no_faults w ->
  role_of userId w = Some role ->
  role = "admin" \/ role = "superVera" ->
  exists w',
    rejectBooking orderId userId w = (w', Returned "Booking rejected")
    /\ orders w' = orders (set_order_status orderId rejected w).
Proof.
  intros Hnf Hrole Hadmin. pose proof (is_admin_role role Hadmin) as Hisadmin.
  eexists. split.
  - unfold rejectBooking. rewrite bind_run, store_read_run, Hnf.
    change (role_of userId (with_env w (tick (env w)))) with (role_of userId w).
    rewrite Hrole, Hisadmin. tidy.
    rewrite bind_run. unfold store. tidy. rewrite Hnf. tidy.
    reflexivity.
  - reflexivity.
Qed.







(** ** C6: who may cancel *)

(** X29.  The owner's cancellation does not depend on the status of the
    booking: the row read by [select("user_id")] carries no status, so the
    test against "confirmed" is never met.  With no store failure, for the
    owner of the one booking with the given id, whose role is neither
    "admin" nor "superVera", [cancelBooking] returns "Booking cancelled
    by user" and the booking is then [cancelled_by_user], whatever its
    status was. *)
Lemma cancel_by_owner_any_status (orderId userId role : string) (w : World) (o : Order) :
  no_faults w ->
  single (filter (fun o => String.eqb (o_id o) orderId) (orders w)) = Some o ->
  o_user_id o = userId ->
  role_of userId w = Some role ->
  (String.eqb role "admin" || String.eqb role "superVera") = false ->
  exists w',
    cancelBooking orderId userId w = (w', Returned "Booking cancelled by user")
    /\ orders w' = orders (set_order_status orderId cancelled_by_user w).
Proof.
  intros Hnf Hsingle Howner Hrole Hnot.
  eexists. split.
  - unfold cancelBooking. rewrite bind_run, store_read_run, Hnf.
    change (orders (with_env w (tick (env w)))) with (orders w).
    rewrite single_map, Hsingle. tidy.
    rewrite bind_run, store_read_run. tidy. rewrite Hnf.
    change (role_of userId _) with (role_of userId w).
    rewrite Hrole. tidy. rewrite Hnot. tidy.
    rewrite Howner, String.eqb_refl. tidy.
    rewrite bind_run. unfold ret at 1. tidy.
    rewrite bind_run. unfold store. tidy. rewrite Hnf. tidy.
    reflexivity.
  - reflexivity.
Qed.

(** X28.  A user who is neither administrator nor owner is refused: with
    no store failure, for an actor whose role is neither "admin" nor
    "superVera" and who does not own the one booking with the given id,
    [cancelBooking] throws Forbidden and the four tables are as before. *)
Lemma cancel_by_stranger_forbidden (orderId userId role : string) (w : World) (o : Order) :
  no_faults w ->
  single (filter (fun o => String.eqb (o_id o) orderId) (orders w)) = Some o ->
  o_user_id o <> userId ->
  role_of userId w = Some role ->
  (String.eqb role "admin" || String.eqb role "superVera") = false ->
  exists w',
    cancelBooking orderId userId w
    = (w', Thrown (ForbiddenException "You can only cancel your own bookings"))
    /\ same_tables w w'.
Proof.
  intros Hnf Hsingle Hstranger Hrole Hnot.
  apply String.eqb_neq in Hstranger.
  eexists. split.
  - unfold cancelBooking. rewrite bind_run, store_read_run, Hnf.
    change (orders (with_env w (tick (env w)))) with (orders w).
    rewrite single_map, Hsingle. tidy.
    rewrite bind_run, store_read_run. tidy. rewrite Hnf.
    change (role_of userId _) with (role_of userId w).
    rewrite Hrole. tidy. rewrite Hnot. tidy.
    rewrite Hstranger. tidy.
    rewrite bind_run. unfold throw at 1. tidy.
    reflexivity.
  - repeat split.
Qed.

(** C6, the failing input: Alice, an ordinary user, cancels her own
    booking after it was confirmed.  The call returns and the booking is
    [cancelled_by_user]; the claim asks for a Forbidden error.  Bob, who
    does not own the booking, is refused, and Alice may cancel while the
    booking is pending. *)
Lemma C6_owner_cancels_confirmed_booking :
  orders (depot_with confirmed confirmed quiet)
  = [booking "o1" "alice" confirmed "ORD-20240101-0042"]
  /\ role_of "alice" (depot_with confirmed confirmed quiet) = Some "user"
  /\ snd (cancelBooking "o1" "alice" (depot_with confirmed confirmed quiet))
     = Returned "Booking cancelled by user"
  /\ orders (fst (cancelBooking "o1" "alice" (depot_with confirmed confirmed quiet)))
     = [booking "o1" "alice" cancelled_by_user "ORD-20240101-0042"]
  /\ snd (cancelBooking "o1" "bob" (depot_with pending pending quiet))
     = Thrown (ForbiddenException "You can only cancel your own bookings")
  /\ orders (fst (cancelBooking "o1" "alice" (depot_with pending pending quiet)))
     = [booking "o1" "alice" cancelled_by_user "ORD-20240101-0042"].
Proof. vm_compute. repeat split. Qed.

(** ** C9: who may return items *)

(** The actor plays no part in [returnItems]. *)
Lemma returnItems_ignores_actor (orderId userId userId' : string) (w : World) :
  returnItems orderId userId w = returnItems orderId userId' w.
Proof. reflexivity. Qed.

(** C9, the failing input: Bob, an ordinary user who does not even own
    the booking, returns its items.  The call returns and the cached count
    of the tents goes from 3 to 5; the claim asks for an authorization
    error and no change.  For the administrator the outcome is the
    same. *)
Lemma C9_return_by_non_admin :
  role_of "bob" (depot_with confirmed confirmed quiet) = Some "user"
  /\ storage_items (depot_with confirmed confirmed quiet) = [tent 3; kayak 2]
  /\ snd (returnItems "o1" "bob" (depot_with confirmed confirmed quiet))
     = Returned "Items returned successfully"
  /\ storage_items (fst (returnItems "o1" "bob" (depot_with confirmed confirmed quiet)))
     = [tent 5; kayak 2]
  /\ storage_items (fst (returnItems "o1" "root" (depot_with confirmed confirmed quiet)))
     = [tent 5; kayak 2].
Proof. vm_compute. repeat split. Qed.

(** * Further properties of the service *)

(** ** [createBooking]: what a created booking looks like *)

Lemma check_loop_returned (its : list BookingItem) :
  forall w w',
    for_of its check_item w = (w', Returned tt) ->
    Forall (fits_availability w) its.
Proof.
  induction its as [| item rest IH]; intros w w' Hrun; [constructor |].
  rewrite for_of_cons in Hrun.
  pose proof (check_item_same_tables item w) as Hsame.
  destruct (check_item item w) as [w1 [[] | e]] eqn:Hitem; [| discriminate].
  simpl in Hsame. constructor.
  - revert Hitem. rewrite check_item_run. cbv zeta.
    destruct (fault _ _); [discriminate |].
    destruct (fault _ _); [discriminate |].
    destruct (capacity (item_id item) w) as [total |] eqn:Hcap; [| discriminate].
    destruct (Z.gtb_spec (sum_quantity (overlappingOrders_create item w)
                          + quantity item) total) as [Hgt | Hle];
      [discriminate |].
    intros _. exists total. split; [exact Hcap | exact Hle].
  - eapply Forall_impl; [| exact (IH w1 w' Hrun)].
    intros x Hx. now apply (fits_same_tables x w w1).
Qed.

Lemma insert_item_returned (order : Order) (item : BookingItem) (w w' : World) :
  insert_item order item w = (w', Returned tt) ->
  exists row,
    line_of (o_id order) w item row
    /\ order_items w' = (order_items w ++ [row])%list
    /\ orders w' = orders w /\ storage_items w' = storage_items w
    /\ user_profiles w' = user_profiles w.
Proof.
  unfold insert_item. rewrite bind_run, store_read_run.
  destruct (fault (env w) (calls (env w))); [discriminate |].
  change (single _) with (location_of (item_id item) w).
  destruct (location_of (item_id item) w) as [location |] eqn:Hloc; [| discriminate].
  rewrite bind_run. unfold store.
  destruct (fault _ _); [discriminate |].
  cbv beta iota zeta. intros H. injection H as <-.
  eexists. split; [| repeat split].
  repeat split; try reflexivity. exact Hloc.
Qed.

Lemma line_of_same_storage oid w w1 item row :
  storage_items w1 = storage_items w -> line_of oid w1 item row -> line_of oid w item row.
Proof.
  intros Hs (H1 & H2 & H3 & H4). repeat split; try tauto.
  unfold location_of in *. now rewrite <- Hs.
Qed.

Lemma insert_loop_returned (order : Order) (its : list BookingItem) :
  forall w w',
    for_of its (insert_item order) w = (w', Returned tt) ->
    exists rows,
      Forall2 (line_of (o_id order) w) its rows
      /\ order_items w' = (order_items w ++ rows)%list
      /\ orders w' = orders w /\ storage_items w' = storage_items w
      /\ user_profiles w' = user_profiles w.
Proof.
  induction its as [| item rest IH]; intros w w' Hrun.
  - injection Hrun as <-. exists []. rewrite app_nil_r. repeat split. constructor.
  - rewrite for_of_cons in Hrun.
    destruct (insert_item order item w) as [w1 [[] | e]] eqn:Hitem; [| discriminate].
    destruct (insert_item_returned _ _ _ _ Hitem) as [row (Hrow & Hi & Ho & Hs & Hu)].
    destruct (IH w1 w' Hrun) as [rows (Hrows & Hi' & Ho' & Hs' & Hu')].
    exists (row :: rows). repeat split; try congruence.
    + constructor; [exact Hrow |].
      eapply Forall2_impl; [| exact Hrows].
      intros a b. now apply line_of_same_storage.
    + rewrite Hi', Hi, <- app_assoc. reflexivity.
Qed.

(** The successful path of [createBooking], step by step. *)
Lemma createBooking_returned (dto : CreateBookingDto) (w w' : World) (order : Order) :
  createBooking dto w = (w', Returned order) ->
  exists userId w1 w2,
    user_id dto = Some userId /\ userId <> ""
    /\ o_user_id order = userId /\ o_status order = pending
    /\ order_number order = next_order_number (env w1)
    /\ for_of (items dto) check_item (with_env w (tick (env w))) = (w1, Returned tt)
    /\ orders w2 = (orders w ++ [order])%list
    /\ order_items w2 = order_items w
    /\ storage_items w2 = storage_items w
    /\ user_profiles w2 = user_profiles w
    /\ for_of (items dto) (insert_item order) w2 = (w', Returned tt).
Proof.
  unfold createBooking.
  destruct (user_id dto) as [userId |]; [| discriminate].
  destruct (String.eqb userId "") eqn:Hempty; [discriminate |].
  apply String.eqb_neq in Hempty.
  rewrite bind_run, store_read_run.
  set (w0 := with_env w (tick (env w))).
  destruct (fault (env w) (calls (env w))); [discriminate |].
  change (user_profiles w0) with (user_profiles w).
  destruct (single _) as [user |] eqn:Huser; [| discriminate].
  apply single_filter_In in Huser. destruct Huser as [_ Huid].
  apply String.eqb_eq in Huid.
  rewrite bind_run.
  pose proof (check_loop_same_tables (items dto) w0) as Ht1.
  destruct (for_of (items dto) check_item w0) as [w1 [[] | e]] eqn:Hcheck;
    [| discriminate].
  destruct Ht1 as (Hu & Hs & Ho & Hi). simpl in Hu, Hs, Ho, Hi.
  rewrite bind_run. unfold generateOrderNumber. cbv beta zeta.
  fold (next_order_number (env w1)).
  rewrite bind_run. unfold insert_order, store.
  cbn [env with_env fault calls drawn].
  destruct (fault (env w1) (calls (env w1))); [discriminate |].
  cbn [orders with_env].
  destruct (existsb _ _); [discriminate |].
  cbv beta iota zeta. rewrite bind_run.
  set (row := {| o_id := _; o_user_id := _; o_status := _; order_number := _ |}).
  set (w2 := with_env _ (mint _)).
  destruct (for_of (items dto) (insert_item row) w2) as [w3 [[] | e]] eqn:Hins;
    [| discriminate].
  intros H. injection H as <- <-.
  exists userId, w1, w2.
  repeat split; try assumption; try reflexivity.
  simpl. now rewrite Ho.
Qed.

(** X1.  When [createBooking] returns an order, the order is pending and
    belongs to the requesting user, it is the one row added to [orders],
    and [order_items] has grown by exactly one pending row per requested
    line, in the order of the request, carrying the line's item, quantity
    and dates, the location of the item and the number of days rounded
    up; stock and user profiles are untouched. *)
Theorem create_returns_pending_booking
        (dto : CreateBookingDto) (w w' : World) (order : Order)
        (Hrun : createBooking dto w = (w', Returned order)) :
  user_id dto = Some (o_user_id order)
  /\ o_status order = pending
  /\ orders w' = (orders w ++ [order])%list
  /\ storage_items w' = storage_items w
  /\ user_profiles w' = user_profiles w
  /\ exists rows,
      order_items w' = (order_items w ++ rows)%list
      /\ Forall2 (line_of (o_id order) w) (items dto) rows.
Proof.
  destruct (createBooking_returned dto w w' order Hrun)
    as (userId & w1 & w2 & Huid & _ & Howner & Hst & _ & _ & Ho & Hi & Hs & Hu & Hins).
  destruct (insert_loop_returned order (items dto) w2 w' Hins)
    as [rows (Hrows & Hi' & Ho' & Hs' & Hu')].
  repeat split; try congruence.
  exists rows. split; [congruence |].
  eapply Forall2_impl; [| exact Hrows].
  intros a b. now apply line_of_same_storage.
Qed.

Lemma create_returns_pending_booking_witness :
  user_id tent_and_kayak = Some "alice"
  /\ orders (fst (createBooking tent_and_kayak depot))
     = [booking "order-0" "alice" pending "ORD-20240101-0042"]
  /\ exists rows,
      order_items (fst (createBooking tent_and_kayak depot)) = rows
      /\ Forall2 (line_of "order-0" depot) (items tent_and_kayak) rows.
Proof.
  destruct (create_returns_pending_booking tent_and_kayak depot
              (fst (createBooking tent_and_kayak depot))
              (booking "order-0" "alice" pending "ORD-20240101-0042"))
    as (Huid & _ & Ho & _ & _ & rows & Hi & Hrows).
  - vm_compute. reflexivity.
  - split; [exact Huid |]. split; [exact Ho |].
    exists rows. split; [exact Hi | exact Hrows].
Defined.

(** X2.  [createBooking] returns an order only if every requested line
    fitted when the call began: the quantities of the overlapping ledger
    rows of its item plus the requested quantity did not exceed the
    capacity of the item. *)
Theorem create_only_if_every_line_fits
        (dto : CreateBookingDto) (w w' : World) (order : Order)
        (Hrun : createBooking dto w = (w', Returned order)) :
  Forall (fits_availability w) (items dto).
Proof.
  destruct (createBooking_returned dto w w' order Hrun)
    as (userId & w1 & w2 & _ & _ & _ & _ & _ & Hcheck & _).
  apply check_loop_returned in Hcheck.
  eapply Forall_impl; [| exact Hcheck].
  intros x Hx. apply (fits_same_tables x w (with_env w (tick (env w)))).
  - apply same_tables_ticked.
  - exact Hx.
Qed.

Lemma create_only_if_every_line_fits_witness :
  Forall (fits_availability depot) (items tent_and_kayak).
Proof.
  apply (create_only_if_every_line_fits tent_and_kayak depot
           (fst (createBooking tent_and_kayak depot))
           (booking "order-0" "alice" pending "ORD-20240101-0042")).
  vm_compute. reflexivity.
Defined.

Lemma ledger_grew_refl w : ledger_grew w w.
Proof. repeat split. exists []. now rewrite app_nil_r. Qed.

Lemma ledger_grew_trans a b c : ledger_grew a b -> ledger_grew b c -> ledger_grew a c.
Proof.
  intros (H1 & H2 & H3 & [r1 H4]) (H5 & H6 & H7 & [r2 H8]).
  repeat split; try congruence.
  exists (r1 ++ r2)%list. now rewrite H8, H4, app_assoc.
Qed.

Lemma ledger_grew_same_tables w w' : same_tables w w' -> ledger_grew w w'.
Proof.
  intros (Hu & Hs & Ho & Hi). repeat split; try assumption.
  exists []. now rewrite app_nil_r.
Qed.

Lemma insert_loop_ledger_grew (order : Order) (its : list BookingItem) :
  preserves ledger_grew (for_of its (insert_item order)).
Proof.
  apply preserves_for_of; [exact ledger_grew_refl | exact ledger_grew_trans |].
  intros item _. unfold insert_item.
  apply preserves_bind; [exact ledger_grew_trans | |].
  - apply preserves_store; [exact ledger_grew_trans | |];
      intros w; apply ledger_grew_same_tables; repeat split.
  - intros [location |]; [| apply preserves_throw, ledger_grew_refl].
    apply preserves_bind; [exact ledger_grew_trans | |].
    + apply preserves_store; [exact ledger_grew_trans | |]; intros w.
      * apply ledger_grew_same_tables. repeat split.
      * repeat split. eexists. reflexivity.
    + intros [u |]; [apply preserves_ret | apply preserves_throw];
        apply ledger_grew_refl.
Qed.

(** Stock and user profiles are as before. *)
Lemma createBooking_keeps_stock_and_users (dto : CreateBookingDto) :
  preserves (fun w w' => storage_items w' = storage_items w
                         /\ user_profiles w' = user_profiles w)
            (createBooking dto).
Proof.
  set (R := fun w w' : World => storage_items w' = storage_items w
                                /\ user_profiles w' = user_profiles w).
  assert (forall w, R w w) as Rrefl by (intros w; split; reflexivity).
  assert (forall a b c, R a b -> R b c -> R a c) as Rtrans
      by (intros a b c [H1 H2] [H3 H4]; split; congruence).
  assert (forall A (f : World -> option A), preserves R (store (fun w => (w, f w))))
    as Rread.
  { intros A f. apply preserves_store; [exact Rtrans | |]; intros w; split; reflexivity. }
  unfold createBooking.
  destruct (user_id dto) as [userId |]; [| now apply preserves_throw].
  destruct (String.eqb userId ""); [now apply preserves_throw |].
  apply preserves_bind; [exact Rtrans | apply Rread |].
  intros [user |]; [| now apply preserves_throw].
  apply preserves_bind; [exact Rtrans | |].
  { apply preserves_for_of; [exact Rrefl | exact Rtrans |].
    intros item _. unfold check_item.
    apply preserves_bind; [exact Rtrans | apply Rread |].
    intros [rows |]; [| now apply preserves_throw].
    apply preserves_bind; [exact Rtrans | apply Rread |].
    intros [total |]; [| now apply preserves_throw].
    destruct (_ >? _); [now apply preserves_throw | now apply preserves_ret]. }
  intros _. apply preserves_bind; [exact Rtrans | |].
  { intros w. split; reflexivity. }
  intros number. apply preserves_bind; [exact Rtrans | |].
  { unfold insert_order. apply preserves_store; [exact Rtrans | |]; intros w.
    - split; reflexivity.
    - destruct (existsb _ _); split; reflexivity. }
  intros [order |]; [| now apply preserves_throw].
  apply preserves_bind; [exact Rtrans | | intros _; now apply preserves_ret].
  apply preserves_for_of; [exact Rrefl | exact Rtrans |].
  intros item _. unfold insert_item.
  apply preserves_bind; [exact Rtrans | apply Rread |].
  intros [location |]; [| now apply preserves_throw].
  apply preserves_bind; [exact Rtrans | |].
  - apply preserves_store; [exact Rtrans | |]; intros w; split; reflexivity.
  - intros [u |]; [now apply preserves_ret | now apply preserves_throw].
Qed.

(** X3.  Whatever the request and however the call ends, [createBooking]
    leaves stock and user profiles as they are and never alters or
    removes an existing booking or ledger row: [orders] grows by at most
    one row at its end and [order_items] only by rows at its end. *)
Theorem create_never_alters_existing (dto : CreateBookingDto) (w : World) :
  storage_items (fst (createBooking dto w)) = storage_items w
  /\ user_profiles (fst (createBooking dto w)) = user_profiles w
  /\ (exists new, orders (fst (createBooking dto w)) = (orders w ++ new)%list
                  /\ (List.length new <= 1)%nat)
  /\ (exists rows, order_items (fst (createBooking dto w)) = (order_items w ++ rows)%list).
Proof.
  destruct (createBooking_keeps_stock_and_users dto w) as [Hstock Husers].
  split; [exact Hstock |]. split; [exact Husers |].
  pose proof (createBooking_cases dto w) as Hcase.
  destruct Hcase as
    [w' e Ht Hd He | w0 w' e Ht Hd Hloop | w0 w1 w' Ht Hd Hloop Ht' Hd'
     | w0 w1 w2 order Ht Hd Hloop Hnew Hst Ho Hi Hs Hd'].
  - destruct Ht as (_ & _ & Ho & Hi).
    split; exists []; rewrite app_nil_r;
      [split; [assumption | simpl; lia] | assumption].
  - pose proof (check_loop_same_tables (items dto) w0) as Ht1.
    rewrite Hloop in Ht1. simpl in Ht1.
    destruct (same_tables_trans _ _ _ Ht Ht1) as (_ & _ & Ho & Hi).
    split; exists []; rewrite app_nil_r;
      [split; [assumption | simpl; lia] | assumption].
  - destruct Ht' as (_ & _ & Ho & Hi).
    split; exists []; rewrite app_nil_r;
      [split; [assumption | simpl; lia] | assumption].
  - pose proof (insert_loop_ledger_grew order (items dto) w2)
      as (_ & _ & Ho2 & [rows Hi2]).
    split.
    + exists [order]. split; [congruence | simpl; lia].
    + exists rows. congruence.
Qed.

(** ** [createBooking]: when it succeeds *)

Lemma same_oracles_refl w : same_oracles w w.
Proof. repeat split. Qed.

Lemma same_oracles_trans a b c : same_oracles a b -> same_oracles b c -> same_oracles a c.
Proof.
  intros (H1 & H2 & H3 & H4 & H5 & H6) (G1 & G2 & G3 & G4 & G5 & G6).
  repeat split; congruence.
Qed.

Lemma no_faults_same_oracles w w' : same_oracles w w' -> no_faults w -> no_faults w'.
Proof. intros (Hf & _) Hnf n. rewrite Hf. apply Hnf. Qed.

Lemma next_order_number_same_oracles w w' :
  same_oracles w w' -> next_order_number (env w') = next_order_number (env w).
Proof.
  intros (_ & Hd & Hr & Ht & _). unfold next_order_number. now rewrite Hd, Hr, Ht.
Qed.

Lemma check_loop_all_fit (its : list BookingItem) :
  forall w,
    no_faults w -> Forall (fits_availability w) its ->
    exists w', for_of its check_item w = (w', Returned tt)
               /\ same_tables w w' /\ same_oracles w w'.
Proof.
  induction its as [| item rest IH]; intros w Hnf Hfits.
  - exists w. repeat split.
  - inversion Hfits as [| ? ? Hitem Hrest]; subst.
    rewrite for_of_cons, (check_item_fitting_returns item w Hnf Hitem).
    destruct (IH (with_env (with_env w (tick (env w))) (tick (tick (env w)))))
      as [w' (Hrun & Ht & Ho)].
    + intros n. apply Hnf.
    + exact Hrest.
    + exists w'. split; [exact Hrun |]. split.
      * eapply same_tables_trans; [| exact Ht]. repeat split.
      * eapply same_oracles_trans; [| exact Ho]. repeat split.
Qed.

Lemma capacity_gives_location (id : string) (w : World) (total : Z) :
  capacity id w = Some total -> exists location, location_of id w = Some location.
Proof.
  unfold capacity, location_of. rewrite !single_map.
  destruct (single _) as [s |]; [| discriminate].
  intros _. eexists; reflexivity.
Qed.

Lemma insert_loop_all_located (order : Order) (its : list BookingItem) :
  forall w,
    no_faults w ->
    Forall (fun item => exists location, location_of (item_id item) w = Some location)
           its ->
    exists w', for_of its (insert_item order) w = (w', Returned tt).
Proof.
  induction its as [| item rest IH]; intros w Hnf Hloc.
  - exists w. reflexivity.
  - inversion Hloc as [| ? ? [location Hitem] Hrest]; subst.
    rewrite for_of_cons. unfold insert_item at 1.
    rewrite bind_run, store_read_run, Hnf.
    change (single _) with (location_of (item_id item) w).
    rewrite Hitem, bind_run. unfold store. tidy. rewrite Hnf. tidy.
    apply IH.
    + intros n. apply Hnf.
    + exact Hrest.
Qed.

Lemma not_In_order_number (number : string) (l : list Order) :
  ~ In number (map order_number l) ->
  existsb (fun o => String.eqb (order_number o) number) l = false.
Proof.
  intros Hnot. destruct (existsb _ l) eqn:E; [| reflexivity].
  apply existsb_exists in E. destruct E as [o [Hin Heq]].
  apply String.eqb_eq in Heq. exfalso. apply Hnot.
  apply in_map_iff. exists o. now split.
Qed.

(** X4.  [createBooking] succeeds when nothing stands in its way: with no
    store failure, a non-empty user id that has exactly one profile, every
    requested line fitting the availability of its item, and the order
    number about to be generated not taken, the call returns an order. *)
Theorem create_succeeds_when_lines_fit
        (dto : CreateBookingDto) (w : World) (userId : string) (user : UserProfile)
        (Hnf : no_faults w)
        (Huid : user_id dto = Some userId)
        (Hne : userId <> "")
        (Huser : single (filter (fun u => String.eqb (up_id u) userId) (user_profiles w))
                 = Some user)
        (Hfits : Forall (fits_availability w) (items dto))
        (Hfree : ~ In (next_order_number (env w)) (map order_number (orders w))) :
  exists order, snd (createBooking dto w) = Returned order.
Proof.
  unfold createBooking. rewrite Huid.
  apply String.eqb_neq in Hne. rewrite Hne.
  rewrite bind_run, store_read_run, Hnf.
  change (user_profiles (with_env w (tick (env w)))) with (user_profiles w).
  rewrite Huser, bind_run.
  destruct (check_loop_all_fit (items dto) (with_env w (tick (env w))))
    as [w1 (Hloop & Ht & Ho)];
    [intros n; apply Hnf | exact Hfits |].
  rewrite Hloop, bind_run. unfold generateOrderNumber. cbv beta zeta.
  fold (next_order_number (env w1)).
  rewrite (next_order_number_same_oracles (with_env w (tick (env w))) w1 Ho).
  change (next_order_number (env (with_env w (tick (env w)))))
    with (next_order_number (env w)).
  assert (no_faults w1) as Hnf1.
  { apply (no_faults_same_oracles (with_env w (tick (env w)))); [exact Ho |].
    intros n. apply Hnf. }
  destruct Ht as (_ & Hs & Horders & _). simpl in Hs, Horders.
  rewrite bind_run. unfold insert_order, store.
  cbn [env with_env fault calls drawn orders]. rewrite Hnf1.
  rewrite Horders, (not_In_order_number _ _ Hfree).
  cbv beta iota zeta. rewrite bind_run.
  set (order := {| o_id := _; o_user_id := _; o_status := _; order_number := _ |}).
  set (w2 := with_env _ (mint _)).
  destruct (insert_loop_all_located order (items dto) w2) as [w3 Hins].
  - intros n. apply Hnf1.
  - eapply Forall_impl; [| exact Hfits].
    intros item [total [Hcap _]].
    apply (capacity_gives_location _ _ total).
    unfold capacity in *. subst w2.
    cbn [storage_items with_env with_orders]. now rewrite Hs.
  - rewrite Hins. eexists. reflexivity.
Qed.

Lemma create_succeeds_when_lines_fit_witness :
  exists order, snd (createBooking tent_and_kayak depot) = Returned order.
Proof.
  apply (create_succeeds_when_lines_fit tent_and_kayak depot "alice"
           {| up_id := "alice"; up_role := "user" |}).
  - intros n. reflexivity.
  - reflexivity.
  - discriminate.
  - reflexivity.
  - repeat constructor.
    + exists 5. split; [reflexivity | vm_compute; discriminate].
    + exists 2. split; [reflexivity | vm_compute; discriminate].
  - vm_compute. tauto.
Defined.

(** X5.  [createBooking] needs a known user.  Without a user id, or with
    the empty one, it throws at once and the world is exactly as before:
    no store call is made.  With a user id that has no profile, or more
    than one, it throws "User not found" after that one read, with the
    four tables as before and no order number drawn. *)
Theorem create_needs_a_known_user (dto : CreateBookingDto) (w : World) :
  (user_id dto = None \/ user_id dto = Some "" ->
   createBooking dto w
   = (w, Thrown (BadRequestException "No userId found: user_id is required")))
  /\ (forall userId,
         user_id dto = Some userId -> userId <> "" ->
         single (filter (fun u => String.eqb (up_id u) userId) (user_profiles w)) = None ->
         snd (createBooking dto w) = Thrown (BadRequestException "User not found")
         /\ same_tables w (fst (createBooking dto w))
         /\ calls (env (fst (createBooking dto w))) = S (calls (env w))
         /\ draws (env (fst (createBooking dto w))) = draws (env w)).
Proof.
  split.
  - unfold createBooking. intros [-> | ->]; reflexivity.
  - intros userId Huid Hne Hnone. apply String.eqb_neq in Hne.
    assert (createBooking dto w
            = (with_env w (tick (env w)),
               Thrown (BadRequestException "User not found"))) as Hrun.
    { unfold createBooking. rewrite Huid, Hne, bind_run, store_read_run.
      change (user_profiles (with_env w (tick (env w)))) with (user_profiles w).
      rewrite Hnone. now destruct (fault _ _). }
    rewrite Hrun. repeat split.
Qed.

Lemma create_needs_a_known_user_witness :
  createBooking (request "" [line "tent" 1 (jan 1) (jan 5)]) depot
  = (depot, Thrown (BadRequestException "No userId found: user_id is required"))
  /\ snd (createBooking (request "mallory" [line "tent" 1 (jan 1) (jan 5)]) depot)
     = Thrown (BadRequestException "User not found").
Proof.
  split.
  - apply (proj1 (create_needs_a_known_user
                    (request "" [line "tent" 1 (jan 1) (jan 5)]) depot)).
    right. reflexivity.
  - apply (proj2 (create_needs_a_known_user
                    (request "mallory" [line "tent" 1 (jan 1) (jan 5)]) depot)
             "mallory").
    + reflexivity.
    + discriminate.
    + reflexivity.
Defined.

(** ** [checkAvailability] and [calculateAvailableQuantity] *)

Lemma checkAvailability_run (itemId : string) (s e : Z) (userId : string) (w : World) :
  checkAvailability itemId s e userId w
  = let w1 := with_env w (tick (env w)) in
    if fault (env w) (calls (env w))
    then (w1, Thrown (BadRequestException "Error checking overlapping bookings"))
    else
      let w2 := with_env w1 (tick (env w1)) in
      if fault (env w1) (calls (env w1))
      then (w2, Thrown (BadRequestException "Item data not found"))
      else
        match capacity itemId w with
        | None => (w2, Thrown (BadRequestException "Item data not found"))
        | Some total =>
            let booked := sum_quantity (overlappingOrders_check itemId s e w) in
            (w2, Returned {| a_item_id := itemId; availableQuantity := total - booked;
                             alreadyBookedQuantity := booked; totalQuantity := total;
                             startDate := s; endDate := e |})
        end.
Proof.
  unfold checkAvailability. rewrite bind_run, store_read_run.
  destruct (fault (env w) (calls (env w))); [reflexivity |].
  cbv zeta. rewrite bind_run, store_read_run.
  destruct (fault _ _); [reflexivity |].
  change (single _) with (capacity itemId w).
  destruct (capacity itemId w) as [total |]; reflexivity.
Qed.

(** X6.  What [checkAvailability] reports is what [createBooking]
    enforces.  When it returns, it has changed no table, its
    [availableQuantity] is the capacity of the item minus the booked
    quantity it reports, and a line for that item and range fits the
    check of [createBooking] exactly when its quantity is at most the
    reported [availableQuantity]. *)
Theorem check_availability_agrees_with_create
        (itemId : string) (s e : Z) (userId : string) (w w' : World) (a : Availability)
        (Hrun : checkAvailability itemId s e userId w = (w', Returned a)) :
  same_tables w w'
  /\ capacity itemId w = Some (totalQuantity a)
  /\ availableQuantity a = totalQuantity a - alreadyBookedQuantity a
  /\ (forall q, q <= availableQuantity a <-> fits_availability w (line itemId q s e))
  /\ (forall q, q > availableQuantity a <-> exceeds_availability w (line itemId q s e)).
Proof.
  rewrite checkAvailability_run in Hrun. cbv zeta in Hrun.
  destruct (fault _ _); [discriminate |].
  destruct (fault _ _); [discriminate |].
  destruct (capacity itemId w) as [total |] eqn:Hcap; [| discriminate].
  injection Hrun as <- <-. cbn [totalQuantity availableQuantity alreadyBookedQuantity].
  split; [repeat split |]. split; [reflexivity |]. split; [reflexivity |].
  split; intros q.
  - unfold fits_availability. cbn [item_id line quantity].
    change (overlappingOrders_create (line itemId q s e) w)
      with (overlappingOrders_check itemId s e w).
    rewrite Hcap. split.
    + intros Hq. exists total. split; [reflexivity | lia].
    + intros [t [Ht Hq]]. injection Ht as <-. lia.
  - unfold exceeds_availability. cbn [item_id line quantity].
    change (overlappingOrders_create (line itemId q s e) w)
      with (overlappingOrders_check itemId s e w).
    rewrite Hcap. split.
    + intros Hq. exists total. split; [reflexivity | lia].
    + intros [t [Ht Hq]]. injection Ht as <-. lia.
Qed.

Lemma check_availability_agrees_with_create_witness :
  (forall q, q <= 2 <-> fits_availability depot_one_booking
                          (line "tent" q (jan 3) (jan 10)))
  /\ (forall q, q > 2 <-> exceeds_availability depot_one_booking
                            (line "tent" q (jan 3) (jan 10))).
Proof.
  destruct (check_availability_agrees_with_create
              "tent" (jan 3) (jan 10) "bob" depot_one_booking
              (fst (checkAvailability "tent" (jan 3) (jan 10) "bob" depot_one_booking))
              {| a_item_id := "tent"; availableQuantity := 2;
                 alreadyBookedQuantity := 3; totalQuantity := 5;
                 startDate := jan 3; endDate := jan 10 |})
    as (_ & _ & _ & Hfits & Hexceeds).
  - vm_compute. reflexivity.
  - split; assumption.
Defined.

Lemma sum_from (rows : list (option Z)) (acc : Z) :
  fold_left (fun sum o => sum + num o) rows acc
  = acc + fold_left (fun sum o => sum + num o) rows 0.
Proof.
  revert acc. induction rows as [| q rows IH]; intros acc; simpl; [lia |].
  rewrite (IH (acc + num q)), (IH (num q)). lia.
Qed.

Lemma sum_quantity_cons (q : option Z) (rows : list (option Z)) :
  sum_quantity (q :: rows) = num q + sum_quantity rows.
Proof. unfold sum_quantity. simpl. rewrite sum_from. lia. Qed.

Lemma sum_quantity_app (l1 l2 : list (option Z)) :
  sum_quantity (l1 ++ l2) = sum_quantity l1 + sum_quantity l2.
Proof.
  induction l1 as [| q l1 IH]; simpl; [reflexivity |].
  rewrite !sum_quantity_cons, IH. lia.
Qed.

(** Rows selected by a stronger filter sum to no more, when no quantity is
    negative. *)
Lemma sum_quantity_filter_le (p q : OrderItem -> bool) (l : list OrderItem) :
  Forall (fun r => 0 <= num (oi_quantity r)) l ->
  (forall r, p r = true -> q r = true) ->
  sum_quantity (map oi_quantity (filter p l))
  <= sum_quantity (map oi_quantity (filter q l)).
Proof.
  intros Hnn Himp. induction Hnn as [| r l Hr Hl IH]; simpl; [lia |].
  destruct (p r) eqn:Hp.
  - rewrite (Himp r Hp). simpl. rewrite !sum_quantity_cons. lia.
  - destruct (q r); simpl; [rewrite sum_quantity_cons |]; lia.
Qed.

Lemma filter_ext_Forall {R} (p q : R -> bool) (l : list R) :
  Forall (fun r => p r = q r) l -> filter p l = filter q l.
Proof.
  intros H. induction H as [| r l Hr Hl IH]; simpl; [reflexivity |].
  now rewrite Hr, IH.
Qed.

Lemma calculateAvailableQuantity_run (itemId : string) (s e : Z) (w : World) :
  calculateAvailableQuantity itemId s e w
  = let w1 := with_env w (tick (env w)) in
    if fault (env w) (calls (env w))
    then (w1, Thrown (Error "Error checking the bookings"))
    else
      let w2 := with_env w1 (tick (env w1)) in
      if fault (env w1) (calls (env w1))
      then (w2, Thrown (Error "Error when retrieving/ calling item.total"))
      else
        match capacity itemId w with
        | None => (w2, Thrown (Error "Error when retrieving/ calling item.total"))
        | Some total =>
            (w2, Returned (total - sum_quantity (overlapping_calc itemId s e w)))
        end.
Proof.
  unfold calculateAvailableQuantity. rewrite bind_run, store_read_run.
  destruct (fault (env w) (calls (env w))); [reflexivity |].
  cbv zeta. rewrite bind_run, store_read_run.
  destruct (fault _ _); [reflexivity |].
  change (single _) with (capacity itemId w).
  destruct (capacity itemId w) as [total |]; reflexivity.
Qed.

Lemma where_calc_implies_check itemId s e r :
  where_calc itemId s e r = true -> where_check itemId s e r = true.
Proof.
  unfold where_calc, where_check. rewrite !andb_true_iff. tauto.
Qed.

(** X7.  The availability calculator never reports less than
    [checkAvailability]: on the same world, item and range, and with no
    negative quantity in the ledger, the calculator's result is at least
    the [availableQuantity] of [checkAvailability]; the two are equal when
    every ledger row is pending or confirmed. *)
Theorem calculator_at_least_check_availability
        (itemId : string) (s e : Z) (userId : string) (w w1 w2 : World)
        (c : Z) (a : Availability)
        (Hnonneg : Forall (fun r => 0 <= num (oi_quantity r)) (order_items w))
        (Hcalc : calculateAvailableQuantity itemId s e w = (w1, Returned c))
        (Hcheck : checkAvailability itemId s e userId w = (w2, Returned a)) :
  availableQuantity a <= c
  /\ (Forall (fun r => oi_status r = pending \/ oi_status r = confirmed) (order_items w) ->
      c = availableQuantity a).
Proof.
  rewrite calculateAvailableQuantity_run in Hcalc.
  rewrite checkAvailability_run in Hcheck. cbv zeta in Hcalc, Hcheck.
  destruct (fault _ _); [discriminate |].
  destruct (fault _ _); [discriminate |].
  destruct (capacity itemId w) as [total |]; [| discriminate].
  injection Hcalc as _ <-. injection Hcheck as _ <-.
  cbn [availableQuantity]. unfold overlapping_calc, overlappingOrders_check.
  split.
  - pose proof (sum_quantity_filter_le (where_calc itemId s e) (where_check itemId s e)
                  (order_items w) Hnonneg (where_calc_implies_check itemId s e)).
    lia.
  - intros Hactive. f_equal. f_equal. f_equal.
    apply filter_ext_Forall. eapply Forall_impl; [| exact Hactive].
    intros r Hr. unfold where_calc, where_check.
    apply status_in_pending_confirmed in Hr. rewrite Hr.
    now rewrite andb_true_r.
Qed.

Lemma calculator_at_least_check_availability_witness :
  availableQuantity {| a_item_id := "tent"; availableQuantity := 0;
                       alreadyBookedQuantity := 5; totalQuantity := 5;
                       startDate := jan 1; endDate := jan 5 |} <= 5
  /\ 2 = availableQuantity {| a_item_id := "tent"; availableQuantity := 2;
                              alreadyBookedQuantity := 3; totalQuantity := 5;
                              startDate := jan 3; endDate := jan 10 |}.
Proof.
  split.
  - apply (proj1 (calculator_at_least_check_availability
                    "tent" (jan 1) (jan 5) "bob" depot_rejected_line
                    (fst (calculateAvailableQuantity "tent" (jan 1) (jan 5)
                            depot_rejected_line))
                    (fst (checkAvailability "tent" (jan 1) (jan 5) "bob"
                            depot_rejected_line))
                    5
                    {| a_item_id := "tent"; availableQuantity := 0;
                       alreadyBookedQuantity := 5; totalQuantity := 5;
                       startDate := jan 1; endDate := jan 5 |}
                    ltac:(repeat constructor; vm_compute; discriminate)
                    ltac:(vm_compute; reflexivity)
                    ltac:(vm_compute; reflexivity))).
  - apply (proj2 (calculator_at_least_check_availability
                    "tent" (jan 3) (jan 10) "bob" depot_one_booking
                    (fst (calculateAvailableQuantity "tent" (jan 3) (jan 10)
                            depot_one_booking))
                    (fst (checkAvailability "tent" (jan 3) (jan 10) "bob"
                            depot_one_booking))
                    2
                    {| a_item_id := "tent"; availableQuantity := 2;
                       alreadyBookedQuantity := 3; totalQuantity := 5;
                       startDate := jan 3; endDate := jan 10 |}
                    ltac:(vm_compute; repeat constructor; discriminate)
                    ltac:(vm_compute; reflexivity)
                    ltac:(vm_compute; reflexivity))).
    vm_compute. repeat constructor.
Defined.

(** ** [confirmBooking]: what a confirmation does *)

Lemma confirm_loop_same_users (lines : list (string * option Z)) :
  preserves (fun w w' => user_profiles w' = user_profiles w)
            (for_of lines confirm_item).
Proof.
  assert (forall a b c : World,
             user_profiles b = user_profiles a -> user_profiles c = user_profiles b ->
             user_profiles c = user_profiles a) as Htrans by (intros; congruence).
  apply preserves_for_of; [reflexivity | exact Htrans |].
  intros [id qty] _ w. rewrite confirm_item_run. cbv zeta.
  destruct (fault _ _); [reflexivity |].
  destruct (cached_available id w); [| reflexivity].
  destruct (_ <? _); [reflexivity |].
  destruct (fault _ _); reflexivity.
Qed.

(** The successful path of [confirmBooking]. *)
Lemma confirmBooking_returned (orderId userId : string) (w w' : World) (msg : string) :
  confirmBooking orderId userId w = (w', Returned msg) ->
  exists w1,
    for_of (items_of_order orderId w) confirm_item (with_env w (tick (env w)))
    = (w1, Returned tt)
    /\ msg = "Booking confirmed"
    /\ orders w' = orders (set_order_status orderId confirmed w)
    /\ order_items w' = order_items (set_order_items_status orderId confirmed w)
    /\ storage_items w' = storage_items w1
    /\ user_profiles w' = user_profiles w.
Proof.
  unfold confirmBooking. rewrite bind_run, store_read_run.
  destruct (fault (env w) (calls (env w))); [discriminate |].
  set (w0 := with_env w (tick (env w))).
  change (items_of_order orderId w0) with (items_of_order orderId w).
  rewrite bind_run.
  pose proof (confirm_loop_same_bookings (items_of_order orderId w) w0) as [Ho Hi].
  pose proof (confirm_loop_same_users (items_of_order orderId w) w0) as Hu.
  destruct (for_of (items_of_order orderId w) confirm_item w0) as [w1 [[] | e]];
    [| discriminate].
  simpl in Ho, Hi, Hu.
  rewrite bind_run. unfold store at 1.
  destruct (fault _ _); [discriminate |].
  cbv beta iota zeta. rewrite bind_run. unfold store.
  destruct (fault _ _); [discriminate |].
  cbv beta iota zeta. unfold ret. intros H. injection H as <- <-.
  exists w1. split; [reflexivity |]. split; [reflexivity |].
  unfold set_order_status, set_order_items_status. simpl.
  rewrite Ho, Hi, Hu. repeat split.
Qed.

(** X8.  When [confirmBooking] returns, the booking with the given id is
    [confirmed] and so is each of its line items; the other bookings and
    the other ledger rows are as before. *)
Theorem confirm_marks_booking_and_lines
        (orderId userId : string) (w w' : World) (msg : string)
        (Hrun : confirmBooking orderId userId w = (w', Returned msg)) :
  msg = "Booking confirmed"
  /\ orders w' = orders (set_order_status orderId confirmed w)
  /\ order_items w' = order_items (set_order_items_status orderId confirmed w)
  /\ (forall o, In o (orders w') -> o_id o = orderId -> o_status o = confirmed)
  /\ (forall r, In r (order_items w') -> oi_order_id r = orderId ->
                oi_status r = confirmed)
  /\ (forall o, In o (orders w) -> o_id o <> orderId -> In o (orders w'))
  /\ (forall r, In r (order_items w) -> oi_order_id r <> orderId ->
                In r (order_items w')).
Proof.
  destruct (confirmBooking_returned orderId userId w w' msg Hrun)
    as (w1 & _ & Hmsg & Ho & Hi & _).
  split; [exact Hmsg |]. split; [exact Ho |]. split; [exact Hi |].
  rewrite Ho, Hi. unfold set_order_status, set_order_items_status. simpl.
  repeat split.
  - intros o Hin Hid. apply in_map_iff in Hin. destruct Hin as [o0 [Heq Hin]].
    destruct (String.eqb (o_id o0) orderId) eqn:E; subst o; [reflexivity |].
    apply String.eqb_neq in E. contradiction.
  - intros r Hin Hid. apply in_map_iff in Hin. destruct Hin as [r0 [Heq Hin]].
    destruct (String.eqb (oi_order_id r0) orderId) eqn:E; subst r; [reflexivity |].
    apply String.eqb_neq in E. contradiction.
  - intros o Hin Hid. apply in_map_iff. exists o. split; [| exact Hin].
    apply String.eqb_neq in Hid. now rewrite Hid.
  - intros r Hin Hid. apply in_map_iff. exists r. split; [| exact Hin].
    apply String.eqb_neq in Hid. now rewrite Hid.
Qed.

Lemma confirm_marks_booking_and_lines_witness :
  orders (fst (confirmBooking "o1" "root" depot_two_lines))
  = orders (set_order_status "o1" confirmed depot_two_lines)
  /\ In (claim "o2" "tent" 1 (jan 1) (jan 5) pending)
        (order_items (fst (confirmBooking "o1" "root" depot_two_lines))).
Proof.
  destruct (confirm_marks_booking_and_lines "o1" "root" depot_two_lines
              (fst (confirmBooking "o1" "root" depot_two_lines)) "Booking confirmed")
    as (_ & Ho & _ & _ & _ & _ & Hother).
  - vm_compute. reflexivity.
  - split; [exact Ho |]. apply Hother.
    + right. right. left. reflexivity.
    + discriminate.
Defined.

(** X9.  When [confirmBooking] returns, the cached count of every item is
    down by exactly the quantity that the line items of the booking ask
    of it (by nothing for an item the booking does not mention). *)
Theorem confirm_decrements_by_demand
        (orderId userId : string) (w w' : World) (msg : string)
        (Hrun : confirmBooking orderId userId w = (w', Returned msg)) :
  forall id,
    cached_available id w'
    = option_map (fun a => a - demand id (items_of_order orderId w))
                 (cached_available id w).
Proof.
  destruct (confirmBooking_returned orderId userId w w' msg Hrun)
    as (w1 & Hloop & _ & _ & _ & Hs & _).
  intros id.
  pose proof (confirm_loop_returned _ _ _ Hloop id) as H.
  unfold cached_available in *. rewrite Hs. exact H.
Qed.

Lemma confirm_decrements_by_demand_witness :
  cached_available "tent" (fst (confirmBooking "o1" "root" depot_two_lines)) = Some 3
  /\ cached_available "kayak" (fst (confirmBooking "o1" "root" depot_two_lines)) = Some 1.
Proof.
  split.
  - apply (confirm_decrements_by_demand "o1" "root" depot_two_lines
             (fst (confirmBooking "o1" "root" depot_two_lines)) "Booking confirmed"
             ltac:(vm_compute; reflexivity) "tent").
  - apply (confirm_decrements_by_demand "o1" "root" depot_two_lines
             (fst (confirmBooking "o1" "root" depot_two_lines)) "Booking confirmed"
             ltac:(vm_compute; reflexivity) "kayak").
Defined.

Lemma confirm_loop_enough_stock (lines : list (string * option Z)) :
  forall w,
    no_faults w ->
    Forall (fun l => 0 <= num (snd l)) lines ->
    (forall id, In id (map fst lines) ->
                exists a, cached_available id w = Some a /\ demand id lines <= a) ->
    exists w', for_of lines confirm_item w = (w', Returned tt)
               /\ same_oracles w w' /\ same_bookings w w'.
Proof.
  induction lines as [| [id0 q] rest IH]; intros w Hnf Hnn Hstock.
  - exists w. repeat split.
  - inversion Hnn as [| ? ? Hq Hrest]; subst. simpl in Hq.
    destruct (Hstock id0 (or_introl eq_refl)) as [a0 [Ha0 Hd0]].
    rewrite demand_cons, String.eqb_refl in Hd0.
    pose proof (demand_nonneg id0 rest Hrest) as Hd0'.
    rewrite for_of_cons, confirm_item_run. cbv zeta.
    rewrite Hnf, Ha0.
    assert ((a0 <? num q) = false) as -> by (apply Z.ltb_ge; lia).
    cbn [env with_env fault calls tick]. rewrite Hnf.
    set (w1 := with_stock_log _ _).
    destruct (IH w1) as [w' (Hrun & Ho & Hb)].
    + intros n. apply Hnf.
    + exact Hrest.
    + intros id Hin.
      destruct (Hstock id (or_intror Hin)) as [a [Ha Hd]].
      rewrite demand_cons in Hd.
      rewrite (cached_available_update id0 (a0 - num q) id w w1 eq_refl).
      rewrite String.eqb_sym.
      destruct (String.eqb id0 id) eqn:E.
      * apply String.eqb_eq in E. subst id0. rewrite Ha. simpl.
        exists (a0 - num q). split; [reflexivity |].
        rewrite Ha0 in Ha. injection Ha as <-. lia.
      * exists a. split; [exact Ha | exact Hd].
    + exists w'. split; [exact Hrun |]. split.
      * eapply same_oracles_trans; [| exact Ho]. repeat split.
      * eapply same_bookings_trans; [| exact Hb]. repeat split.
Qed.

(** X10.  [confirmBooking] succeeds when the stock is there: with no store
    failure, no negative quantity among the line items of the booking,
    and, for every item they mention, exactly one stock row whose cached
    count covers what the lines ask of the item together, the call
    returns "Booking confirmed". *)
Theorem confirm_succeeds_with_enough_stock
        (orderId userId : string) (w : World)
        (Hnf : no_faults w)
        (Hnonneg : Forall (fun l => 0 <= num (snd l)) (items_of_order orderId w))
        (Hstock : forall id,
            In id (map fst (items_of_order orderId w)) ->
            exists a, cached_available id w = Some a
                      /\ demand id (items_of_order orderId w) <= a) :
  snd (confirmBooking orderId userId w) = Returned "Booking confirmed".
Proof.
  unfold confirmBooking. rewrite bind_run, store_read_run, Hnf.
  set (w0 := with_env w (tick (env w))).
  change (items_of_order orderId w0) with (items_of_order orderId w).
  destruct (confirm_loop_enough_stock (items_of_order orderId w) w0)
    as [w1 (Hloop & Ho & _)];
    [intros n; apply Hnf | exact Hnonneg | exact Hstock |].
  assert (no_faults w1) as Hnf1.
  { apply (no_faults_same_oracles w0); [exact Ho | intros n; apply Hnf]. }
  rewrite bind_run, Hloop, bind_run. unfold store. rewrite Hnf1.
  cbv beta iota zeta. rewrite bind_run.
  cbn [env set_order_status with_orders with_env fault calls tick]. rewrite Hnf1.
  reflexivity.
Qed.

Lemma confirm_succeeds_with_enough_stock_witness :
  snd (confirmBooking "o1" "root" depot_two_lines) = Returned "Booking confirmed".
Proof.
  apply (confirm_succeeds_with_enough_stock "o1" "root" depot_two_lines).
  - intros n. reflexivity.
  - vm_compute. repeat constructor; discriminate.
  - intros id [<- | [<- | []]].
    + exists 5. split; [reflexivity | vm_compute; discriminate].
    + exists 2. split; [reflexivity | vm_compute; discriminate].
Defined.

Lemma map_id_when_absent (orderId : string) (st : Status) (l : list Order) :
  (forall o, In o l -> o_id o <> orderId) ->
  map (fun o =>
         if String.eqb (o_id o) orderId
         then {| o_id := o_id o; o_user_id := o_user_id o; o_status := st;
                 order_number := order_number o |}
         else o) l = l.
Proof.
  intros H. induction l as [| o l IH]; simpl; [reflexivity |].
  assert (String.eqb (o_id o) orderId = false) as ->
      by (apply String.eqb_neq, H; now left).
  rewrite IH; [reflexivity |]. intros x Hx. apply H. now right.
Qed.

(** X11.  [confirmBooking] does not look the booking up.  For an order id
    that no booking carries and no ledger row mentions, the call, absent
    store failures, still returns "Booking confirmed", and the stock, the
    bookings and the ledger are as before. *)
Theorem confirm_unknown_order_returns
        (orderId userId : string) (w : World)
        (Hnf : no_faults w)
        (Hnolines : forall r, In r (order_items w) -> oi_order_id r <> orderId)
        (Hnoorder : forall o, In o (orders w) -> o_id o <> orderId) :
  snd (confirmBooking orderId userId w) = Returned "Booking confirmed"
  /\ same_tables w (fst (confirmBooking orderId userId w)).
Proof.
  assert (items_of_order orderId w = []) as Hempty.
  { unfold items_of_order.
    assert (filter (fun r => String.eqb (oi_order_id r) orderId) (order_items w) = [])
      as ->; [| reflexivity].
    induction (order_items w) as [| r l IH]; simpl; [reflexivity |].
    assert (String.eqb (oi_order_id r) orderId = false) as ->
        by (apply String.eqb_neq, Hnolines; now left).
    apply IH. intros x Hx. apply Hnolines. now right. }
  assert (exists w', confirmBooking orderId userId w = (w', Returned "Booking confirmed")
                     /\ orders w' = orders (set_order_status orderId confirmed w)
                     /\ order_items w'
                        = order_items (set_order_items_status orderId confirmed w)
                     /\ storage_items w' = storage_items w
                     /\ user_profiles w' = user_profiles w) as [w' (Hrun & Ho & Hi & Hs & Hu)].
  { eexists. split.
    - unfold confirmBooking. rewrite bind_run, store_read_run, Hnf.
      change (items_of_order orderId (with_env w (tick (env w))))
        with (items_of_order orderId w).
      rewrite Hempty, bind_run. unfold for_of, ret at 1.
      rewrite bind_run. unfold store. tidy. rewrite Hnf. tidy.
      rewrite bind_run.
      cbn [env set_order_status with_orders with_env fault calls tick].
      rewrite Hnf. tidy. reflexivity.
    - repeat split. }
  rewrite Hrun. split; [reflexivity |]. simpl fst.
  repeat split; try assumption.
  - rewrite Ho. unfold set_order_status. simpl.
    now apply map_id_when_absent.
  - rewrite Hi. unfold set_order_items_status. simpl.
    clear Hempty Hi Hrun. induction (order_items w) as [| r l IH]; simpl;
      [reflexivity |].
    assert (String.eqb (oi_order_id r) orderId = false) as ->
        by (apply String.eqb_neq, Hnolines; now left).
    rewrite IH; [reflexivity |]. intros x Hx. apply Hnolines. now right.
Qed.

Lemma confirm_unknown_order_returns_witness :
  snd (confirmBooking "no-such-order" "bob" depot_two_lines)
  = Returned "Booking confirmed"
  /\ same_tables depot_two_lines
       (fst (confirmBooking "no-such-order" "bob" depot_two_lines)).
Proof.
  apply (confirm_unknown_order_returns "no-such-order" "bob" depot_two_lines).
  - intros n. reflexivity.
  - intros r [<- | [<- | [<- | []]]]; discriminate.
  - intros o [<- | []]. discriminate.
Defined.

(** ** [returnItems]: nothing to return *)

(** X12.  [returnItems] refuses a booking without line items: when no
    ledger row carries the order id, or when the store fails on the read
    of the line items, it throws "No items found for return" and the four
    tables are as before. *)
Theorem return_needs_line_items (orderId userId : string) (w : World)
        (Hnone : items_of_order orderId w = []
                 \/ fault (env w) (calls (env w)) = true) :
  snd (returnItems orderId userId w)
  = Thrown (BadRequestException "No items found for return")
  /\ same_tables w (fst (returnItems orderId userId w)).
Proof.
  assert (returnItems orderId userId w
          = (with_env w (tick (env w)),
             Thrown (BadRequestException "No items found for return"))) as Hrun.
  { unfold returnItems. rewrite bind_run, store_read_run.
    change (items_of_order orderId (with_env w (tick (env w))))
      with (items_of_order orderId w).
    destruct Hnone as [-> | ->]; [| reflexivity].
    now destruct (fault _ _). }
  rewrite Hrun. split; [reflexivity | repeat split].
Qed.

Lemma return_needs_line_items_witness :
  snd (returnItems "no-such-order" "root" depot_two_lines)
  = Thrown (BadRequestException "No items found for return")
  /\ same_tables depot_two_lines (fst (returnItems "no-such-order" "root" depot_two_lines)).
Proof.
  apply (return_needs_line_items "no-such-order" "root" depot_two_lines).
  left. reflexivity.
Defined.

(** ** [updateBooking] *)

Lemma for_of_app {A} (l1 l2 : list A) (body : A -> M unit) (w : World) :
  for_of (l1 ++ l2) body w
  = match for_of l1 body w with
    | (w1, Returned _) => for_of l2 body w1
    | (w1, Thrown e) => (w1, Thrown e)
    end.
Proof.
  revert w. induction l1 as [| x l1 IH]; intros w; [reflexivity |].
  simpl app. rewrite !for_of_cons.
  destruct (body x w) as [w1 [u | e]]; [apply IH | reflexivity].
Qed.

(** The part of [updateBooking] up to the two permission tests. *)
Lemma updateBooking_run (orderId userId : string) (updatedItems : list BookingItem)
      (w : World) (owner role : string) :
  no_faults w ->
  single (map o_user_id (filter (fun o => String.eqb (o_id o) orderId) (orders w)))
  = Some owner ->
  role_of userId w = Some role ->
  updateBooking orderId userId updatedItems w
  = let w2 := with_env (with_env w (tick (env w))) (tick (tick (env w))) in
    if negb (String.eqb role "admin" || String.eqb userId owner
             || String.eqb role "service_role")
    then (w2, Thrown (ForbiddenException "Not allowed to update this booking"))
    else if negb (is_admin role) && negb (String.eqb owner userId)
    then (w2, Thrown (ForbiddenException "Not allowed to update this booking"))
    else
      (delete_order_items orderId ;;;
       for_of updatedItems (reinsert_item orderId) ;;;
       ret "Booking updated") w2.
Proof.
  intros Hnf Horder Hrole. unfold updateBooking.
  rewrite bind_run, store_read_run, Hnf.
  change (orders (with_env w (tick (env w)))) with (orders w).
  rewrite Horder. tidy.
  rewrite bind_run, store_read_run. tidy. rewrite Hnf.
  change (role_of userId _) with (role_of userId w).
  rewrite Hrole. tidy. unfold is_admin.
  destruct (negb _); [reflexivity |].
  destruct (negb _ && negb _); reflexivity.
Qed.

(** X13.  Who may update a booking.  With no store failure, an actor who
    is not the owner of the booking and whose role is not "admin" is
    refused with Forbidden and nothing changes; this holds for the roles
    "superVera" and "service_role" as well. *)
Theorem update_needs_owner_or_admin
        (orderId userId : string) (updatedItems : list BookingItem) (w : World)
        (owner role : string)
        (Hnf : no_faults w)
        (Horder : single (map o_user_id
                            (filter (fun o => String.eqb (o_id o) orderId) (orders w)))
                  = Some owner)
        (Hrole : role_of userId w = Some role)
        (Hstranger : owner <> userId)
        (Hnotadmin : role <> "admin") :
  snd (updateBooking orderId userId updatedItems w)
  = Thrown (ForbiddenException "Not allowed to update this booking")
  /\ same_tables w (fst (updateBooking orderId userId updatedItems w)).
Proof.
  rewrite (updateBooking_run orderId userId updatedItems w owner role Hnf Horder Hrole).
  cbv zeta.
  assert (String.eqb role "admin" = false) as Ha by now apply String.eqb_neq.
  assert (String.eqb userId owner = false) as Ho
      by (apply String.eqb_neq; congruence).
  assert (String.eqb owner userId = false) as Ho' by now apply String.eqb_neq.
  rewrite Ha, Ho, Ho'. unfold is_admin. rewrite Ha. simpl orb.
  destruct (String.eqb role "service_role") eqn:Hs; simpl negb; cbv iota.
  - apply String.eqb_eq in Hs. subst role. simpl.
    split; [reflexivity | repeat split].
  - split; [reflexivity | repeat split].
Qed.

Lemma update_needs_owner_or_admin_witness :
  snd (updateBooking "o1" "vera" [line "tent" 1 (jan 1) (jan 5)] depot_with_vera)
  = Thrown (ForbiddenException "Not allowed to update this booking")
  /\ same_tables depot_with_vera
       (fst (updateBooking "o1" "vera" [line "tent" 1 (jan 1) (jan 5)] depot_with_vera)).
Proof.
  apply (update_needs_owner_or_admin "o1" "vera" [line "tent" 1 (jan 1) (jan 5)]
           depot_with_vera "alice" "superVera").
  - intros n. reflexivity.
  - reflexivity.
  - reflexivity.
  - discriminate.
  - discriminate.
Defined.

Lemma update_allowed_run (orderId userId : string) (updatedItems : list BookingItem)
      (w : World) (owner role : string) :
  no_faults w ->
  single (map o_user_id (filter (fun o => String.eqb (o_id o) orderId) (orders w)))
  = Some owner ->
  role_of userId w = Some role ->
  owner = userId \/ role = "admin" ->
  exists w3,
    order_items w3 = lines_of_others orderId w
    /\ orders w3 = orders w /\ storage_items w3 = storage_items w
    /\ user_profiles w3 = user_profiles w /\ no_faults w3
    /\ updateBooking orderId userId updatedItems w
       = match for_of updatedItems (reinsert_item orderId) w3 with
         | (w', Returned _) => (w', Returned "Booking updated")
         | (w', Thrown e) => (w', Thrown e)
         end.
Proof.
  intros Hnf Horder Hrole Hallowed.
  rewrite (updateBooking_run orderId userId updatedItems w owner role Hnf Horder Hrole).
  cbv zeta.
  assert (negb (String.eqb role "admin" || String.eqb userId owner
                || String.eqb role "service_role") = false) as ->.
  { destruct Hallowed as [-> | ->].
    - rewrite String.eqb_refl, orb_true_r. reflexivity.
    - reflexivity. }
  assert (negb (is_admin role) && negb (String.eqb owner userId) = false) as ->.
  { destruct Hallowed as [-> | ->].
    - rewrite String.eqb_refl. simpl. apply andb_false_r.
    - reflexivity. }
  rewrite bind_run. unfold delete_order_items, store. tidy. rewrite Hnf. tidy.
  eexists. split; [| split; [| split; [| split; [| split]]]].
  6: { rewrite bind_run. unfold ret. reflexivity. }
  - reflexivity.
  - reflexivity.
  - reflexivity.
  - reflexivity.
  - intros n. apply Hnf.
Qed.

Lemma reinsert_loop_located (orderId : string) (its : list BookingItem) :
  forall w,
    no_faults w ->
    Forall (fun item => exists location, location_of (item_id item) w = Some location)
           its ->
    exists w' rows,
      for_of its (reinsert_item orderId) w = (w', Returned tt)
      /\ Forall2 (line_of orderId w) its rows
      /\ order_items w' = (order_items w ++ rows)%list
      /\ orders w' = orders w /\ storage_items w' = storage_items w
      /\ user_profiles w' = user_profiles w.
Proof.
  induction its as [| item rest IH]; intros w Hnf Hloc.
  - exists w, []. rewrite app_nil_r. repeat split. constructor.
  - inversion Hloc as [| ? ? [location Hitem] Hrest]; subst.
    rewrite for_of_cons. unfold reinsert_item at 1.
    rewrite bind_run, store_read_run, Hnf.
    change (single _) with (location_of (item_id item) w).
    rewrite Hitem, bind_run. unfold store. tidy. rewrite Hnf. tidy.
    unfold ret at 1.
    set (row := {| oi_order_id := orderId; oi_item_id := item_id item;
                   oi_location_id := location; oi_quantity := _;
                   oi_start_date := _; oi_end_date := _; oi_total_days := _;
                   oi_status := pending |}).
    set (w1 := with_order_items _ _).
    destruct (IH w1) as [w' [rows (Hrun & Hrows & Hi & Ho & Hs & Hu)]].
    + intros n. apply Hnf.
    + exact Hrest.
    + exists w', (row :: rows). split; [exact Hrun |]. split.
      * constructor; [repeat split; exact Hitem |].
        eapply Forall2_impl; [| exact Hrows].
        intros a b. now apply line_of_same_storage.
      * split; [| repeat split; assumption].
        rewrite Hi. subst w1. cbn [order_items with_order_items with_env].
        now rewrite <- app_assoc.
Qed.

(** X14.  [updateBooking] replaces the line items of a booking.  With no
    store failure, for the owner or an actor of role "admin", and with
    every new line naming an item that has exactly one stock row, the call
    returns "Booking updated"; afterwards [order_items] holds the rows of
    the other bookings followed by one pending row per new line, and
    bookings, stock and user profiles are as before.  No availability is
    asked for. *)
Theorem update_replaces_lines
        (orderId userId : string) (updatedItems : list BookingItem) (w : World)
        (owner role : string)
        (Hnf : no_faults w)
        (Horder : single (map o_user_id
                            (filter (fun o => String.eqb (o_id o) orderId) (orders w)))
                  = Some owner)
        (Hrole : role_of userId w = Some role)
        (Hallowed : owner = userId \/ role = "admin")
        (Hlocated : Forall (fun item => exists location,
                                location_of (item_id item) w = Some location)
                           updatedItems) :
  exists w' rows,
    updateBooking orderId userId updatedItems w = (w', Returned "Booking updated")
    /\ order_items w' = (lines_of_others orderId w ++ rows)%list
    /\ Forall2 (line_of orderId w) updatedItems rows
    /\ orders w' = orders w /\ storage_items w' = storage_items w
    /\ user_profiles w' = user_profiles w.
Proof.
  destruct (update_allowed_run orderId userId updatedItems w owner role
              Hnf Horder Hrole Hallowed)
    as (w3 & Hi3 & Ho3 & Hs3 & Hu3 & Hnf3 & Hrun).
  destruct (reinsert_loop_located orderId updatedItems w3 Hnf3)
    as [w' [rows (Hloop & Hrows & Hi & Ho & Hs & Hu)]].
  { eapply Forall_impl; [| exact Hlocated].
    intros item [location Hloc]. exists location.
    unfold location_of in *. now rewrite Hs3. }
  exists w', rows. rewrite Hrun, Hloop.
  split; [reflexivity |]. split; [congruence |]. split; [| repeat split; congruence].
  eapply Forall2_impl; [| exact Hrows].
  intros a b. now apply line_of_same_storage.
Qed.

Lemma update_replaces_lines_witness :
  exists w' rows,
    updateBooking "o1" "alice" [line "tent" 9 (feb 1) (feb 2)] depot_with_vera
    = (w', Returned "Booking updated")
    /\ order_items w' = ([claim "o2" "tent" 1 (jan 1) (jan 5) pending] ++ rows)%list
    /\ Forall2 (line_of "o1" depot_with_vera) [line "tent" 9 (feb 1) (feb 2)] rows
    /\ orders w' = orders depot_with_vera
    /\ storage_items w' = storage_items depot_with_vera
    /\ user_profiles w' = user_profiles depot_with_vera.
Proof.
  apply (update_replaces_lines "o1" "alice" [line "tent" 9 (feb 1) (feb 2)]
           depot_with_vera "alice" "user").
  - intros n. reflexivity.
  - reflexivity.
  - reflexivity.
  - left. reflexivity.
  - repeat constructor. exists "hall". reflexivity.
Defined.

(** X15.  A failed update loses the old line items.  With no store
    failure and a permitted actor, when the new lines up to some line all
    name items with one stock row and that line names an item without,
    the call throws "Storage item not found"; afterwards [order_items]
    holds the rows of the other bookings followed by the rows of the new
    lines written so far, so every previous line of the booking is
    gone. *)
Theorem update_failure_loses_old_lines
        (orderId userId : string) (w : World) (owner role : string)
        (pre post : list BookingItem) (item : BookingItem)
        (Hnf : no_faults w)
        (Horder : single (map o_user_id
                            (filter (fun o => String.eqb (o_id o) orderId) (orders w)))
                  = Some owner)
        (Hrole : role_of userId w = Some role)
        (Hallowed : owner = userId \/ role = "admin")
        (Hlocated : Forall (fun item => exists location,
                                location_of (item_id item) w = Some location) pre)
        (Hmissing : location_of (item_id item) w = None) :
  exists w' rows,
    updateBooking orderId userId (pre ++ item :: post) w
    = (w', Thrown (Error "Storage item not found"))
    /\ order_items w' = (lines_of_others orderId w ++ rows)%list
    /\ Forall2 (line_of orderId w) pre rows.
Proof.
  destruct (update_allowed_run orderId userId (pre ++ item :: post) w owner role
              Hnf Horder Hrole Hallowed)
    as (w3 & Hi3 & Ho3 & Hs3 & Hu3 & Hnf3 & Hrun).
  destruct (reinsert_loop_located orderId pre w3 Hnf3)
    as [w4 [rows (Hloop & Hrows & Hi & Ho & Hs & Hu)]].
  { eapply Forall_impl; [| exact Hlocated].
    intros it [location Hloc]. exists location.
    unfold location_of in *. now rewrite Hs3. }
  assert (no_faults w4) as Hnf4.
  { pose proof (f_equal fst Hloop) as Hw4. simpl in Hw4.
    clear - Hnf3 Hloop.
    revert w3 w4 Hnf3 Hloop. induction pre as [| x pre IH]; intros w3 w4 Hnf3 Hloop.
    - injection Hloop as <-. exact Hnf3.
    - rewrite for_of_cons in Hloop. unfold reinsert_item at 1 in Hloop.
      rewrite bind_run, store_read_run, Hnf3 in Hloop.
      destruct (single _) as [location |]; [| discriminate].
      rewrite bind_run in Hloop. unfold store in Hloop.
      cbn [env with_env fault calls tick] in Hloop. rewrite Hnf3 in Hloop.
      cbv beta iota zeta in Hloop. unfold ret at 1 in Hloop.
      eapply IH; [| exact Hloop]. intros n. apply Hnf3. }
  exists (with_env w4 (tick (env w4))), rows.
  rewrite Hrun, for_of_app, Hloop, for_of_cons. unfold reinsert_item at 1.
  rewrite bind_run, store_read_run, Hnf4.
  change (single _) with (location_of (item_id item) w4).
  assert (location_of (item_id item) w4 = None) as ->.
  { unfold location_of in *. now rewrite Hs, Hs3. }
  split; [reflexivity |]. split; [simpl; congruence |].
  eapply Forall2_impl; [| exact Hrows].
  intros a b. now apply line_of_same_storage.
Qed.

Lemma update_failure_loses_old_lines_witness :
  exists w' rows,
    updateBooking "o1" "alice"
      ([line "kayak" 1 (feb 1) (feb 2)] ++ line "canoe" 1 (feb 1) (feb 2) :: [])
      depot_with_vera
    = (w', Thrown (Error "Storage item not found"))
    /\ order_items w' = ([claim "o2" "tent" 1 (jan 1) (jan 5) pending] ++ rows)%list
    /\ Forall2 (line_of "o1" depot_with_vera) [line "kayak" 1 (feb 1) (feb 2)] rows.
Proof.
  apply (update_failure_loses_old_lines "o1" "alice" depot_with_vera "alice" "user"
           [line "kayak" 1 (feb 1) (feb 2)] [] (line "canoe" 1 (feb 1) (feb 2))).
  - intros n. reflexivity.
  - reflexivity.
  - reflexivity.
  - left. reflexivity.
  - repeat constructor. exists "pier". reflexivity.
  - reflexivity.
Defined.

Lemma only_lines_of_refl orderId w : only_lines_of orderId w w.
Proof. repeat split. Qed.

Lemma only_lines_of_trans orderId a b c :
  only_lines_of orderId a b -> only_lines_of orderId b c -> only_lines_of orderId a c.
Proof.
  intros (H1 & H2 & H3 & H4) (G1 & G2 & G3 & G4). repeat split; congruence.
Qed.

Lemma filter_idempotent {R} (p : R -> bool) (l : list R) :
  filter p (filter p l) = filter p l.
Proof.
  induction l as [| r l IH]; simpl; [reflexivity |].
  destruct (p r) eqn:E; simpl; [rewrite E, IH |]; auto.
Qed.

Lemma reinsert_item_only_lines (orderId : string) (item : BookingItem) :
  preserves (only_lines_of orderId) (reinsert_item orderId item).
Proof.
  unfold reinsert_item.
  apply preserves_bind; [exact (only_lines_of_trans orderId) | |].
  - apply preserves_store; [exact (only_lines_of_trans orderId) | |];
      intros w; repeat split.
  - intros [location |]; [| apply preserves_throw, only_lines_of_refl].
    apply preserves_bind; [exact (only_lines_of_trans orderId) | |].
    + apply preserves_store; [exact (only_lines_of_trans orderId) | |]; intros w.
      * repeat split.
      * repeat split. unfold lines_of_others. simpl.
        rewrite filter_app. simpl. rewrite String.eqb_refl. simpl.
        now rewrite app_nil_r.
    + intros _. apply preserves_ret, only_lines_of_refl.
Qed.

(** X16.  However it ends, [updateBooking] touches nothing but the line
    items of the one booking: user profiles, stock (the cached counts
    included) and the bookings with their statuses are as before, and so
    are the ledger rows of every other booking. *)
Theorem update_touches_only_own_lines
        (orderId userId : string) (updatedItems : list BookingItem) (w : World) :
  user_profiles (fst (updateBooking orderId userId updatedItems w)) = user_profiles w
  /\ storage_items (fst (updateBooking orderId userId updatedItems w)) = storage_items w
  /\ orders (fst (updateBooking orderId userId updatedItems w)) = orders w
  /\ lines_of_others orderId (fst (updateBooking orderId userId updatedItems w))
     = lines_of_others orderId w.
Proof.
  change (only_lines_of orderId w (fst (updateBooking orderId userId updatedItems w))).
  revert w. change (preserves (only_lines_of orderId)
                      (updateBooking orderId userId updatedItems)).
  pose proof (only_lines_of_trans orderId) as Htrans.
  pose proof (only_lines_of_refl orderId) as Hrefl.
  assert (forall A (f : World -> option A),
             preserves (only_lines_of orderId) (store (fun w => (w, f w)))) as Hread.
  { intros A f. apply preserves_store; [exact Htrans | |]; intros w; repeat split. }
  unfold updateBooking.
  apply preserves_bind; [exact Htrans | apply Hread |].
  intros [owner |]; [| apply preserves_throw, Hrefl].
  apply preserves_bind; [exact Htrans | apply Hread |].
  intros [role |]; [| apply preserves_throw, Hrefl].
  cbv zeta. destruct (negb _); [apply preserves_throw, Hrefl |].
  destruct (negb _ && negb _); [apply preserves_throw, Hrefl |].
  apply preserves_bind; [exact Htrans | |].
  { unfold delete_order_items.
    apply preserves_store; [exact Htrans | |]; intros w; repeat split.
    unfold lines_of_others. simpl. apply filter_idempotent. }
  intros _. apply preserves_bind; [exact Htrans | |].
  { apply preserves_for_of; [exact Hrefl | exact Htrans |].
    intros item _. apply reinsert_item_only_lines. }
  intros _. apply preserves_ret, Hrefl.
Qed.

(** ** [deleteBooking] *)

Lemma deleteBooking_run (orderId userId : string) (w : World) (o : Order) (role : string) :
  fault (env w) (calls (env w)) = false ->
  fault (env w) (S (calls (env w))) = false ->
  single (filter (fun o => String.eqb (o_id o) orderId) (orders w)) = Some o ->
  role_of userId w = Some role ->
  deleteBooking orderId userId w
  = let w2 := with_env (with_env w (tick (env w))) (tick (tick (env w))) in
    if negb (is_admin role)
    then (w2, Thrown (ForbiddenException "You are not allowed to delete this booking"))
    else
      (delete_order_items orderId ;;;
       store (fun w => (set_order_status orderId deleted w, Some tt)) ;;;
       ret "Booking deleted") w2.
Proof.
  intros Hf0 Hf1 Hsingle Hrole. unfold deleteBooking.
  rewrite bind_run, store_read_run, Hf0.
  change (orders (with_env w (tick (env w)))) with (orders w).
  rewrite single_map, Hsingle. tidy.
  rewrite bind_run, store_read_run. tidy. rewrite Hf1.
  change (role_of userId _) with (role_of userId w).
  rewrite Hrole. tidy. unfold is_admin.
  destruct (negb _); reflexivity.
Qed.

(** X17.  Only administrators delete.  When the booking and the actor's
    profile are read without store failure and the role is neither
    "admin" nor "superVera", [deleteBooking] throws Forbidden and nothing
    changes, for the owner of the booking as for anyone else. *)
Theorem delete_needs_admin
        (orderId userId : string) (w : World) (o : Order) (role : string)
        (Hf0 : fault (env w) (calls (env w)) = false)
        (Hf1 : fault (env w) (S (calls (env w))) = false)
        (Hsingle : single (filter (fun o => String.eqb (o_id o) orderId) (orders w))
                   = Some o)
        (Hrole : role_of userId w = Some role)
        (Hnotadmin : is_admin role = false) :
  snd (deleteBooking orderId userId w)
  = Thrown (ForbiddenException "You are not allowed to delete this booking")
  /\ same_tables w (fst (deleteBooking orderId userId w)).
Proof.
  rewrite (deleteBooking_run orderId userId w o role Hf0 Hf1 Hsingle Hrole).
  cbv zeta. rewrite Hnotadmin. simpl negb. cbv iota.
  split; [reflexivity | repeat split].
Qed.

Lemma delete_needs_admin_witness :
  snd (deleteBooking "o1" "alice" depot_with_vera)
  = Thrown (ForbiddenException "You are not allowed to delete this booking")
  /\ same_tables depot_with_vera (fst (deleteBooking "o1" "alice" depot_with_vera)).
Proof.
  apply (delete_needs_admin "o1" "alice" depot_with_vera
           (booking "o1" "alice" confirmed "ORD-20240101-0001") "user");
    reflexivity.
Defined.

(** X18.  [deleteBooking] does not inspect the outcome of its two writes.
    Once the booking and an administrator's profile have been read, the
    call returns "Booking deleted" whatever happens to the writes: if
    neither fails, the line items of the booking are removed from
    [order_items] and the booking is marked [deleted]; if both fail, the
    four tables are as before and the call still returns. *)
Theorem delete_reports_success_regardless
        (orderId userId : string) (w : World) (o : Order) (role : string)
        (Hf0 : fault (env w) (calls (env w)) = false)
        (Hf1 : fault (env w) (S (calls (env w))) = false)
        (Hsingle : single (filter (fun o => String.eqb (o_id o) orderId) (orders w))
                   = Some o)
        (Hrole : role_of userId w = Some role)
        (Hadmin : is_admin role = true) :
  exists w',
    deleteBooking orderId userId w = (w', Returned "Booking deleted")
    /\ (fault (env w) (S (S (calls (env w)))) = false ->
        fault (env w) (S (S (S (calls (env w))))) = false ->
        order_items w' = lines_of_others orderId w
        /\ orders w' = orders (set_order_status orderId deleted w)
        /\ storage_items w' = storage_items w)
    /\ (fault (env w) (S (S (calls (env w)))) = true ->
        fault (env w) (S (S (S (calls (env w))))) = true ->
        same_tables w w').
Proof.
  rewrite (deleteBooking_run orderId userId w o role Hf0 Hf1 Hsingle Hrole).
  cbv zeta. rewrite Hadmin. simpl negb. cbv iota.
  rewrite bind_run. unfold delete_order_items, store. tidy.
  destruct (fault (env w) (S (S (calls (env w))))) eqn:Hf2; tidy;
    rewrite bind_run; tidy;
    destruct (fault (env w) (S (S (S (calls (env w)))))) eqn:Hf3; tidy;
    unfold ret; eexists; (split; [reflexivity |]); split;
      intros; try discriminate; repeat split.
Qed.

Lemma delete_reports_success_regardless_witness :
  exists w',
    deleteBooking "o1" "root" depot_with_vera = (w', Returned "Booking deleted")
    /\ order_items w' = [claim "o2" "tent" 1 (jan 1) (jan 5) pending]
    /\ orders w' = [booking "o1" "alice" deleted "ORD-20240101-0001"].
Proof.
  destruct (delete_reports_success_regardless "o1" "root" depot_with_vera
              (booking "o1" "alice" confirmed "ORD-20240101-0001") "admin")
    as [w' (Hrun & Hok & _)]; try reflexivity.
  exists w'. split; [exact Hrun |].
  destruct Hok as (Hi & Ho & _); try reflexivity.
  split; [exact Hi | exact Ho].
Defined.

(** ** Bookings that do not exist *)

(** X19.  [updateBooking], [cancelBooking] and [deleteBooking] look the
    booking up first: when the order id is carried by no booking, or by
    more than one, each of them throws "Order not found" before reading
    the actor's profile, and nothing changes. *)
Theorem unknown_order_is_not_found
        (orderId userId : string) (updatedItems : list BookingItem) (w : World)
        (Hunknown : single (filter (fun o => String.eqb (o_id o) orderId) (orders w))
                    = None) :
  updateBooking orderId userId updatedItems w
  = (with_env w (tick (env w)), Thrown (BadRequestException "Order not found"))
  /\ cancelBooking orderId userId w
     = (with_env w (tick (env w)), Thrown (BadRequestException "Order not found"))
  /\ deleteBooking orderId userId w
     = (with_env w (tick (env w)), Thrown (BadRequestException "Order not found")).
Proof.
  repeat split.
  - unfold updateBooking. rewrite bind_run, store_read_run.
    change (orders (with_env w (tick (env w)))) with (orders w).
    rewrite single_map, Hunknown. now destruct (fault _ _).
  - unfold cancelBooking. rewrite bind_run, store_read_run.
    change (orders (with_env w (tick (env w)))) with (orders w).
    rewrite single_map, Hunknown. now destruct (fault _ _).
  - unfold deleteBooking. rewrite bind_run, store_read_run.
    change (orders (with_env w (tick (env w)))) with (orders w).
    rewrite single_map, Hunknown. now destruct (fault _ _).
Qed.

Lemma unknown_order_is_not_found_witness :
  snd (cancelBooking "no-such-order" "root" depot_with_vera)
  = Thrown (BadRequestException "Order not found")
  /\ snd (deleteBooking "no-such-order" "root" depot_with_vera)
     = Thrown (BadRequestException "Order not found").
Proof.
  destruct (unknown_order_is_not_found "no-such-order" "root" [] depot_with_vera)
    as (_ & Hcancel & Hdelete); [reflexivity |].
  rewrite Hcancel, Hdelete. split; reflexivity.
Defined.

(** ** [rejectBooking] *)

(** X20.  Only administrators reject.  Whether or not store calls fail,
    when the actor has no single profile or a role other than "admin" and
    "superVera", [rejectBooking] throws Forbidden and the four tables are
    as before. *)
Theorem reject_needs_admin (orderId userId : string) (w : World)
        (Hnotadmin : match role_of userId w with
                     | Some role => is_admin role = false
                     | None => True
                     end) :
  snd (rejectBooking orderId userId w)
  = Thrown (ForbiddenException "Only admins can reject bookings")
  /\ same_tables w (fst (rejectBooking orderId userId w)).
Proof.
  assert (rejectBooking orderId userId w
          = (with_env w (tick (env w)),
             Thrown (ForbiddenException "Only admins can reject bookings"))) as Hrun.
  { unfold rejectBooking. rewrite bind_run, store_read_run.
    change (role_of userId (with_env w (tick (env w)))) with (role_of userId w).
    destruct (fault _ _); [reflexivity |].
    destruct (role_of userId w) as [role |]; [| reflexivity].
    unfold is_admin in Hnotadmin. tidy. rewrite Hnotadmin. reflexivity. }
  rewrite Hrun. split; [reflexivity | repeat split].
Qed.

Lemma reject_needs_admin_witness :
  snd (rejectBooking "o1" "alice" depot_with_vera)
  = Thrown (ForbiddenException "Only admins can reject bookings")
  /\ same_tables depot_with_vera (fst (rejectBooking "o1" "alice" depot_with_vera)).
Proof.
  apply (reject_needs_admin "o1" "alice" depot_with_vera). reflexivity.
Defined.

(** X21.  [rejectBooking] does not look the booking up: for an
    administrator and with no store failure it returns "Booking rejected"
    also for an order id that no booking carries, and the four tables are
    as before. *)
Theorem reject_unknown_order_returns
        (orderId userId role : string) (w : World)
        (Hnf : no_faults w)
        (Hrole : role_of userId w = Some role)
        (Hadmin : role = "admin" \/ role = "superVera")
        (Hnoorder : forall o, In o (orders w) -> o_id o <> orderId) :
  exists w',
    rejectBooking orderId userId w = (w', Returned "Booking rejected")
    /\ orders w' = orders w.
Proof.
  destruct (rejectBooking_admin_run orderId userId role w Hnf Hrole Hadmin)
    as [w' [Hrun Ho]].
  exists w'. split; [exact Hrun |].
  rewrite Ho. unfold set_order_status. simpl. now apply map_id_when_absent.
Qed.

Lemma reject_unknown_order_returns_witness :
  exists w',
    rejectBooking "no-such-order" "vera" depot_with_vera
    = (w', Returned "Booking rejected")
    /\ orders w' = orders depot_with_vera.
Proof.
  apply (reject_unknown_order_returns "no-such-order" "vera" "superVera"
           depot_with_vera).
  - intros n. reflexivity.
  - reflexivity.
  - right. reflexivity.
  - intros o [<- | []]. discriminate.
Defined.

(** ** Rejection and cancellation free no availability *)

Lemma same_ledger_refl w : same_ledger w w.
Proof. repeat split. Qed.

Lemma same_ledger_trans a b c : same_ledger a b -> same_ledger b c -> same_ledger a c.
Proof. intros (H1 & H2 & H3) (G1 & G2 & G3). repeat split; congruence. Qed.

Lemma store_same_ledger {A} (op : World -> World * option A) :
  (forall w, same_ledger w (fst (op w))) -> preserves same_ledger (store op).
Proof.
  intros H. apply preserves_store; [exact same_ledger_trans | | exact H].
  intros w. repeat split.
Qed.

Lemma rejectBooking_same_ledger (orderId userId : string) :
  preserves same_ledger (rejectBooking orderId userId).
Proof.
  unfold rejectBooking.
  apply preserves_bind; [exact same_ledger_trans | |].
  - apply store_same_ledger. intros w. repeat split.
  - intros user. cbv zeta. destruct (negb _); [apply preserves_throw, same_ledger_refl |].
    apply preserves_bind; [exact same_ledger_trans | |].
    + apply store_same_ledger. intros w. repeat split.
    + intros [u |]; [apply preserves_ret | apply preserves_throw];
        apply same_ledger_refl.
Qed.

Lemma cancelBooking_same_ledger (orderId userId : string) :
  preserves same_ledger (cancelBooking orderId userId).
Proof.
  unfold cancelBooking.
  apply preserves_bind; [exact same_ledger_trans | |].
  - apply store_same_ledger. intros w. repeat split.
  - intros [order |]; [| apply preserves_throw, same_ledger_refl].
    apply preserves_bind; [exact same_ledger_trans | |].
    + apply store_same_ledger. intros w. repeat split.
    + intros [role |]; [| apply preserves_throw, same_ledger_refl].
      cbv zeta. apply preserves_bind; [exact same_ledger_trans | |].
      * destruct (negb _); [| apply preserves_ret, same_ledger_refl].
        destruct (negb _); [apply preserves_throw, same_ledger_refl |].
        destruct (status_is _ _);
          [apply preserves_throw | apply preserves_ret]; apply same_ledger_refl.
      * intros _. apply preserves_bind; [exact same_ledger_trans | |].
        -- apply store_same_ledger. intros w. repeat split.
        -- intros [u |]; [apply preserves_ret | apply preserves_throw];
             apply same_ledger_refl.
Qed.

Lemma availability_same_ledger (itemId : string) (s e : Z) (userId : string)
      (w w' : World) :
  no_faults w -> same_ledger w w' ->
  snd (checkAvailability itemId s e userId w')
  = snd (checkAvailability itemId s e userId w)
  /\ snd (calculateAvailableQuantity itemId s e w')
     = snd (calculateAvailableQuantity itemId s e w).
Proof.
  intros Hnf (Hi & Hs & Hf).
  assert (no_faults w') as Hnf' by (intros n; rewrite Hf; apply Hnf).
  rewrite !checkAvailability_run, !calculateAvailableQuantity_run. cbv zeta.
  cbn [env with_env fault calls tick]. rewrite !Hnf, !Hnf'.
  unfold capacity, overlappingOrders_check, overlapping_calc. rewrite Hi, Hs.
  split; destruct (single _); reflexivity.
Qed.

(** X22.  Rejecting or cancelling a booking frees no availability.
    However [rejectBooking] and [cancelBooking] end, they leave the
    ledger rows (with their statuses) and the stock rows as they were; so
    with no store failure [checkAvailability] and the availability
    calculator answer after the call exactly as before it. *)
Theorem reject_and_cancel_free_nothing
        (orderId userId itemId reader : string) (s e : Z) (w : World) :
  (order_items (fst (rejectBooking orderId userId w)) = order_items w
   /\ storage_items (fst (rejectBooking orderId userId w)) = storage_items w
   /\ (no_faults w ->
       snd (checkAvailability itemId s e reader (fst (rejectBooking orderId userId w)))
       = snd (checkAvailability itemId s e reader w)
       /\ snd (calculateAvailableQuantity itemId s e
                 (fst (rejectBooking orderId userId w)))
          = snd (calculateAvailableQuantity itemId s e w)))
  /\ (order_items (fst (cancelBooking orderId userId w)) = order_items w
      /\ storage_items (fst (cancelBooking orderId userId w)) = storage_items w
      /\ (no_faults w ->
          snd (checkAvailability itemId s e reader (fst (cancelBooking orderId userId w)))
          = snd (checkAvailability itemId s e reader w)
          /\ snd (calculateAvailableQuantity itemId s e
                    (fst (cancelBooking orderId userId w)))
             = snd (calculateAvailableQuantity itemId s e w))).
Proof.
  split.
  - pose proof (rejectBooking_same_ledger orderId userId w) as H.
    split; [apply H | split; [apply H |]].
    intros Hnf. now apply availability_same_ledger.
  - pose proof (cancelBooking_same_ledger orderId userId w) as H.
    split; [apply H | split; [apply H |]].
    intros Hnf. now apply availability_same_ledger.
Qed.

(** Alice's booking is rejected by the administrator, or cancelled by
    Alice: the tents it holds stay counted. *)
Lemma reject_and_cancel_free_nothing_witness :
  snd (calculateAvailableQuantity "tent" (jan 1) (jan 5)
         (fst (rejectBooking "o1" "root" depot_two_lines)))
  = snd (calculateAvailableQuantity "tent" (jan 1) (jan 5) depot_two_lines)
  /\ snd (checkAvailability "tent" (jan 1) (jan 5) "bob"
            (fst (cancelBooking "o1" "alice" depot_two_lines)))
     = snd (checkAvailability "tent" (jan 1) (jan 5) "bob" depot_two_lines).
Proof.
  assert (no_faults depot_two_lines) as Hnf by (intros n; reflexivity).
  split.
  - apply (proj2 (proj2 (proj1
             (reject_and_cancel_free_nothing "o1" "root" "tent" "bob" (jan 1) (jan 5)
                depot_two_lines))) Hnf).
  - apply (proj2 (proj2 (proj2
             (reject_and_cancel_free_nothing "o1" "alice" "tent" "bob" (jan 1) (jan 5)
                depot_two_lines))) Hnf).
Defined.

(** ** C4 and C5: the overlap sums of the code and of the specification *)

Lemma sum_quantity_filter_fold (p : OrderItem -> bool) (l : list OrderItem) :
  sum_quantity (map oi_quantity (filter p l))
  = fold_right (fun r acc => if p r then num (oi_quantity r) + acc else acc) 0 l.
Proof.
  induction l as [| r l IH]; simpl; [reflexivity |].
  destruct (p r); simpl; [| exact IH].
  rewrite sum_quantity_cons, IH. reflexivity.
Qed.

Lemma spec_sumOverlapping_filter (itemId : string) (s e : Z) (statuses : list Status)
      (w : World) :
  spec_sumOverlapping itemId s e statuses w
  = sum_quantity
      (map oi_quantity
         (filter (fun r => String.eqb (oi_item_id r) itemId
                           && existsb (Status_eqb (oi_status r)) statuses
                           && spec_overlap (oi_start_date r) (oi_end_date r) s e)
                 (order_items w))).
Proof. unfold spec_sumOverlapping. now rewrite sum_quantity_filter_fold. Qed.

Lemma status_in_every_status (st : Status) :
  existsb (Status_eqb st) every_status = true.
Proof. destruct st; reflexivity. Qed.

Lemma spec_overlap_spec (a_start a_end b_start b_end : Z) :
  spec_overlap a_start a_end b_start b_end = true
  <-> intervals_overlap a_start a_end b_start b_end.
Proof.
  unfold spec_overlap, intervals_overlap.
  rewrite andb_true_iff, Z.leb_le, Z.geb_le. lia.
Qed.

(** The three overlap queries sum what the specification's
    [sumOverlapping] sums: those of [createBooking] and
    [checkAvailability] over every status, that of the calculator over
    pending and confirmed. *)
Lemma overlappingOrders_check_sum (itemId : string) (s e : Z) (w : World) :
  sum_quantity (overlappingOrders_check itemId s e w)
  = spec_sumOverlapping itemId s e every_status w.
Proof.
  rewrite spec_sumOverlapping_filter. unfold overlappingOrders_check.
  f_equal. f_equal. apply filter_ext. intros r.
  unfold where_check, spec_overlap.
  now rewrite status_in_every_status, andb_true_r.
Qed.

Lemma overlappingOrders_create_sum (item : BookingItem) (w : World) :
  sum_quantity (overlappingOrders_create item w)
  = spec_sumOverlapping (item_id item) (start_date item) (end_date item)
      every_status w.
Proof.
  rewrite spec_sumOverlapping_filter. unfold overlappingOrders_create.
  f_equal. f_equal. apply filter_ext. intros r.
  unfold where_create, spec_overlap.
  now rewrite status_in_every_status, andb_true_r.
Qed.

Lemma overlapping_calc_sum (itemId : string) (s e : Z) (w : World) :
  sum_quantity (overlapping_calc itemId s e w)
  = spec_sumOverlapping itemId s e active_statuses w.
Proof. rewrite spec_sumOverlapping_filter. reflexivity. Qed.


Lemma checkAvailability_sum (itemId : string) (s e : Z) (userId : string)
      (w w' : World) (a : Availability) :
  checkAvailability itemId s e userId w = (w', Returned a) ->
  capacity itemId w = Some (totalQuantity a)
  /\ alreadyBookedQuantity a = spec_sumOverlapping itemId s e every_status w
  /\ availableQuantity a
     = totalQuantity a - spec_sumOverlapping itemId s e every_status w.
Proof.
  rewrite checkAvailability_run. cbv zeta.
  destruct (fault _ _); [discriminate |].
  destruct (fault _ _); [discriminate |].
  destruct (capacity itemId w) as [total |]; [| discriminate].
  intros H. injection H as _ <-.
  cbn [totalQuantity availableQuantity alreadyBookedQuantity].
  rewrite overlappingOrders_check_sum. repeat split.
Qed.

Lemma calculateAvailableQuantity_sum (itemId : string) (s e : Z) (w w' : World)
      (c : Z) :
  calculateAvailableQuantity itemId s e w = (w', Returned c) ->
  exists total,
    capacity itemId w = Some total
    /\ c = total - spec_sumOverlapping itemId s e active_statuses w.
Proof.
  rewrite calculateAvailableQuantity_run. cbv zeta.
  destruct (fault _ _); [discriminate |].
  destruct (fault _ _); [discriminate |].
  destruct (capacity itemId w) as [total |]; [| discriminate].
  intros H. injection H as _ <-. exists total.
  rewrite overlapping_calc_sum. split; reflexivity.
Qed.

Lemma createBooking_returned_sum (dto : CreateBookingDto) (w w' : World)
      (order : Order) :
  createBooking dto w = (w', Returned order) ->
  Forall (fun item =>
            exists total,
              capacity (item_id item) w = Some total
              /\ spec_sumOverlapping (item_id item) (start_date item) (end_date item)
                   every_status w + quantity item <= total)
         (items dto).
Proof.
  intros Hrun.
  destruct (createBooking_returned dto w w' order Hrun)
    as (userId & w1 & w2 & _ & _ & _ & _ & _ & Hcheck & _).
  apply check_loop_returned in Hcheck.
  eapply Forall_impl; [| exact Hcheck].
  intros x Hx.
  apply (fits_same_tables x w (with_env w (tick (env w)))) in Hx;
    [| apply same_tables_ticked].
  destruct Hx as [total [Hcap Hle]]. exists total.
  rewrite <- overlappingOrders_create_sum. split; assumption.
Qed.

Lemma createBooking_refused_sum (dto : CreateBookingDto) (w : World) (id : string) :
  snd (createBooking dto w) = Thrown (not_enough_quantity id) ->
  exists item total,
    In item (items dto) /\ item_id item = id
    /\ capacity id w = Some total
    /\ spec_sumOverlapping id (start_date item) (end_date item) every_status w
       + quantity item > total.
Proof.
  pose proof (createBooking_cases dto w) as Hcase.
  destruct Hcase as
    [w' e Ht Hd He | w0 w' e Ht Hd Hloop | w0 w1 w' Ht Hd Hloop Ht' Hd'
     | w0 w1 w2 order Ht Hd Hloop Hnew Hst Ho Hi Hs Hd'].
  - intros H. injection H as ->. destruct He; discriminate.
  - intros H. injection H as ->.
    destruct (check_loop_names_offender _ _ _ _ Hloop) as [x (Hin & Hid & Hx)].
    apply (exceeds_same_tables x w w0 Ht) in Hx.
    destruct Hx as [total [Hcap Hgt]].
    exists x, total. rewrite overlappingOrders_create_sum in Hgt.
    rewrite Hid in Hcap, Hgt. repeat split; assumption.
  - discriminate.
  - destruct (for_of (items dto) (insert_item order) w2) as [w3 [u | e]] eqn:Hins;
      simpl; [discriminate |].
    intros H. injection H as ->.
    destruct (insert_loop_throws _ _ _ _ _ Hins) as [He | [x He]]; discriminate.
Qed.

(** C4 as amended.  Every overlap query -- that of [createBooking], of
    [checkAvailability] and of [calculateAvailableQuantity] -- selects the
    ledger rows on the specification's inclusive closed-interval test:
    each of them sums what [sumOverlapping] of the specification sums,
    whose test [a.start <= b.end] and [a.end >= b.start] is symmetric and
    holds of 2024-01-01..2024-01-05 and 2024-01-05..2024-01-10, which
    share only a boundary day.  (1) [checkAvailability] reports as booked
    the specification's overlap sum.  (2) The calculator returns the
    capacity minus the specification's overlap sum over pending and
    confirmed rows.  (3, 4) [createBooking] returns only if every
    requested line fits beside the specification's overlap sum, and
    refuses a line by name only if it does not.  (5-7) The test is the
    specification's, is symmetric and includes the boundary day.  (8) The
    availability check of [confirmBooking] issues no overlap query: its
    outcome is a function of the stock rows and of the (item, quantity)
    lines of the booking, and no interval enters it. *)
Theorem C4_overlap_queries_use_predicate :
  (forall itemId s e userId w w' a,
      checkAvailability itemId s e userId w = (w', Returned a) ->
      capacity itemId w = Some (totalQuantity a)
      /\ alreadyBookedQuantity a = spec_sumOverlapping itemId s e every_status w
      /\ availableQuantity a
         = totalQuantity a - spec_sumOverlapping itemId s e every_status w)
  /\ (forall itemId s e w w' c,
         calculateAvailableQuantity itemId s e w = (w', Returned c) ->
         exists total,
           capacity itemId w = Some total
           /\ c = total - spec_sumOverlapping itemId s e active_statuses w)
  /\ (forall dto w w' order,
         createBooking dto w = (w', Returned order) ->
         Forall (fun item =>
                   exists total,
                     capacity (item_id item) w = Some total
                     /\ spec_sumOverlapping (item_id item) (start_date item)
                          (end_date item) every_status w + quantity item <= total)
                (items dto))
  /\ (forall dto w id,
         snd (createBooking dto w) = Thrown (not_enough_quantity id) ->
         exists item total,
           In item (items dto) /\ item_id item = id
           /\ capacity id w = Some total
           /\ spec_sumOverlapping id (start_date item) (end_date item) every_status w
              + quantity item > total)
  /\ (forall a_start a_end b_start b_end,
         spec_overlap a_start a_end b_start b_end = true
         <-> intervals_overlap a_start a_end b_start b_end)
  /\ (forall a_start a_end b_start b_end,
         intervals_overlap a_start a_end b_start b_end
         <-> intervals_overlap b_start b_end a_start a_end)
  /\ intervals_overlap (date_ms 2024 1 1) (date_ms 2024 1 5)
                       (date_ms 2024 1 5) (date_ms 2024 1 10)
  /\ (forall orderId userId w1 w2,
         storage_items w1 = storage_items w2 ->
         env w1 = env w2 ->
         items_of_order orderId w1 = items_of_order orderId w2 ->
         snd (confirmBooking orderId userId w1)
         = snd (confirmBooking orderId userId w2)).
Proof.
  split; [exact checkAvailability_sum |].
  split; [exact calculateAvailableQuantity_sum |].
  split; [exact createBooking_returned_sum |].
  split; [exact createBooking_refused_sum |].
  split; [exact spec_overlap_spec |].
  split; [unfold intervals_overlap; intros; lia |].
  split; [unfold intervals_overlap; vm_compute; split; discriminate |].
  intros orderId userId w1 w2 Hs He Hl.
  exact (proj1 (confirmBooking_gate_same orderId userId w1 w2 Hs He Hl)).
Qed.

(** Alice holds 3 tents of 5 for 1-5 January.  A query for 5-10 January,
    which shares only the 5th with her booking, finds her 3 tents booked
    and 2 available, by [checkAvailability] and by the calculator alike; a
    request for 3 tents for 5-10 January is refused. *)
Lemma C4_overlap_queries_use_predicate_witness :
  spec_sumOverlapping "tent" (jan 5) (jan 10) every_status depot_one_booking = 3
  /\ (capacity "tent" depot_one_booking = Some 5
      /\ 3 = spec_sumOverlapping "tent" (jan 5) (jan 10) every_status depot_one_booking
      /\ 2 = 5 - spec_sumOverlapping "tent" (jan 5) (jan 10) every_status
                   depot_one_booking)
  /\ (exists total,
         capacity "tent" depot_one_booking = Some total
         /\ 2 = total - spec_sumOverlapping "tent" (jan 5) (jan 10) active_statuses
                          depot_one_booking)
  /\ (exists item total,
         In item [line "tent" 3 (jan 5) (jan 10)] /\ item_id item = "tent"
         /\ capacity "tent" depot_one_booking = Some total
         /\ spec_sumOverlapping "tent" (start_date item) (end_date item) every_status
              depot_one_booking + quantity item > total).
Proof.
  destruct C4_overlap_queries_use_predicate
    as (Hcheck & Hcalc & _ & Hrefused & _).
  split; [vm_compute; reflexivity |].
  split; [| split].
  - apply (Hcheck "tent" (jan 5) (jan 10) "bob" depot_one_booking
             (fst (checkAvailability "tent" (jan 5) (jan 10) "bob" depot_one_booking))
             {| a_item_id := "tent"; availableQuantity := 2;
                alreadyBookedQuantity := 3; totalQuantity := 5;
                startDate := jan 5; endDate := jan 10 |}).
    vm_compute. reflexivity.
  - apply (Hcalc "tent" (jan 5) (jan 10) depot_one_booking
             (fst (calculateAvailableQuantity "tent" (jan 5) (jan 10)
                     depot_one_booking))).
    vm_compute. reflexivity.
  - apply (Hrefused (request "bob" [line "tent" 3 (jan 5) (jan 10)])
             depot_one_booking "tent").
    vm_compute. reflexivity.
Defined.

(** C4 as stated fails: the availability check of [confirmBooking] uses
    no interval test.  Bob's tent of 1-5 February overlaps no other row
    (only his own line lies in that range, and 1-5 January does not
    intersect it), so that 1 of 5 tents is claimed there, yet the
    confirmation is refused for lack of tents.  His 4 tents of 3-10
    January overlap Alice's 3 of 1-5 January, 7 of 5 tents being claimed
    on the overlap, yet the confirmation goes through. *)
Lemma C4_confirm_check_uses_no_interval :
  ~ intervals_overlap (jan 1) (jan 5) (feb 1) (feb 5)
  /\ spec_sumOverlapping "tent" (feb 1) (feb 5) every_status depot_after_confirm = 1
  /\ capacity "tent" depot_after_confirm = Some 5
  /\ snd (confirmBooking "order-1" "root" depot_after_confirm)
     = Thrown (not_enough_available "tent")
  /\ intervals_overlap (jan 1) (jan 5) (jan 3) (jan 10)
  /\ spec_sumOverlapping "tent" (jan 3) (jan 10) every_status depot_after_update = 7
  /\ capacity "tent" depot_after_update = Some 5
  /\ snd (confirmBooking "order-1" "root" depot_after_update)
     = Returned "Booking confirmed".
Proof.
  split; [| split; [| split; [| split; [| split]]]].
  - unfold intervals_overlap. vm_compute. intros [_ H]. apply H. reflexivity.
  - vm_compute. reflexivity.
  - vm_compute. reflexivity.
  - vm_compute. reflexivity.
  - unfold intervals_overlap. vm_compute. split; discriminate.
  - vm_compute. repeat split.
Qed.

(** *** The statuses of ledger rows under the operations of the service *)


















(** ** [generateOrderNumber] *)

Lemma In_upto (n : nat) :
  forall a z, a <= z < a + Z.of_nat n -> In z (upto n a).
Proof.
  induction n as [| n IH]; intros a z Hz; [lia |].
  simpl. destruct (Z.eq_dec a z) as [-> | Hne]; [now left |].
  right. apply IH. lia.
Qed.

Lemma random_part_checked :
  forallb (fun k =>
             let s := padStart 4 "0" (toString k) in
             Nat.eqb (String.length s) 4
             && (digits_value s =? k)
             && forallb is_digit (list_ascii_of_string s))
          (upto (Z.to_nat 10000) 0) = true.
Proof. vm_compute. reflexivity. Qed.

Lemma random_part_spec (z : Z) :
  0 <= z < 10000 ->
  String.length (padStart 4 "0" (toString z)) = 4%nat
  /\ digits_value (padStart 4 "0" (toString z)) = z
  /\ forallb is_digit (list_ascii_of_string (padStart 4 "0" (toString z))) = true.
Proof.
  intros Hz. pose proof random_part_checked as H.
  rewrite forallb_forall in H. specialize (H z).
  assert (In z (upto (Z.to_nat 10000) 0)) as Hin by (apply In_upto; lia).
  specialize (H Hin). cbv zeta in H.
  apply andb_true_iff in H. destruct H as [H H3].
  apply andb_true_iff in H. destruct H as [H1 H2].
  apply Nat.eqb_eq in H1. apply Z.eqb_eq in H2. repeat split; assumption.
Qed.

(** X23.  The format of order numbers.  [generateOrderNumber] always
    returns "ORD-", the date part, "-" and exactly four decimal digits,
    and the digits read as a number are the random draw modulo 10000; it
    consumes one draw and changes nothing else. *)
Theorem order_number_format (w : World) :
  exists digits,
    generateOrderNumber w
    = (with_env w (drawn (env w)),
       Returned ("ORD-" ++ today (env w) ++ "-" ++ digits))
    /\ String.length digits = 4%nat
    /\ forallb is_digit (list_ascii_of_string digits) = true
    /\ digits_value digits = random (env w) (draws (env w)) mod 10000.
Proof.
  exists (padStart 4 "0" (toString (random (env w) (draws (env w)) mod 10000))).
  split; [reflexivity |].
  destruct (random_part_spec (random (env w) (draws (env w)) mod 10000))
    as (H1 & H2 & H3).
  { apply Z.mod_pos_bound. lia. }
  repeat split; assumption.
Qed.

Lemma append_inj_l (p a b : string) : (p ++ a = p ++ b)%string -> a = b.
Proof.
  induction p as [| c p IH]; simpl; intros H; [exact H |].
  injection H as H. now apply IH.
Qed.

(** X24.  When two order numbers collide.  On the same day, with random
    parts in the range 0..9999 that [Math.floor(Math.random() * 10000)]
    has, two calls of [generateOrderNumber] return the same order number
    exactly when their random draws are the same. *)
Theorem order_numbers_collide_iff (w1 w2 : World)
        (Hday : today (env w1) = today (env w2))
        (Hr1 : 0 <= random (env w1) (draws (env w1)) < 10000)
        (Hr2 : 0 <= random (env w2) (draws (env w2)) < 10000) :
  snd (generateOrderNumber w1) = snd (generateOrderNumber w2)
  <-> random (env w1) (draws (env w1)) = random (env w2) (draws (env w2)).
Proof.
  unfold generateOrderNumber. cbv zeta. simpl snd. rewrite Hday.
  rewrite !Z.mod_small by assumption. split.
  - intros H. injection H as H.
    apply append_inj_l in H. injection H as H.
    destruct (random_part_spec (random (env w1) (draws (env w1))) Hr1)
      as (_ & H1 & _).
    destruct (random_part_spec (random (env w2) (draws (env w2))) Hr2)
      as (_ & H2 & _).
    rewrite <- H1, <- H2, H. reflexivity.
  - intros H. now rewrite H.
Qed.

(** Two worlds that both draw 42 on 1 January 2024 get the same number;
    after one more draw, 43, the number differs. *)
Lemma order_numbers_collide_iff_witness :
  snd (generateOrderNumber depot) = snd (generateOrderNumber depot_two_lines)
  /\ snd (generateOrderNumber depot)
     <> snd (generateOrderNumber (with_env depot (drawn quiet))).
Proof.
  assert (0 <= random (env depot) (draws (env depot)) < 10000) as Hr1
    by (vm_compute; split; [discriminate | reflexivity]).
  assert (0 <= random (env depot_two_lines) (draws (env depot_two_lines)) < 10000)
    as Hr2 by (vm_compute; split; [discriminate | reflexivity]).
  assert (0 <= random (env (with_env depot (drawn quiet)))
                  (draws (env (with_env depot (drawn quiet)))) < 10000)
    as Hr3 by (vm_compute; split; [discriminate | reflexivity]).
  split.
  - apply (proj2 (order_numbers_collide_iff depot depot_two_lines eq_refl Hr1 Hr2)).
    reflexivity.
  - intros H.
    apply (proj1 (order_numbers_collide_iff depot (with_env depot (drawn quiet))
                    eq_refl Hr1 Hr3)) in H.
    vm_compute in H. discriminate.
Defined.

(** ** Which ledger rows the availability answers depend on *)

Lemma filter_app_one {R} (p : R -> bool) (l : list R) (r : R) :
  p r = false -> filter p (l ++ [r]) = filter p l.
Proof. intros H. rewrite filter_app. simpl. rewrite H. apply app_nil_r. Qed.

(** X25.  A ledger row that is neither pending nor confirmed does not
    count for the availability calculator: with such a row added to
    [order_items], [calculateAvailableQuantity] ends as without it, for
    every item and range. *)
Theorem calculator_ignores_terminal_rows
        (itemId : string) (s e : Z) (w : World) (r : OrderItem)
        (Hterminal : oi_status r <> pending /\ oi_status r <> confirmed) :
  snd (calculateAvailableQuantity itemId s e
         (with_order_items w (order_items w ++ [r])))
  = snd (calculateAvailableQuantity itemId s e w).
Proof.
  rewrite !calculateAvailableQuantity_run. cbv zeta.
  cbn [env with_order_items with_env fault calls tick].
  assert (where_calc itemId s e r = false) as Hout.
  { destruct (where_calc itemId s e r) eqn:E; [| reflexivity].
    apply where_calc_spec in E. destruct E as (_ & [H | H] & _);
      destruct Hterminal; contradiction. }
  unfold overlapping_calc, capacity.
  cbn [order_items storage_items with_order_items].
  rewrite (filter_app_one _ _ _ Hout).
  destruct (fault _ _); [reflexivity |].
  destruct (fault _ _); [reflexivity |].
  destruct (single _); reflexivity.
Qed.

Lemma calculator_ignores_terminal_rows_witness :
  snd (calculateAvailableQuantity "tent" (jan 1) (jan 5)
         (with_order_items depot
            (order_items depot ++ [claim "o9" "tent" 5 (jan 1) (jan 5) cancelled_by_user])))
  = snd (calculateAvailableQuantity "tent" (jan 1) (jan 5) depot).
Proof.
  apply (calculator_ignores_terminal_rows "tent" (jan 1) (jan 5) depot
           (claim "o9" "tent" 5 (jan 1) (jan 5) cancelled_by_user)).
  split; discriminate.
Defined.

Lemma where_check_ignores_status orderId st itemId s e (l : list OrderItem) :
  map oi_quantity
    (filter (where_check itemId s e)
       (map (fun r =>
               if String.eqb (oi_order_id r) orderId
               then {| oi_order_id := oi_order_id r; oi_item_id := oi_item_id r;
                       oi_location_id := oi_location_id r; oi_quantity := oi_quantity r;
                       oi_start_date := oi_start_date r; oi_end_date := oi_end_date r;
                       oi_total_days := oi_total_days r; oi_status := st |}
               else r) l))
  = map oi_quantity (filter (where_check itemId s e) l).
Proof.
  induction l as [| r l IH]; [reflexivity |].
  cbn [map filter].
  destruct (String.eqb (oi_order_id r) orderId);
    unfold where_check in *;
    cbn [oi_item_id oi_start_date oi_end_date];
    destruct (String.eqb (oi_item_id r) itemId
              && ((oi_start_date r <=? e) && (oi_end_date r >=? s)));
    cbn [map oi_quantity]; now rewrite IH.
Qed.

(** X26.  The status of a line item plays no part in [checkAvailability]
    or in the check of [createBooking]: with all line items of a booking
    set to any status, rejected, cancelled or deleted included,
    [checkAvailability] ends as before and a requested line exceeds
    availability exactly when it did before. *)
Theorem check_availability_ignores_status
        (orderId : string) (st : Status) (itemId reader : string) (s e : Z) (w : World) :
  snd (checkAvailability itemId s e reader (set_order_items_status orderId st w))
  = snd (checkAvailability itemId s e reader w)
  /\ (forall item,
         exceeds_availability (set_order_items_status orderId st w) item
         <-> exceeds_availability w item).
Proof.
  split.
  - rewrite !checkAvailability_run. cbv zeta.
    cbn [env set_order_items_status with_order_items with_env fault calls tick].
    unfold overlappingOrders_check, capacity.
    cbn [order_items storage_items set_order_items_status with_order_items].
    rewrite where_check_ignores_status.
    destruct (fault _ _); [reflexivity |].
    destruct (fault _ _); [reflexivity |].
    destruct (single _); reflexivity.
  - intros item. unfold exceeds_availability, capacity, overlappingOrders_create.
    cbn [order_items storage_items set_order_items_status with_order_items].
    change (where_create item)
      with (where_check (item_id item) (start_date item) (end_date item)).
    rewrite where_check_ignores_status. reflexivity.
Qed.

(** X27.  Only overlapping rows of the item count.  A ledger row for
    another item, or one that ends before the range begins or begins
    after it ends, changes neither the answer of [checkAvailability] nor
    that of the availability calculator. *)
Theorem availability_ignores_unrelated_rows
        (itemId reader : string) (s e : Z) (w : World) (r : OrderItem)
        (Hunrelated : oi_item_id r <> itemId
                      \/ oi_end_date r < s \/ e < oi_start_date r) :
  snd (checkAvailability itemId s e reader (with_order_items w (order_items w ++ [r])))
  = snd (checkAvailability itemId s e reader w)
  /\ snd (calculateAvailableQuantity itemId s e
            (with_order_items w (order_items w ++ [r])))
     = snd (calculateAvailableQuantity itemId s e w).
Proof.
  assert (where_check itemId s e r = false) as Hcheck.
  { destruct (where_check itemId s e r) eqn:E; [| reflexivity].
    apply where_check_spec in E. destruct E as [Hid [H1 H2]].
    destruct Hunrelated as [H | [H | H]]; [contradiction | lia | lia]. }
  assert (where_calc itemId s e r = false) as Hcalc.
  { destruct (where_calc itemId s e r) eqn:E; [| reflexivity].
    apply where_calc_implies_check in E. congruence. }
  rewrite !checkAvailability_run, !calculateAvailableQuantity_run. cbv zeta.
  cbn [env with_order_items with_env fault calls tick].
  unfold overlappingOrders_check, overlapping_calc, capacity.
  cbn [order_items storage_items with_order_items].
  rewrite (filter_app_one _ _ _ Hcheck), (filter_app_one _ _ _ Hcalc).
  split;
    (destruct (fault _ _); [reflexivity |]);
    (destruct (fault _ _); [reflexivity |]);
    destruct (single _); reflexivity.
Qed.

Lemma availability_ignores_unrelated_rows_witness :
  snd (checkAvailability "tent" (jan 6) (jan 10) "bob"
         (with_order_items depot
            (order_items depot ++ [claim "o9" "tent" 5 (jan 1) (jan 5) pending])))
  = snd (checkAvailability "tent" (jan 6) (jan 10) "bob" depot).
Proof.
  apply (availability_ignores_unrelated_rows "tent" "bob" (jan 6) (jan 10) depot
           (claim "o9" "tent" 5 (jan 1) (jan 5) pending)).
  right. left. vm_compute. reflexivity.
Defined.

(** ** [cancelBooking]: witnesses of the two general facts *)

Lemma cancel_by_stranger_forbidden_witness :
  exists w',
    cancelBooking "o1" "bob" depot_with_vera
    = (w', Thrown (ForbiddenException "You can only cancel your own bookings"))
    /\ same_tables depot_with_vera w'.
Proof.
  apply (cancel_by_stranger_forbidden "o1" "bob" "user" depot_with_vera
           (booking "o1" "alice" confirmed "ORD-20240101-0001")).
  - intros n. reflexivity.
  - reflexivity.
  - discriminate.
  - reflexivity.
  - reflexivity.
Defined.

Lemma cancel_by_owner_any_status_witness :
  exists w',
    cancelBooking "o1" "alice" depot_with_vera
    = (w', Returned "Booking cancelled by user")
    /\ orders w' = orders (set_order_status "o1" cancelled_by_user depot_with_vera).
Proof.
  apply (cancel_by_owner_any_status "o1" "alice" "user" depot_with_vera
           (booking "o1" "alice" confirmed "ORD-20240101-0001")).
  - intros n. reflexivity.
  - reflexivity.
  - reflexivity.
  - reflexivity.
  - reflexivity.
Defined.

(** ** The number of days of a line item *)

Lemma ceil_div_bounds (a b : Z) :
  0 < b -> b * (ceil_div a b - 1) < a <= b * ceil_div a b.
Proof.
  intros Hb. unfold ceil_div.
  pose proof (Z.div_mod (- a) b ltac:(lia)) as Hdm.
  pose proof (Z.mod_pos_bound (- a) b Hb) as Hmod.
  nia.
Qed.

Lemma line_of_total_days
      (oid : string) (w : World) (item : BookingItem) (row : OrderItem) :
  line_of oid w item row ->
  ms_per_day * (oi_total_days row - 1) < end_date item - start_date item
  /\ end_date item - start_date item <= ms_per_day * oi_total_days row
  /\ (start_date item = end_date item -> oi_total_days row = 0)
  /\ (end_date item < start_date item -> oi_total_days row <= 0).
Proof.
  intros (_ & _ & _ & _ & _ & _ & Hdays & _).
  pose proof (ceil_div_bounds (end_date item - start_date item) ms_per_day
                ltac:(reflexivity)) as [Hlo Hhi].
  rewrite <- Hdays in Hlo, Hhi.
  assert (ms_per_day = 86400000) as Hms by reflexivity.
  rewrite Hms in *. repeat split; try assumption; intros; lia.
Qed.

(** X30.  The [total_days] that [createBooking] writes for a line item is
    the number of days of its range rounded up: the least integer [n]
    with [end - start <= n] days.  A line that starts and ends at the same
    instant therefore gets 0 days, and a line whose end lies before its
    start gets a number of days that is not positive; neither is
    refused on that account. *)
Theorem created_lines_round_days_up
        (dto : CreateBookingDto) (w w' : World) (order : Order)
        (Hrun : createBooking dto w = (w', Returned order)) :
  exists rows,
    order_items w' = (order_items w ++ rows)%list
    /\ Forall2
         (fun item row =>
            ms_per_day * (oi_total_days row - 1) < end_date item - start_date item
            /\ end_date item - start_date item <= ms_per_day * oi_total_days row
            /\ (start_date item = end_date item -> oi_total_days row = 0)
            /\ (end_date item < start_date item -> oi_total_days row <= 0))
         (items dto) rows.
Proof.
  destruct (createBooking_returned dto w w' order Hrun)
    as (userId & w1 & w2 & _ & _ & _ & _ & _ & _ & _ & Hi & _ & _ & Hins).
  destruct (insert_loop_returned order (items dto) w2 w' Hins)
    as [rows (Hrows & Hi' & _)].
  exists rows. split; [congruence |].
  eapply Forall2_impl; [| exact Hrows].
  intros item row. apply line_of_total_days.
Qed.

Lemma created_lines_round_days_up_witness :
  exists rows,
    order_items (fst (createBooking (request "alice" [line "tent" 1 (jan 5) (jan 1)]) depot))
    = (order_items depot ++ rows)%list
    /\ Forall2
         (fun item row =>
            ms_per_day * (oi_total_days row - 1) < end_date item - start_date item
            /\ end_date item - start_date item <= ms_per_day * oi_total_days row
            /\ (start_date item = end_date item -> oi_total_days row = 0)
            /\ (end_date item < start_date item -> oi_total_days row <= 0))
         [line "tent" 1 (jan 5) (jan 1)] rows.
Proof.
  apply (created_lines_round_days_up
           (request "alice" [line "tent" 1 (jan 5) (jan 1)]) depot
           (fst (createBooking (request "alice" [line "tent" 1 (jan 5) (jan 1)]) depot))
           (booking "order-0" "alice" pending "ORD-20240101-0042")).
  vm_compute. reflexivity.
Defined.
